(** * suds_marketo: the Marketo SOAP facade, embedded and verified

    The development follows [suds_marketo/__init__.py]:

    - [Digest]: [hashlib.sha1] and [hmac.new] on byte strings, and the
      module-level function [sign];
    - [Py]: the Python values the facade handles, the heap of suds objects
      and lists, and the state-and-exception monad the methods run in;
    - [Facade]: the class [Client] ([__init__], [__getattribute__],
      [set_header], [call_service] and the convenience builders);
    - the properties of the specification, one theorem each;
    - further properties of the methods, read off the source (X1, X2, ...). *)

From Stdlib Require Import ZArith List String Ascii Lia Bool.
From stdpp Require Import base list.
Import ListNotations.

Set Warnings "-register-all".

(* ===================================================================== *)
(** * Byte strings, SHA-1 and HMAC                                        *)
(* ===================================================================== *)

Module Digest.

Local Open Scope Z_scope.

(** A Python 2 [str] is a byte string: a [string] here, one [ascii] per
    byte.  The digest code works on the byte values. *)
Definition bytes_of_string (s : string) : list Z :=
  map (fun c => Z.of_N (N_of_ascii c)) (list_ascii_of_string s).

Definition w32 (x : Z) : Z := x mod 2 ^ 32.

Definition rotl (n x : Z) : Z :=
  w32 (Z.lor (Z.shiftl x n) (Z.shiftr x (32 - n))).

(** Big-endian encoding of [x] on [n] bytes. *)
Fixpoint be_bytes (n : nat) (x : Z) : list Z :=
  match n with
  | O => []
  | S n' => (x / 2 ^ (8 * Z.of_nat n')) mod 256 :: be_bytes n' x
  end.

Definition be_word (bs : list Z) : Z :=
  fold_left (fun acc b => acc * 256 + b) bs 0.

(** FIPS 180 padding: a 1 bit, zeros up to 56 mod 64, the bit length on 8
    bytes. *)
Definition sha1_pad (msg : list Z) : list Z :=
  let len := Z.of_nat (length msg) in
  let zeros := Z.to_nat ((55 - len) mod 64) in
  msg ++ 128 :: repeat 0 zeros ++ be_bytes 8 (8 * len).

Fixpoint chunks (fuel n : nat) (l : list Z) : list (list Z) :=
  match fuel with
  | O => []
  | S fuel' =>
      match l with
      | [] => []
      | _ => firstn n l :: chunks fuel' n (skipn n l)
      end
  end.

Definition words_of_block (block : list Z) : list Z :=
  map be_word (chunks 16 4 block).

(** The message schedule, most recent word first: with [w] holding
    [w(i-1) .. w(0)], the next word is
    [rotl 1 (w(i-3) xor w(i-8) xor w(i-14) xor w(i-16))]. *)
Fixpoint expand (n : nat) (w : list Z) : list Z :=
  match n with
  | O => w
  | S n' =>
      let x := rotl 1 (Z.lxor (Z.lxor (nth 2 w 0) (nth 7 w 0))
                              (Z.lxor (nth 13 w 0) (nth 15 w 0))) in
      expand n' (x :: w)
  end.

Definition schedule (block : list Z) : list Z :=
  rev (expand 64 (rev (words_of_block block))).

Definition sha1_f (i : nat) (b c d : Z) : Z :=
  if (i <? 20)%nat then Z.lor (Z.land b c) (Z.land (Z.lxor b 4294967295) d)
  else if (i <? 40)%nat then Z.lxor (Z.lxor b c) d
  else if (i <? 60)%nat then
    Z.lor (Z.lor (Z.land b c) (Z.land b d)) (Z.land c d)
  else Z.lxor (Z.lxor b c) d.

Definition sha1_k (i : nat) : Z :=
  if (i <? 20)%nat then 1518500249
  else if (i <? 40)%nat then 1859775393
  else if (i <? 60)%nat then 2400959708
  else 3395469782.

Definition regs : Type := Z * Z * Z * Z * Z.

Definition sha1_round (st : nat * regs) (w : Z) : nat * regs :=
  let '(i, (a, b, c, d, e)) := st in
  let temp := w32 (rotl 5 a + sha1_f i b c d + e + sha1_k i + w) in
  (S i, (temp, a, rotl 30 b, c, d)).

Definition sha1_block (h : regs) (block : list Z) : regs :=
  let '(h0, h1, h2, h3, h4) := h in
  let '(_, (a, b, c, d, e)) := fold_left sha1_round (schedule block) (O, h) in
  (w32 (h0 + a), w32 (h1 + b), w32 (h2 + c), w32 (h3 + d), w32 (h4 + e)).

Definition sha1_init : regs :=
  (1732584193, 4023233417, 2562383102, 271733878, 3285377520).

(** [hashlib.sha1(msg).digest()]: 20 bytes. *)
Definition sha1 (msg : list Z) : list Z :=
  let padded := sha1_pad msg in
  let '(h0, h1, h2, h3, h4) :=
    fold_left sha1_block (chunks (length padded) 64 padded) sha1_init in
  be_bytes 4 h0 ++ be_bytes 4 h1 ++ be_bytes 4 h2 ++ be_bytes 4 h3
    ++ be_bytes 4 h4.

(** [hmac.new(key, msg, digestmod).digest()] for a digest of block size
    [blocksize]: a key longer than a block is hashed first, then padded with
    zero bytes; the inner hash runs over [key xor 0x36 .. ++ msg], the outer
    over [key xor 0x5C .. ++ inner]. *)
Definition hmac_new (digest : list Z -> list Z) (blocksize : nat)
    (key msg : list Z) : list Z :=
  let key1 := if (blocksize <? length key)%nat then digest key else key in
  let key2 := key1 ++ repeat 0 (blocksize - length key1) in
  let inner := digest (map (Z.lxor 54) key2 ++ msg) in
  digest (map (Z.lxor 92) key2 ++ inner).

Definition hmac_sha1 (key msg : list Z) : list Z :=
  hmac_new sha1 64 key msg.

Definition hexchars : list ascii := list_ascii_of_string "0123456789abcdef".

Definition hex_digit (n : Z) : ascii :=
  nth (Z.to_nat (n mod 16)) hexchars "0"%char.

(** [hexdigest()]: two lowercase hexadecimal digits per byte. *)
Fixpoint hexdigest (bs : list Z) : string :=
  match bs with
  | [] => EmptyString
  | b :: bs' => String (hex_digit (b / 16)) (String (hex_digit b) (hexdigest bs'))
  end.

(** [str.lower()] on a byte string: the letters A-Z move to a-z. *)
Definition lower_char (c : ascii) : ascii :=
  let n := N_of_ascii c in
  if ((65 <=? n) && (n <=? 90))%N then ascii_of_N (n + 32) else c.

Fixpoint lower (s : string) : string :=
  match s with
  | EmptyString => EmptyString
  | String c s' => String (lower_char c) (lower s')
  end.

(** [sign(message, encryption_key)], lines 12-14. *)
Definition sign (message encryption_key : string) : string :=
  let digest :=
    hmac_new sha1 64 (bytes_of_string encryption_key) (bytes_of_string message) in
  lower (hexdigest digest).

(** The signature as the specification words it: the lowercase hexadecimal
    HMAC-SHA1 digest of [T + U] keyed by [K]. *)
Definition is_lower_hex (c : ascii) : bool :=
  let n := N_of_ascii c in
  ((48 <=? n) && (n <=? 57) || (97 <=? n) && (n <=? 102))%N.

Definition spec_signature (T U K : string) : string :=
  hexdigest (hmac_sha1 (bytes_of_string K) (bytes_of_string (T ++ U))).

End Digest.

Import Digest.

Local Open Scope string_scope.
Local Open Scope list_scope.

(* ===================================================================== *)
(** * Python values, the heap and the monad                               *)
(* ===================================================================== *)

(** The values the facade handles.  Suds objects, Python lists and the
    callables bound to remote operations are mutable: they live on the heap
    and are handled through [VRef].  [VTuple] is an immutable sequence (a
    tuple, or a list the caller hands in and nobody mutates). *)
Inductive value : Type :=
| VNone
| VBool (b : bool)
| VInt (z : Z)
| VStr (s : string)
| VTuple (vs : list value)
| VRef (l : nat)                    (* an address of the heap *)
| VClient (i : nat)                 (* the suds client of facade [i] *)
| VBound (i : nat) (name : string)  (* method [name] of facade [i] *)
| VClassAttr (name : string)        (* a class-level list of [Client] *)
| VOpaque (name : string).          (* an object the facade never inspects *)

Inductive exn : Type :=
| AttributeError (name : string)
| TypeError
| ValueError
| IndexError
| UnboundLocalError (var : string)
| RuntimeError                      (* maximum recursion depth exceeded *)
| TypeNotFound (name : string)      (* suds: factory.create of an unknown type *)
| MethodNotFound (name : string)    (* suds: unknown operation *)
| WebFault (code : nat)             (* a fault of the remote service *)
| NotCallable                       (* calling a suds object, see [invoke] *)
| Unmodelled.                       (* outside the embedding, see [invoke] *)

Inductive result (A : Type) : Type :=
| Ok (a : A)
| Raise (e : exn).
Arguments Ok {A} a.
Arguments Raise {A} e.

Inductive hobj : Type :=
| HObject (cls : string) (fields : list (string * value))
| HList (items : list value)
| HMethod (client : nat) (name : string) (fields : list (string * value)).

(** What [factory.create] builds for an element of a structured type: a
    simple element starts as [None], an enumeration member is its own name,
    an unbounded element an empty list, a nested structure a nested object. *)
Inductive shape : Type :=
| ShNone
| ShStr (s : string)
| ShList
| ShObj (cls : string) (fields : list (string * shape)).

(** The service description the suds client reads from the WSDL:
    [sd[0].types] with the layout of every type, and the operations of
    [sd[0].service.ports[0].binding]. *)
Record service_desc : Type := {
  sd_types : list (string * list (string * shape));
  sd_methods : list string
}.

Record suds_client_t : Type := {
  location : value;
  sd : service_desc;
  soapheaders : value
}.

(** The attributes [__init__] sets on a facade. *)
Record instance : Type := {
  soap_endpoint : value;
  user_id : value;
  encryption_key : value;
  suds_client : suds_client_t
}.

(** One invocation of a remote operation, with the heap as the toolkit
    marshals it at that moment. *)
Record call : Type := {
  call_client : nat;
  call_op : string;
  call_args : list value;
  call_headers : value;
  call_heap : list hobj
}.

(** [suds_types] and [suds_methods] are the two lists of the class body
    (lines 27-30): one list each for the whole program, whatever the number
    of facades. *)
Record state : Type := {
  heap : list hobj;
  suds_types : list string;
  suds_methods : list string;
  instances : list instance;
  calls : list call;
  clock : nat
}.

Definition set_heap (s : state) (h : list hobj) : state :=
  {| heap := h; suds_types := suds_types s; suds_methods := suds_methods s;
     instances := instances s; calls := calls s; clock := clock s |}.

Definition set_instances (s : state) (insts : list instance) : state :=
  {| heap := heap s; suds_types := suds_types s; suds_methods := suds_methods s;
     instances := insts; calls := calls s; clock := clock s |}.

Definition M (A : Type) : Type := state -> result A * state.

Definition ret {A} (a : A) : M A := fun s => (Ok a, s).
Definition raise {A} (e : exn) : M A := fun s => (Raise e, s).

Definition bind {A B} (m : M A) (k : A -> M B) : M B :=
  fun s =>
    match m s with
    | (Ok a, s') => k a s'
    | (Raise e, s') => (Raise e, s')
    end.

Notation "x <- m ;; k" := (bind m (fun x => k))
  (at level 65, m at next level, right associativity).
Notation "m ;;; k" := (bind m (fun _ => k))
  (at level 65, right associativity).

Definition lift {A} (r : result A) : M A := fun s => (r, s).

(** [try: m  except: pass]: whatever [m] raises is dropped; what [m] did to
    the state before raising stays. *)
Definition try_pass {A} (m : M A) : M (option A) :=
  fun s =>
    match m s with
    | (Ok a, s') => (Ok (Some a), s')
    | (Raise _, s') => (Ok None, s')
    end.

Fixpoint for_each {A} (xs : list A) (body : A -> M unit) : M unit :=
  match xs with
  | [] => ret tt
  | x :: xs' => body x ;;; for_each xs' body
  end.

(** ** Attribute lists *)

Fixpoint assoc {A} (name : string) (fs : list (string * A)) : option A :=
  match fs with
  | [] => None
  | (n, x) :: fs' => if String.eqb n name then Some x else assoc name fs'
  end.

(** suds' [Object.__setattr__]: an existing attribute is overwritten in
    place, a new one goes to the end of the key list. *)
Fixpoint set_field (name : string) (v : value) (fs : list (string * value))
    : list (string * value) :=
  match fs with
  | [] => [(name, v)]
  | (n, x) :: fs' =>
      if String.eqb n name then (n, v) :: fs' else (n, x) :: set_field name v fs'
  end.

Definition mem_str (name : string) (l : list string) : bool :=
  existsb (String.eqb name) l.

(** ** Reading the heap *)

Definition cell_fields (o : hobj) : option (list (string * value)) :=
  match o with
  | HObject _ fs => Some fs
  | HMethod _ _ fs => Some fs
  | HList _ => None
  end.

Definition obj_field (h : list hobj) (v : value) (name : string)
    : option value :=
  match v with
  | VRef l =>
      match h !! l with
      | Some o =>
          match cell_fields o with
          | Some fs => assoc name fs
          | None => None
          end
      | None => None
      end
  | _ => None
  end.

Definition list_items (h : list hobj) (v : value) : option (list value) :=
  match v with
  | VRef l =>
      match h !! l with
      | Some (HList items) => Some items
      | _ => None
      end
  | _ => None
  end.

Definition class_list (s : state) (name : string) : list value :=
  if String.eqb name "suds_types" then map VStr (suds_types s)
  else map VStr (suds_methods s).

Definition chars (s : string) : list value :=
  map (fun c => VStr (String c EmptyString)) (list_ascii_of_string s).

Definition is_nil {A} (l : list A) : bool :=
  match l with [] => true | _ => false end.

(** Truth value: [None], [False], zero and empty containers are false; a
    suds object counts its attributes ([Object.__len__]). *)
Definition truthy (s : state) (v : value) : bool :=
  match v with
  | VNone => false
  | VBool b => b
  | VInt z => negb (Z.eqb z 0)
  | VStr x => negb (String.eqb x "")
  | VTuple vs => negb (is_nil vs)
  | VRef l =>
      match heap s !! l with
      | Some (HObject _ fs) => negb (is_nil fs)
      | Some (HList items) => negb (is_nil items)
      | _ => true
      end
  | VClassAttr name => negb (is_nil (class_list s name))
  | _ => true
  end.

(** [if v: a  else: b]. *)
Definition if_truthy {A} (v : value) (a b : state -> result A * state)
    : state -> result A * state :=
  fun s => if truthy s v then a s else b s.

(** [v == "literal"]. *)
Definition eq_str (v : value) (lit : string) : bool :=
  match v with
  | VStr x => String.eqb x lit
  | _ => false
  end.

(** [len(v)], where [v] has one. *)
Definition py_len (s : state) (v : value) : option nat :=
  match v with
  | VStr x => Some (String.length x)
  | VTuple vs => Some (length vs)
  | VRef l =>
      match heap s !! l with
      | Some (HObject _ fs) => Some (length fs)
      | Some (HList items) => Some (length items)
      | _ => None
      end
  | VClassAttr name => Some (length (class_list s name))
  | _ => None
  end.

Definition nth_or_IndexError (vs : list value) (n : nat) : result value :=
  match vs !! n with
  | Some v => Ok v
  | None => Raise IndexError
  end.

(** [v[n]] for a literal index [n].  A suds object answers with the value of
    its [n]-th attribute. *)
Definition getitem (v : value) (n : nat) : M value :=
  fun s =>
    match v with
    | VStr x => (nth_or_IndexError (chars x) n, s)
    | VTuple vs => (nth_or_IndexError vs n, s)
    | VClassAttr name => (nth_or_IndexError (class_list s name) n, s)
    | VRef l =>
        match heap s !! l with
        | Some (HList items) => (nth_or_IndexError items n, s)
        | Some (HObject _ fs) =>
            match fs !! n with
            | Some (k, _) =>
                match assoc k fs with
                | Some x => (Ok x, s)
                | None => (Raise (AttributeError k), s)
                end
            | None => (Raise IndexError, s)
            end
        | Some (HMethod _ _ _) => (Raise (AttributeError "__getitem__"), s)
        | None => (Raise TypeError, s)
        end
    | _ => (Raise TypeError, s)
    end.

(** [iter(v)]: the elements a [for] loop or an unpacking sees.  A suds
    object yields its (name, value) pairs. *)
Definition py_iter (v : value) : M (list value) :=
  fun s =>
    match v with
    | VStr x => (Ok (chars x), s)
    | VTuple vs => (Ok vs, s)
    | VClassAttr name => (Ok (class_list s name), s)
    | VRef l =>
        match heap s !! l with
        | Some (HList items) => (Ok items, s)
        | Some (HObject _ fs) =>
            (Ok (map (fun kv => VTuple [VStr (fst kv); snd kv]) fs), s)
        | _ => (Raise TypeError, s)
        end
    | _ => (Raise TypeError, s)
    end.

(** [a, b, c = v]. *)
Definition unpack3 (v : value) : M (value * value * value) :=
  vs <- py_iter v ;;
  match vs with
  | [a; b; c] => ret (a, b, c)
  | _ => raise ValueError
  end.

Definition unpack2 (v : value) : M (value * value) :=
  vs <- py_iter v ;;
  match vs with
  | [a; b] => ret (a, b)
  | _ => raise ValueError
  end.

(** [v.name], for the attribute names the facade reads on the objects it
    builds.  The client of the toolkit and its opaque objects are not looked
    into. *)
Definition getattr (v : value) (name : string) : M value :=
  fun s =>
    match v with
    | VRef l =>
        match heap s !! l with
        | Some o =>
            match obj_field (heap s) v name with
            | Some x => (Ok x, s)
            | None => (Raise (AttributeError name), s)
            end
        | None => (Raise Unmodelled, s)
        end
    | VClient _ | VOpaque _ => (Raise Unmodelled, s)
    | _ => (Raise (AttributeError name), s)
    end.

(** [v.name = x]. *)
Definition setattr (v : value) (name : string) (x : value) : M unit :=
  fun s =>
    match v with
    | VRef l =>
        match heap s !! l with
        | Some (HObject cls fs) =>
            (Ok tt, set_heap s (<[l := HObject cls (set_field name x fs)]> (heap s)))
        | Some (HMethod c n fs) =>
            (Ok tt, set_heap s (<[l := HMethod c n (set_field name x fs)]> (heap s)))
        | Some (HList _) => (Raise (AttributeError name), s)
        | None => (Raise Unmodelled, s)
        end
    | VClient _ | VOpaque _ => (Raise Unmodelled, s)
    | _ => (Raise (AttributeError name), s)
    end.

Definition py_add (a b : value) : result value :=
  match a, b with
  | VStr x, VStr y => Ok (VStr (x ++ y))
  | VInt x, VInt y => Ok (VInt (x + y))
  | _, _ => Raise TypeError
  end.

(** [sign] applied to Python values: [hmac.new] wants byte strings. *)
Definition sign_values (message encryption_key : value) : result value :=
  match message, encryption_key with
  | VStr m, VStr k => Ok (VStr (sign m k))
  | _, _ => Raise TypeError
  end.

(** ** Instantiating a structured type

    [instantiate base sh] is the value of an element of shape [sh] and the
    cells it needs, laid out from address [base] on. *)
Fixpoint instantiate (base : nat) (sh : shape) : value * list hobj :=
  match sh with
  | ShNone => (VNone, [])
  | ShStr x => (VStr x, [])
  | ShList => (VRef base, [HList []])
  | ShObj cls fs =>
      let fix fill (b : nat) (fs : list (string * shape))
          : list (string * value) * list hobj :=
        match fs with
        | [] => ([], [])
        | (n, sh') :: fs' =>
            let '(v, c1) := instantiate b sh' in
            let '(vs, c2) := fill (b + length c1) fs' in
            ((n, v) :: vs, c1 ++ c2)
        end in
      let '(fvs, cs) := fill (S base) fs in
      (VRef base, HObject cls fvs :: cs)
  end.

Fixpoint fill_fields (b : nat) (fs : list (string * shape))
    : list (string * value) * list hobj :=
  match fs with
  | [] => ([], [])
  | (n, sh') :: fs' =>
      let '(v, c1) := instantiate b sh' in
      let '(vs, c2) := fill_fields (b + length c1) fs' in
      ((n, v) :: vs, c1 ++ c2)
  end.

(* ===================================================================== *)
(** * The class [Client]                                                  *)
(* ===================================================================== *)

Definition MARKETO_WSDL : string := "http://app.marketo.com/soap/mktows/2_3?WSDL".

(** The names [__getattribute__] never looks up among the SOAP names
    (line 63 and line 66). *)
Definition reserved (name : string) : bool :=
  String.eqb name "suds_types" || String.eqb name "suds_methods".

Definition instance_attributes : list string :=
  ["soap_endpoint"; "user_id"; "encryption_key"; "suds_client"].

Definition class_methods : list string :=
  ["__init__"; "__getattribute__"; "set_header"; "build_lead_record";
   "call_service"; "get_lead"; "get_lead_IDNUM"; "get_lead_by_cookie";
   "sync_lead"; "sync_multiple_leads"; "request_campaign"; "merge_leads";
   "get_lead_activity"; "sync_custom_objects"; "sync_m_objects";
   "describe_m_objects"].

(** What every new-style class inherits from [object]. *)
Definition object_attributes : list string :=
  ["__class__"; "__doc__"; "__dict__"; "__module__"; "__weakref__";
   "__new__"; "__repr__"; "__str__"; "__hash__"; "__setattr__";
   "__delattr__"; "__reduce__"; "__reduce_ex__"; "__format__";
   "__sizeof__"; "__subclasshook__"].

(** The names the class defines itself. *)
Definition static_names : list string :=
  instance_attributes ++ ["MARKETO_WSDL"; "suds_types"; "suds_methods"]
    ++ class_methods.

(** [super(Client, self).__getattribute__(name)]: the attributes of the
    instance, then those of the class, then those of [object]. *)
Definition object_getattribute (self : nat) (name : string) : M value :=
  fun s =>
    match instances s !! self with
    | None => (Raise Unmodelled, s)
    | Some inst =>
        if String.eqb name "soap_endpoint" then (Ok (soap_endpoint inst), s)
        else if String.eqb name "user_id" then (Ok (user_id inst), s)
        else if String.eqb name "encryption_key" then (Ok (encryption_key inst), s)
        else if String.eqb name "suds_client" then (Ok (VClient self), s)
        else if String.eqb name "MARKETO_WSDL" then (Ok (VStr MARKETO_WSDL), s)
        else if reserved name then (Ok (VClassAttr name), s)
        else if mem_str name class_methods then (Ok (VBound self name), s)
        else if mem_str name object_attributes then (Ok (VOpaque name), s)
        else (Raise (AttributeError name), s)
    end.

(** [self.suds_client] as [__getattribute__] itself evaluates it (lines 65
    and 68).  The access re-enters [__getattribute__('suds_client')]: when
    that name is among the SOAP names the method calls itself without end
    and Python gives up with a RuntimeError; otherwise the attribute of the
    instance is returned. *)
Definition self_suds_client (self : nat) : M nat :=
  fun s =>
    if mem_str "suds_client" (suds_types s) || mem_str "suds_client" (suds_methods s)
    then (Raise RuntimeError, s)
    else
      match instances s !! self with
      | Some _ => (Ok self, s)
      | None => (Raise Unmodelled, s)
      end.

(** [client.factory.create(name)]. *)
Definition factory_create (c : nat) (name : string) : M value :=
  fun s =>
    match instances s !! c with
    | None => (Raise Unmodelled, s)
    | Some inst =>
        match assoc name (sd_types (sd (suds_client inst))) with
        | None => (Raise (TypeNotFound name), s)
        | Some fs =>
            let '(v, cells) := instantiate (length (heap s)) (ShObj name fs) in
            (Ok v, set_heap s (heap s ++ cells))
        end
    end.

(** [client.service.__getattr__(name)]: a new callable for the operation. *)
Definition service_getattr (c : nat) (name : string) : M value :=
  fun s =>
    match instances s !! c with
    | None => (Raise Unmodelled, s)
    | Some inst =>
        if mem_str name (sd_methods (sd (suds_client inst))) then
          (Ok (VRef (length (heap s))),
           set_heap s (heap s ++
             [HMethod c name [("client", VClient c); ("method", VOpaque name)]]))
        else (Raise (MethodNotFound name), s)
    end.

(** [Client.__getattribute__], lines 58-70. *)
Definition getattribute (self : nat) (name : string) : M value :=
  fun s =>
    if negb (reserved name) && mem_str name (suds_types s) then
      (c <- self_suds_client self ;; factory_create c name) s
    else if negb (reserved name) && mem_str name (suds_methods s) then
      (c <- self_suds_client self ;; service_getattr c name) s
    else object_getattribute self name s.

Definition set_options (c : nat) (headers : value) : M unit :=
  fun s =>
    match instances s !! c with
    | None => (Raise Unmodelled, s)
    | Some inst =>
        let sc := suds_client inst in
        let inst' :=
          {| soap_endpoint := soap_endpoint inst; user_id := user_id inst;
             encryption_key := encryption_key inst;
             suds_client := {| location := location sc; sd := sd sc;
                               soapheaders := headers |} |} in
        (Ok tt, set_instances s (<[c := inst']> (instances s)))
    end.

Definition append_class_list (name : string) (x : string) : M unit :=
  fun s =>
    if String.eqb name "suds_types" then
      (Ok tt, {| heap := heap s; suds_types := suds_types s ++ [x];
                 suds_methods := suds_methods s; instances := instances s;
                 calls := calls s; clock := clock s |})
    else
      (Ok tt, {| heap := heap s; suds_types := suds_types s;
                 suds_methods := suds_methods s ++ [x]; instances := instances s;
                 calls := calls s; clock := clock s |}).

Section Facade.

(** The world outside: the clock, as [rfc3339(datetime.utcnow(), ...)]
    prints it at each reading, and what the remote service answers to the
    [k]-th invocation (a response, or a fault or transport error). *)
Variable rfc3339_utcnow : nat -> string.
Variable respond : nat -> result value.

Definition utcnow : M string :=
  fun s =>
    (Ok (rfc3339_utcnow (clock s)),
     {| heap := heap s; suds_types := suds_types s;
        suds_methods := suds_methods s; instances := instances s;
        calls := calls s; clock := S (clock s) |}).

(** [f(args...)].  Only the callables bound to remote operations are run:
    the request goes out with the headers the client holds at that moment
    and the raw answer comes back.  An instance of a structured type cannot
    be called; which exception says so is the toolkit's matter, not the
    facade's ([AttributeError] where suds objects are classic-class
    instances, [TypeError] where they are new-style), so the embedding names
    the outcome [NotCallable] and no Python class.  Calling a method of the
    facade through a computed name, or an opaque object of the toolkit, is
    outside the embedding. *)
Definition invoke (f : value) (args : list value) : M value :=
  fun s =>
    match f with
    | VRef l =>
        match heap s !! l with
        | Some (HMethod c op _) =>
            let headers :=
              match instances s !! c with
              | Some inst => soapheaders (suds_client inst)
              | None => VNone
              end in
            (respond (length (calls s)),
             {| heap := heap s; suds_types := suds_types s;
                suds_methods := suds_methods s; instances := instances s;
                calls := calls s ++
                  [{| call_client := c; call_op := op; call_args := args;
                      call_headers := headers; call_heap := heap s |}];
                clock := clock s |})
        | Some (HObject _ _) => (Raise NotCallable, s)
        | Some (HList _) => (Raise TypeError, s)
        | None => (Raise Unmodelled, s)
        end
    | VBound _ _ | VOpaque _ => (Raise Unmodelled, s)
    | _ => (Raise TypeError, s)
    end.

(** [target.append(x)]. *)
Definition call_append (target x : value) : M unit :=
  fun s =>
    match target with
    | VRef l =>
        match heap s !! l with
        | Some (HList items) =>
            (Ok tt, set_heap s (<[l := HList (items ++ [x])]> (heap s)))
        | Some o =>
            match cell_fields o with
            | Some fs =>
                match assoc "append" fs with
                | Some f => (invoke f [x] ;;; ret tt) s
                | None => (Raise (AttributeError "append"), s)
                end
            | None => (Raise (AttributeError "append"), s)
            end
        | None => (Raise Unmodelled, s)
        end
    | VClassAttr name =>
        match x with
        | VStr n => append_class_list name n s
        | _ => (Raise Unmodelled, s)
        end
    | VTuple _ | VClient _ | VOpaque _ => (Raise Unmodelled, s)
    | _ => (Raise (AttributeError "append"), s)
    end.

(** A call [self.name(args)] whose name is written in the source: the
    attribute is looked up like any other; when it is the method of the
    class, [body] runs. *)
Definition apply_bound (f : value) (args : list value) (body : M value)
    : M value :=
  match f with
  | VBound _ _ => body
  | _ => invoke f args
  end.

Definition call_self (self : nat) (name : string) (args : list value)
    (body : M value) : M value :=
  f <- getattribute self name ;;
  apply_bound f args body.

(** [self.__getattribute__(name)], the explicit form. *)
Definition self_getattribute (self : nat) (name : string) : M value :=
  call_self self "__getattribute__" [VStr name] (getattribute self name).

(** [Client.__init__], lines 41-56; [wsdl] is what the toolkit reads at
    [MARKETO_WSDL]. *)
Definition init (endpoint uid key : value) (wsdl : service_desc) : M nat :=
  fun s =>
    let self := length (instances s) in
    let inst :=
      {| soap_endpoint := endpoint; user_id := uid; encryption_key := key;
         suds_client := {| location := endpoint; sd := wsdl;
                           soapheaders := VNone |} |} in
    (c <- self_suds_client self ;;
     for_each (map fst (sd_types wsdl)) (fun suds_type =>
       l <- getattribute self "suds_types" ;;
       call_append l (VStr suds_type)) ;;;
     c' <- self_suds_client self ;;
     for_each (sd_methods wsdl) (fun suds_method =>
       l <- getattribute self "suds_methods" ;;
       call_append l (VStr suds_method)) ;;;
     ret self)
    (set_instances s (instances s ++ [inst])).

(** [Client.set_header], lines 72-83. *)
Definition set_header (self : nat) : M value :=
  authentication_header <- getattribute self "AuthenticationHeaderInfo" ;;
  timestamp <- utcnow ;;
  uid <- getattribute self "user_id" ;;
  message <- lift (py_add (VStr timestamp) uid) ;;
  key <- getattribute self "encryption_key" ;;
  signature <- lift (sign_values message key) ;;
  setattr authentication_header "requestSignature" signature ;;;
  uid' <- getattribute self "user_id" ;;
  setattr authentication_header "mktowsUserId" uid' ;;;
  setattr authentication_header "requestTimestamp" (VStr timestamp) ;;;
  c <- self_suds_client self ;;
  set_options c authentication_header ;;;
  ret VNone.

(** [Client.build_lead_record], lines 85-94. *)
Definition build_lead_record (self : nat) (email attributes : value) : M value :=
  lead_record <- getattribute self "LeadRecord" ;;
  setattr lead_record "Email" email ;;;
  lead_attributes_list <- getattribute self "ArrayOfAttribute" ;;
  attrs <- py_iter attributes ;;
  for_each attrs (fun attr =>
    attribute <- getattribute self "Attribute" ;;
    abc <- unpack3 attr ;;
    setattr attribute "attrName" (fst (fst abc)) ;;;
    setattr attribute "attrType" (snd (fst abc)) ;;;
    setattr attribute "attrValue" (snd abc) ;;;
    l <- getattr lead_attributes_list "attribute" ;;
    call_append l attribute) ;;;
  setattr lead_record "leadAttributeList" lead_attributes_list ;;;
  ret lead_record.

(** [Client.call_service], lines 96-103. *)
Definition call_service (self : nat) (name : string) (args : list value)
    : M value :=
  call_self self "set_header" [] (set_header self) ;;;
  f <- self_getattribute self name ;;
  invoke f args.

(** [Client.get_lead], lines 105-114. *)
Definition get_lead (self : nat) (keyValue keyType : value) : M value :=
  lead_key <- getattribute self "LeadKey" ;;
  (if eq_str keyType "Email" then
     ref <- getattribute self "LeadKeyRef" ;;
     v <- getattr ref "EMAIL" ;;
     setattr lead_key "keyType" v
   else ret tt) ;;;
  (if eq_str keyType "Cookie" then
     ref <- getattribute self "LeadKeyRef" ;;
     v <- getattr ref "COOKIE" ;;
     setattr lead_key "keyType" v
   else ret tt) ;;;
  (if eq_str keyType "IDNUM" then
     ref <- getattribute self "LeadKeyRef" ;;
     v <- getattr ref "IDNUM" ;;
     setattr lead_key "keyType" v
   else ret tt) ;;;
  setattr lead_key "keyValue" keyValue ;;;
  call_self self "call_service" [VStr "getLead"; lead_key]
    (call_service self "getLead" [lead_key]).

(** [Client.sync_lead], lines 139-149. *)
Definition sync_lead (self : nat) (email attributes return_lead : value)
    : M value :=
  lead_record <- call_self self "build_lead_record" [email; attributes]
                   (build_lead_record self email attributes) ;;
  call_self self "call_service" [VStr "syncLead"; lead_record; return_lead]
    (call_service self "syncLead" [lead_record; return_lead]).

(** [Client.request_campaign], lines 162-201. *)
Definition request_campaign (self : nat)
    (source campaign_id lead_list program_name campaign_name
       program_token_list : value) : M value :=
  source' <- if_truthy source (ret source)
               (t <- getattribute self "ReqCampSourceType" ;; getattr t "MKTOWS") ;;
  lead_list_keys <- getattribute self "ArrayOfLeadKey" ;;
  ptl <- self_getattribute self "ArrayOfAttribute" ;;
  pta <- self_getattribute self "Attribute" ;;
  x0 <- getitem program_token_list 0 ;;
  setattr pta "attrName" x0 ;;;
  x1 <- getitem program_token_list 1 ;;
  setattr pta "attrValue" x1 ;;;
  l <- getattr ptl "attribute" ;;
  call_append l pta ;;;
  leads <- py_iter lead_list ;;
  for_each leads (fun lead =>
    lead_key <- getattribute self "LeadKey" ;;
    ab <- unpack2 lead ;;
    kt <- getattr lead_key "keyType" ;;
    setattr kt "value" (fst ab) ;;;
    setattr lead_key "keyValue" (snd ab) ;;;
    lk <- getattr lead_list_keys "leadKey" ;;
    call_append lk lead_key) ;;;
  call_self self "call_service"
    [VStr "requestCampaign"; source'; campaign_id; lead_list_keys;
     program_name; campaign_name; ptl]
    (call_service self "requestCampaign"
       [source'; campaign_id; lead_list_keys; program_name; campaign_name; ptl]).

(** [Client.merge_leads], lines 203-228.  The [try] body is cut where
    [losing_lead_key_list] gets bound: when it fails before, line 228 finds
    the name unbound. *)
Definition merge_leads (self : nat) (winningleadIDnum losingleadsIDnum : value)
    : M value :=
  win <- self_getattribute self "Attribute" ;;
  setattr win "attrName" (VStr "IDNUM") ;;;
  setattr win "attrValue" winningleadIDnum ;;;
  winning_lead_key_list <- self_getattribute self "ArrayOfAttribute" ;;
  wl <- getattr winning_lead_key_list "attribute" ;;
  call_append wl win ;;;
  bound <- try_pass (
    lose <- self_getattribute self "Attribute" ;;
    setattr lose "attrName" (VStr "IDNUM") ;;;
    setattr lose "attrValue" losingleadsIDnum ;;;
    losing_lead_key_list <- self_getattribute self "ArrayOfKeyList" ;;
    ret (lose, losing_lead_key_list)) ;;
  match bound with
  | None =>
      f <- getattribute self "call_service" ;;
      raise (UnboundLocalError "losing_lead_key_list")
  | Some (lose, losing_lead_key_list) =>
      try_pass (
        attr <- self_getattribute self "ArrayOfAttribute" ;;
        kl <- getattr losing_lead_key_list "keyList" ;;
        call_append kl attr ;;;
        kl' <- getattr losing_lead_key_list "keyList" ;;
        first <- getitem kl' 0 ;;
        al <- getattr first "attribute" ;;
        call_append al lose) ;;;
      call_self self "call_service"
        [VStr "mergeLeads"; winning_lead_key_list; losing_lead_key_list]
        (call_service self "mergeLeads"
           [winning_lead_key_list; losing_lead_key_list])
  end.

(** [ActivityType.includeTypes.activityType.append(token)]. *)
Definition include_type (ActivityType : value) (token : string) : M unit :=
  it <- getattr ActivityType "includeTypes" ;;
  at_ <- getattr it "activityType" ;;
  call_append at_ (VStr token).

(** [Client.get_lead_activity], lines 230-271. *)
Definition get_lead_activity (self : nat) (cookie acttype : value) : M value :=
  LeadKey <- self_getattribute self "LeadKey" ;;
  ActivityType <- self_getattribute self "ActivityTypeFilter" ;;
  (if eq_str acttype "Email Activity"
   then setattr LeadKey "keyType" (VStr "EMAIL") else ret tt) ;;;
  (if eq_str acttype "Website Activity"
   then setattr LeadKey "keyType" (VStr "COOKIE") else ret tt) ;;;
  (if eq_str acttype "Interesting Moments"
   then setattr LeadKey "keyType" (VStr "COOKIE") else ret tt) ;;;
  (if eq_str acttype "Score"
   then setattr LeadKey "keyType" (VStr "COOKIE") else ret tt) ;;;
  setattr LeadKey "keyValue" cookie ;;;
  let dispatch :=
    call_self self "call_service" [VStr "getLeadActivity"; LeadKey; ActivityType]
      (call_service self "getLeadActivity" [LeadKey; ActivityType]) in
  if eq_str acttype "Website Activity" then
    for_each ["VisitWebpage"; "ClickLink"; "FillOutForm"]
      (include_type ActivityType) ;;; dispatch
  else if eq_str acttype "Email Activity" then
    for_each ["SendEmail"; "EmailBounced"; "UnsubscribeEmail"; "OpenEmail";
              "ClickEmail"; "OpenSalesEmail"; "ClickSalesEmail"]
      (include_type ActivityType) ;;; dispatch
  else if eq_str acttype "Score" then
    include_type ActivityType "ChangeScore" ;;; dispatch
  else if eq_str acttype "Interesting Moments" then
    include_type ActivityType "InterestingMoment" ;;; dispatch
  else ret (VBool true).

(** One of the three tests on [operation] that open [sync_custom_objects]
    and [sync_m_objects] (lines 329-337). *)
Definition operation_member (self : nat) (operation : value) (member : string)
    : M value :=
  if eq_str operation member then
    e <- self_getattribute self "SyncOperationEnum" ;; getattr e member
  else ret operation.

Definition sync_operation (self : nat) (operation : value) : M value :=
  op1 <- operation_member self operation "UPSERT" ;;
  op2 <- operation_member self op1 "INSERT" ;;
  operation_member self op2 "UPDATE".

(** The loop of lines 357-361 and 366-370. *)
Definition add_attribs (self : nat) (mObject : value) (oppinfo : list value)
    : M unit :=
  for_each oppinfo (fun e =>
    i <- self_getattribute self "Attrib" ;;
    e0 <- getitem e 0 ;;
    setattr i "name" e0 ;;;
    e1 <- getitem e 1 ;;
    setattr i "value" e1 ;;;
    al <- getattr mObject "attribList" ;;
    l <- getattr al "attrib" ;;
    call_append l i).

(** [Client.sync_m_objects], lines 315-373. *)
Definition sync_m_objects (self : nat)
    (operation objType oppinfo exists_ idnum : value) : M value :=
  operation' <- sync_operation self operation ;;
  mObjectList <- self_getattribute self "ArrayOfMObject" ;;
  mObject <- self_getattribute self "MObject" ;;
  typeattrib <- self_getattribute self "TypeAttrib" ;;
  attribs <- self_getattribute self "ArrayOfAttrib" ;;
  (if eq_str objType "Opportunity" then
     setattr mObject "type" (VStr "Opportunity") ;;;
     if_truthy exists_
       (setattr mObject "id" idnum ;;;
        setattr mObject "createdAt" (VStr "2014-01-27T12:38:44-05:00") ;;;
        setattr mObject "updatedAt" (VStr "2014-01-31T12:38:44-05:00"))
       (setattr mObject "createdAt" (VStr "2014-01-27T12:38:44-05:00") ;;;
        setattr mObject "updatedAt" (VStr "2014-01-31T12:38:44-05:00") ;;;
        es <- py_iter oppinfo ;;
        add_attribs self mObject es) ;;;
     l <- getattr mObjectList "mObject" ;;
     call_append l mObject
   else ret tt) ;;;
  (if eq_str objType "OpportunityPersonRole" then
     setattr mObject "type" (VStr "OpportunityPersonRole") ;;;
     es <- py_iter oppinfo ;;
     add_attribs self mObject es ;;;
     l <- getattr mObjectList "mObject" ;;
     call_append l mObject
   else ret tt) ;;;
  call_self self "call_service" [VStr "syncMObjects"; mObjectList; operation']
    (call_service self "syncMObjects" [mObjectList; operation']).


(** [Client.get_lead_IDNUM], lines 127-131. *)
Definition get_lead_IDNUM (self : nat) (num : value) : M value :=
  ID <- getattribute self "LeadKey" ;;
  ref <- getattribute self "LeadKeyRef" ;;
  v <- getattr ref "IDNUM" ;;
  setattr ID "keyType" v ;;;
  setattr ID "keyValue" num ;;;
  call_self self "call_service" [VStr "getLead"; ID]
    (call_service self "getLead" [ID]).

(** [Client.get_lead_by_cookie], lines 133-137. *)
Definition get_lead_by_cookie (self : nat) (cook : value) : M value :=
  cookie <- getattribute self "LeadKey" ;;
  ref <- getattribute self "LeadKeyRef" ;;
  v <- getattr ref "COOKIE" ;;
  setattr cookie "keyType" v ;;;
  setattr cookie "keyValue" cook ;;;
  call_self self "call_service" [VStr "getLead"; cookie]
    (call_service self "getLead" [cookie]).

(** [target.append], looked up before the argument of the call is
    evaluated: the bound method, as a function of the argument. *)
Definition append_method (target : value) : M (value -> M unit) :=
  fun s =>
    match target with
    | VRef l =>
        match heap s !! l with
        | Some (HList _) =>
            (Ok (fun x s' =>
                   match heap s' !! l with
                   | Some (HList items) =>
                       (Ok tt, set_heap s' (<[l := HList (items ++ [x])]> (heap s')))
                   | _ => (Raise Unmodelled, s')
                   end), s)
        | Some o =>
            match cell_fields o with
            | Some fs =>
                match assoc "append" fs with
                | Some f => (Ok (fun x => invoke f [x] ;;; ret tt), s)
                | None => (Raise (AttributeError "append"), s)
                end
            | None => (Raise (AttributeError "append"), s)
            end
        | None => (Raise Unmodelled, s)
        end
    | VClassAttr name =>
        (Ok (fun x s' =>
               match x with
               | VStr n => append_class_list name n s'
               | _ => (Raise Unmodelled, s')
               end), s)
    | VTuple _ | VClient _ | VOpaque _ => (Raise Unmodelled, s)
    | _ => (Raise (AttributeError "append"), s)
    end.

(** [Client.sync_multiple_leads], lines 151-160. *)
Definition sync_multiple_leads (self : nat) (lead_list dedup_enabled : value)
    : M value :=
  lead_record_list <- getattribute self "ArrayOfLeadRecord" ;;
  leads <- py_iter lead_list ;;
  for_each leads (fun lead =>
    l <- getattr lead_record_list "leadRecord" ;;
    append <- append_method l ;;
    f <- getattribute self "build_lead_record" ;;
    e0 <- getitem lead 0 ;;
    e1 <- getitem lead 1 ;;
    record <- apply_bound f [e0; e1] (build_lead_record self e0 e1) ;;
    append record) ;;;
  call_self self "call_service"
    [VStr "syncMultipleLeads"; lead_record_list; dedup_enabled]
    (call_service self "syncMultipleLeads" [lead_record_list; dedup_enabled]).

(** The two loops of [sync_custom_objects] (lines 288-297): the pairs go
    to the attribute list of the [slot]-th element of the custom object. *)
Definition add_attributes (self : nat) (customObj : value) (slot : nat)
    (pairs : list value) : M unit :=
  for_each pairs (fun e =>
    i <- self_getattribute self "Attribute" ;;
    e0 <- getitem e 0 ;;
    setattr i "attrName" e0 ;;;
    e1 <- getitem e 1 ;;
    setattr i "attrValue" e1 ;;;
    part <- getitem customObj slot ;;
    l <- getattr part "attribute" ;;
    call_append l i).

(** [Client.sync_custom_objects], lines 273-313. *)
Definition sync_custom_objects (self : nat)
    (operation objName keys information : value) : M value :=
  customObjList <- self_getattribute self "ArrayOfCustomObj" ;;
  customObj <- self_getattribute self "CustomObj" ;;
  ks <- py_iter keys ;;
  add_attributes self customObj 0 ks ;;;
  js <- py_iter information ;;
  add_attributes self customObj 1 js ;;;
  operation' <- sync_operation self operation ;;
  l <- getattr customObjList "customObj" ;;
  call_append l customObj ;;;
  call_self self "call_service"
    [VStr "syncCustomObjects"; objName; customObjList; operation']
    (call_service self "syncCustomObjects" [objName; customObjList; operation']).

(** [Client.describe_m_objects], lines 375-379. *)
Definition describe_m_objects (self : nat) (objName : value) : M value :=
  call_self self "call_service" [VStr "describeMObject"; objName]
    (call_service self "describeMObject" [objName]).

(** ** A concrete world *)

(** The state once the class body has run: two empty lists, no facade. *)
Definition boot : state :=
  {| heap := []; suds_types := []; suds_methods := []; instances := [];
     calls := []; clock := 0 |}.

Definition enum (cls : string) (members : list string) : shape :=
  ShObj cls (map (fun m => (m, ShStr m)) members).

Definition lead_key_ref : list string :=
  ["IDNUM"; "COOKIE"; "EMAIL"; "LEADOWNEREMAIL"; "SFDCACCOUNTID"].

(** A service description with the types and operations of the Marketo
    WSDL that the facade names. *)
Definition marketo_wsdl : service_desc :=
  {| sd_types :=
       [("AuthenticationHeaderInfo",
           [("mktowsUserId", ShNone); ("requestSignature", ShNone);
            ("requestTimestamp", ShNone)]);
        ("LeadKeyRef", map (fun m => (m, ShStr m)) lead_key_ref);
        ("LeadKey",
           [("keyType", enum "LeadKeyRef" lead_key_ref); ("keyValue", ShNone)]);
        ("ArrayOfLeadKey", [("leadKey", ShList)]);
        ("Attribute",
           [("attrName", ShNone); ("attrType", ShNone); ("attrValue", ShNone)]);
        ("ArrayOfAttribute", [("attribute", ShList)]);
        ("ArrayOfKeyList", [("keyList", ShList)]);
        ("LeadRecord",
           [("Id", ShNone); ("Email", ShNone); ("ForeignSysPersonId", ShNone);
            ("ForeignSysType", ShNone);
            ("leadAttributeList", ShObj "ArrayOfAttribute" [("attribute", ShList)])]);
        ("ReqCampSourceType", map (fun m => (m, ShStr m)) ["MKTOWS"; "SALES"]);
        ("ActivityTypeFilter",
           [("includeTypes", ShObj "ArrayOfActivityType" [("activityType", ShList)]);
            ("excludeTypes", ShObj "ArrayOfActivityType" [("activityType", ShList)])]);
        ("SyncOperationEnum",
           map (fun m => (m, ShStr m)) ["INSERT"; "UPDATE"; "UPSERT"]);
        ("Attrib", [("name", ShNone); ("value", ShNone)]);
        ("ArrayOfAttrib", [("attrib", ShList)]);
        ("TypeAttrib", [("attrType", ShNone); ("attrList", ShObj "ArrayOfAttrib" [("attrib", ShList)])]);
        ("MObject",
           [("type", ShNone); ("id", ShNone); ("createdAt", ShNone);
            ("updatedAt", ShNone);
            ("attribList", ShObj "ArrayOfAttrib" [("attrib", ShList)])]);
        ("ArrayOfMObject", [("mObject", ShList)])];
     sd_methods :=
       ["describeMObject"; "getLead"; "getLeadActivity"; "mergeLeads";
        "requestCampaign"; "syncCustomObjects"; "syncLead";
        "syncMObjects"; "syncMultipleLeads"] |}.

Definition sample_clock (tick : nat) : string := "2014-02-01T10:00:00+00:00".

Definition sample_respond (k : nat) : result value := Ok (VOpaque "response").

Definition bob : instance :=
  {| soap_endpoint := VStr "https://na-x.marketo.com/soap/mktows/2_3";
     user_id := VStr "bob";
     encryption_key := VStr "secret";
     suds_client :=
       {| location := VStr "https://na-x.marketo.com/soap/mktows/2_3";
          sd := marketo_wsdl; soapheaders := VNone |} |}.

(** The state after [Client(endpoint, "bob", "secret")] on [boot]. *)
Definition one_client : state :=
  {| heap := []; suds_types := map fst (sd_types marketo_wsdl);
     suds_methods := sd_methods marketo_wsdl; instances := [bob];
     calls := []; clock := 0 |}.

(** A service description that declares a structured type under the name
    [suds_types], and the facade built on it. *)
Definition shadow_wsdl : service_desc :=
  {| sd_types :=
       [("suds_types", [("item", ShList)]);
        ("Attribute",
           [("attrName", ShNone); ("attrType", ShNone); ("attrValue", ShNone)])];
     sd_methods := ["getLead"] |}.

Definition shadow_client : state :=
  {| heap := []; suds_types := ["suds_types"; "Attribute"];
     suds_methods := ["getLead"];
     instances :=
       [{| soap_endpoint := VStr "https://na-x.marketo.com/soap/mktows/2_3";
           user_id := VStr "bob"; encryption_key := VStr "secret";
           suds_client :=
             {| location := VStr "https://na-x.marketo.com/soap/mktows/2_3";
                sd := shadow_wsdl; soapheaders := VNone |} |}];
     calls := []; clock := 0 |}.

(** A service description without the [Attribute] type, and one without
    [ArrayOfKeyList], each with the facade built on it. *)
Definition header_type : string * list (string * shape) :=
  ("AuthenticationHeaderInfo",
     [("mktowsUserId", ShNone); ("requestSignature", ShNone);
      ("requestTimestamp", ShNone)]).

Definition no_attribute_wsdl : service_desc :=
  {| sd_types :=
       [header_type; ("ArrayOfAttribute", [("attribute", ShList)]);
        ("ArrayOfKeyList", [("keyList", ShList)])];
     sd_methods := ["mergeLeads"] |}.

Definition no_key_list_wsdl : service_desc :=
  {| sd_types :=
       [header_type;
        ("Attribute",
           [("attrName", ShNone); ("attrType", ShNone); ("attrValue", ShNone)]);
        ("ArrayOfAttribute", [("attribute", ShList)])];
     sd_methods := ["mergeLeads"] |}.


Definition client_of (wsdl : service_desc) : state :=
  {| heap := []; suds_types := map fst (sd_types wsdl);
     suds_methods := sd_methods wsdl;
     instances :=
       [{| soap_endpoint := VStr "https://na-x.marketo.com/soap/mktows/2_3";
           user_id := VStr "bob"; encryption_key := VStr "secret";
           suds_client :=
             {| location := VStr "https://na-x.marketo.com/soap/mktows/2_3";
                sd := wsdl; soapheaders := VNone |} |}];
     calls := []; clock := 0 |}.

(** A service description with an operation called [suds_client]. *)
Definition client_operation_wsdl : service_desc :=
  {| sd_types :=
       [header_type;
        ("Attribute",
           [("attrName", ShNone); ("attrType", ShNone); ("attrValue", ShNone)])];
     sd_methods := ["getLead"; "suds_client"] |}.

(** The service description with the types of the remaining methods as
    well, and the facade built on it. *)
Definition marketo_wsdl_full : service_desc :=
  {| sd_types :=
       sd_types marketo_wsdl ++
       [("ArrayOfLeadRecord", [("leadRecord", ShList)]);
        ("CustomObj",
           [("customObjKeyList",
               ShObj "ArrayOfAttribute" [("attribute", ShList)]);
            ("customObjAttributeList",
               ShObj "ArrayOfAttribute" [("attribute", ShList)])]);
        ("ArrayOfCustomObj", [("customObj", ShList)])];
     sd_methods := sd_methods marketo_wsdl |}.

Definition full_client : state := client_of marketo_wsdl_full.

(** The state after a second [Client(endpoint, "alice", "other")], built on
    the full description, has followed the one of [one_client]. *)
Definition alice : instance :=
  {| soap_endpoint := VStr "https://na-y.marketo.com/soap/mktows/2_3";
     user_id := VStr "alice";
     encryption_key := VStr "other";
     suds_client :=
       {| location := VStr "https://na-y.marketo.com/soap/mktows/2_3";
          sd := marketo_wsdl_full; soapheaders := VNone |} |}.

Definition two_clients : state :=
  {| heap := [];
     suds_types := map fst (sd_types marketo_wsdl)
                     ++ map fst (sd_types marketo_wsdl_full);
     suds_methods := sd_methods marketo_wsdl ++ sd_methods marketo_wsdl_full;
     instances := [bob; alice];
     calls := []; clock := 0 |}.

(** ** Vocabulary of the properties *)

(** Cells [cs] sit in the heap [h] from address [b] on. *)
Definition placed (h : list hobj) (b : nat) (cs : list hobj) : Prop :=
  forall k o, cs !! k = Some o -> h !! (b + k) = Some o.

(** No name the class defines is also a SOAP name. *)
Definition no_collision (s : state) : bool :=
  forallb (fun n => negb (mem_str n (suds_types s))
                    && negb (mem_str n (suds_methods s))) static_names.

(** The attribute [suds_client] is hidden by a SOAP name: [self.suds_client]
    inside [__getattribute__] then calls [__getattribute__] again, without
    end. *)
Definition client_shadowed (s : state) : bool :=
  mem_str "suds_client" (suds_types s) || mem_str "suds_client" (suds_methods s).

(** Facade [self] exists and reaches its suds client. *)
Definition reaches_client (s : state) (self : nat) (inst : instance) : Prop :=
  instances s !! self = Some inst /\
  mem_str "suds_client" (suds_types s) = false /\
  mem_str "suds_client" (suds_methods s) = false.

(** [name] is a known structured type, laid out as [fs] by the service
    description of facade [self]. *)
Definition has_type (s : state) (self : nat) (name : string)
    (fs : list (string * shape)) : Prop :=
  mem_str name (suds_types s) = true /\
  exists inst, instances s !! self = Some inst /\
    assoc name (sd_types (sd (suds_client inst))) = Some fs.

(** [name] is a known operation, and not a type. *)
Definition has_method (s : state) (self : nat) (name : string) : Prop :=
  mem_str name (suds_types s) = false /\
  mem_str name (suds_methods s) = true /\
  exists inst, instances s !! self = Some inst /\
    mem_str name (sd_methods (sd (suds_client inst))) = true.

(** Facade [self] can sign and send: its credentials are the byte strings
    [U] and [K], the header type is known, no name collides. *)
Definition ready (s : state) (self : nat) (U K : string) : Prop :=
  no_collision s = true /\
  (exists inst, instances s !! self = Some inst /\
     user_id inst = VStr U /\ encryption_key inst = VStr K) /\
  exists fs, has_type s self "AuthenticationHeaderInfo" fs.

(** An instance nobody has touched: every list is empty, every attribute is
    [None], an enumeration constant or a reference into the instance. *)
Definition fresh_value (lo hi : nat) (v : value) : bool :=
  match v with
  | VNone | VStr _ => true
  | VRef l => Nat.leb lo l && Nat.ltb l hi
  | _ => false
  end.

Definition fresh_cell (lo hi : nat) (o : hobj) : bool :=
  match o with
  | HList items => is_nil items
  | HObject _ fs => forallb (fun kv => fresh_value lo hi (snd kv)) fs
  | HMethod _ _ _ => false
  end.

Definition pristine (b : nat) (cells : list hobj) : bool :=
  forallb (fresh_cell b (b + length cells)) cells.

(** A (name, type, value) triple and a (name, value) pair as the caller
    writes them, and as they are read back from an [Attribute] or an
    [Attrib] object of the heap. *)
Definition triple (t : value * value * value) : value :=
  VTuple [fst (fst t); snd (fst t); snd t].

Definition pair (p : value * value) : value := VTuple [fst p; snd p].

Definition read_attribute (h : list hobj) (v : value)
    : option (value * value * value) :=
  match obj_field h v "attrName", obj_field h v "attrType",
        obj_field h v "attrValue" with
  | Some a, Some b, Some c => Some (a, b, c)
  | _, _, _ => None
  end.

Definition read_attrib (h : list hobj) (v : value) : option (value * value) :=
  match obj_field h v "name", obj_field h v "value" with
  | Some a, Some b => Some (a, b)
  | _, _ => None
  end.

(** The errors Python raises on the caller's side. *)
Definition is_local_error (e : exn) : bool :=
  match e with
  | WebFault _ | Unmodelled => false
  | _ => true
  end.

(** The key types [get_lead] knows, each with the member of [LeadKeyRef]
    it selects (lines 107-112). *)
Definition known_key_types : list (string * string) :=
  [("Email", "EMAIL"); ("Cookie", "COOKIE"); ("IDNUM", "IDNUM")].

(** The categories [get_lead_activity] knows, each with the key type it
    writes into the lead key and the activity types it includes
    (lines 242-268). *)
Definition activity_table : list (string * (string * list string)) :=
  [("Website Activity", ("COOKIE", ["VisitWebpage"; "ClickLink"; "FillOutForm"]));
   ("Email Activity",
      ("EMAIL", ["SendEmail"; "EmailBounced"; "UnsubscribeEmail"; "OpenEmail";
                 "ClickEmail"; "OpenSalesEmail"; "ClickSalesEmail"]));
   ("Score", ("COOKIE", ["ChangeScore"]));
   ("Interesting Moments", ("COOKIE", ["InterestingMoment"]))].

(** The authentication header as the service reads it: user id, signature
    and timestamp. *)
Definition read_header (h : list hobj) (v : value)
    : option (value * value * value) :=
  match obj_field h v "mktowsUserId", obj_field h v "requestSignature",
        obj_field h v "requestTimestamp" with
  | Some u, Some g, Some t => Some (u, g, t)
  | _, _, _ => None
  end.

(** The header facade [self] sends when its clock reads [tick]. *)
Definition header_at (rfc3339_utcnow : nat -> string) (tick : nat)
    (U K : string) : value * value * value :=
  (VStr U, VStr (sign (rfc3339_utcnow tick ++ U) K), VStr (rfc3339_utcnow tick)).

(** The state once the names of [wsdl] have been added to the two lists
    of the class. *)
Definition learn (wsdl : service_desc) (s : state) : state :=
  {| heap := heap s;
     suds_types := suds_types s ++ map fst (sd_types wsdl);
     suds_methods := suds_methods s ++ sd_methods wsdl;
     instances := instances s; calls := calls s; clock := clock s |}.

(** A lead as the caller of [sync_multiple_leads] writes it, and a lead
    record as it is read back from the heap: its email address and the
    attributes of its list. *)
Definition lead (l : value * list (value * value * value)) : value :=
  VTuple [fst l; VTuple (map triple (snd l))].

Definition read_lead_record (h : list hobj) (v : value)
    : option (value * list (option (value * value * value))) :=
  match obj_field h v "Email", obj_field h v "leadAttributeList" with
  | Some e, Some arr =>
      match obj_field h arr "attribute" with
      | Some lst =>
          match list_items h lst with
          | Some items => Some (e, map (read_attribute h) items)
          | None => None
          end
      | None => None
      end
  | _, _ => None
  end.

Definition lead_read (l : value * list (value * value * value))
    : option (value * list (option (value * value * value))) :=
  Some (fst l, map Some (snd l)).

(** A (name, value) pair read back from an [Attribute] object. *)
Definition read_named (h : list hobj) (v : value) : option (value * value) :=
  match obj_field h v "attrName", obj_field h v "attrValue" with
  | Some a, Some b => Some (a, b)
  | _, _ => None
  end.

(** A lead key read back from the heap, as [request_campaign] fills it:
    the value of its key type, and its key value. *)
Definition read_lead_key (h : list hobj) (v : value) : option (value * value) :=
  match obj_field h v "keyType", obj_field h v "keyValue" with
  | Some kt, Some kv =>
      match obj_field h kt "value" with
      | Some t => Some (t, kv)
      | None => None
      end
  | _, _ => None
  end.

(** The layout a service description gives a type ([[]] when it has none). *)
Definition layout (wsdl : service_desc) (name : string)
    : list (string * shape) :=
  match assoc name (sd_types wsdl) with
  | Some fs => fs
  | None => []
  end.

(** An outcome that is an error of the caller's side, with nothing sent. *)
Definition fails_locally {B} (s0 : state) (out : result B * state) : Prop :=
  exists e, fst out = Raise e /\ is_local_error e = true /\
            calls (snd out) = calls s0.

(* ===================================================================== *)
(** * Properties                                                          *)
(* ===================================================================== *)

(** ** The digest *)

Lemma lower_hex_digit (n : Z) : lower_char (hex_digit n) = hex_digit n.
Proof.
  unfold hex_digit.
  assert (H : (Z.to_nat (n mod 16) < 16)%nat).
  { pose proof (Z.mod_pos_bound n 16 ltac:(lia)). lia. }
  revert H. generalize (Z.to_nat (n mod 16)). intros k Hk.
  do 16 (destruct k as [|k]; [reflexivity|]). lia.
Qed.

Lemma hex_digit_is_lower_hex (n : Z) : is_lower_hex (hex_digit n) = true.
Proof.
  unfold hex_digit.
  assert (H : (Z.to_nat (n mod 16) < 16)%nat).
  { pose proof (Z.mod_pos_bound n 16 ltac:(lia)). lia. }
  revert H. generalize (Z.to_nat (n mod 16)). intros k Hk.
  do 16 (destruct k as [|k]; [reflexivity|]). lia.
Qed.

Lemma lower_hexdigest (bs : list Z) : lower (hexdigest bs) = hexdigest bs.
Proof.
  induction bs as [|b bs IH]; simpl; [reflexivity|].
  now rewrite !lower_hex_digit, IH.
Qed.

Lemma hexdigest_lower_hex (bs : list Z) :
  forallb is_lower_hex (list_ascii_of_string (hexdigest bs)) = true.
Proof.
  induction bs as [|b bs IH]; simpl; [reflexivity|].
  now rewrite !hex_digit_is_lower_hex, IH.
Qed.

Lemma hexdigest_length (bs : list Z) :
  String.length (hexdigest bs) = 2 * length bs.
Proof. induction bs as [|b bs IH]; simpl; [reflexivity|]. rewrite IH. lia. Qed.

Lemma bytes_of_string_app (a b : string) :
  bytes_of_string (a ++ b) = (bytes_of_string a ++ bytes_of_string b)%list.
Proof.
  unfold bytes_of_string. rewrite <- map_app. f_equal.
  induction a as [|c a IH]; simpl; [reflexivity|]. now rewrite IH.
Qed.

Lemma sha1_length (msg : list Z) : length (sha1 msg) = 20.
Proof.
  unfold sha1.
  destruct (fold_left _ _ _) as [[[[h0 h1] h2] h3] h4].
  reflexivity.
Qed.

(** [sign] is the signature of the specification: the final [lower()] finds
    nothing to change. *)
Lemma sign_spec (T U K : string) : sign (T ++ U) K = spec_signature T U K.
Proof. unfold sign, spec_signature, hmac_sha1. apply lower_hexdigest. Qed.

Lemma spec_signature_format (T U K : string) :
  String.length (spec_signature T U K) = 40 /\
  forallb is_lower_hex (list_ascii_of_string (spec_signature T U K)) = true.
Proof.
  unfold spec_signature. split; [|apply hexdigest_lower_hex].
  rewrite hexdigest_length. unfold hmac_sha1, hmac_new.
  now rewrite sha1_length.
Qed.

(** ** The monad *)

Lemma bind_ok {A B} (m : M A) (k : A -> M B) s a s' :
  m s = (Ok a, s') -> bind m k s = k a s'.
Proof. unfold bind. now intros ->. Qed.

Lemma bind_raise {A B} (m : M A) (k : A -> M B) s e s' :
  m s = (Raise e, s') -> bind m k s = (Raise e, s').
Proof. unfold bind. now intros ->. Qed.

Lemma bind_lift_ok {A B} (a : A) (k : A -> M B) s :
  bind (lift (Ok a)) k s = k a s.
Proof. reflexivity. Qed.

Lemma bind_ret {A B} (a : A) (k : A -> M B) s : bind (ret a) k s = k a s.
Proof. reflexivity. Qed.

(** ** Attribute lists *)

Lemma assoc_set_field_eq name v fs : assoc name (set_field name v fs) = Some v.
Proof.
  induction fs as [|[n x] fs IH]; simpl.
  - now rewrite String.eqb_refl.
  - destruct (String.eqb n name) eqn:E; simpl; rewrite E; auto.
Qed.

Lemma assoc_set_field_ne name name' v fs :
  name <> name' -> assoc name (set_field name' v fs) = assoc name fs.
Proof.
  intros Hne. induction fs as [|[n x] fs IH]; simpl.
  - destruct (String.eqb name' name) eqn:E; [|reflexivity].
    apply String.eqb_eq in E. congruence.
  - destruct (String.eqb n name') eqn:E; simpl.
    + apply String.eqb_eq in E. subst n.
      destruct (String.eqb name' name) eqn:E'; [|reflexivity].
      apply String.eqb_eq in E'. congruence.
    + now rewrite IH.
Qed.

Lemma mem_str_In name l : mem_str name l = true <-> In name l.
Proof.
  unfold mem_str. rewrite existsb_exists. split.
  - intros [x [Hx E]]. apply String.eqb_eq in E. now subst.
  - intros H. exists name. split; [assumption|apply String.eqb_refl].
Qed.

Lemma mem_str_app name l1 l2 :
  mem_str name (l1 ++ l2) = mem_str name l1 || mem_str name l2.
Proof. apply existsb_app. Qed.

(** ** Instantiation *)

Lemma instantiate_obj b cls fs :
  instantiate b (ShObj cls fs)
  = (VRef b, HObject cls (fst (fill_fields (S b) fs)) :: snd (fill_fields (S b) fs)).
Proof.
  simpl.
  match goal with
  | |- (let '(_, _) := ?F (S b) fs in _) = _ =>
      assert (E : forall gs c, F c gs = fill_fields c gs)
  end.
  { induction gs as [|[n sh] gs IH]; intros c; simpl; [reflexivity|].
    destruct (instantiate c sh) as [v c1]. now rewrite IH. }
  rewrite E. now destruct (fill_fields (S b) fs).
Qed.

Lemma fill_fields_assoc f sh fs b :
  assoc f fs = Some sh ->
  exists pre post,
    snd (fill_fields b fs)
      = pre ++ snd (instantiate (b + length pre) sh) ++ post /\
    assoc f (fst (fill_fields b fs)) = Some (fst (instantiate (b + length pre) sh)).
Proof.
  revert b. induction fs as [|[n x] fs IH]; intros b; simpl; [discriminate|].
  destruct (String.eqb n f) eqn:E.
  - intros [= ->]. exists [], (snd (fill_fields (b + length (snd (instantiate b sh))) fs)).
    simpl. rewrite Nat.add_0_r.
    destruct (instantiate b sh) as [v c1].
    destruct (fill_fields _ fs) as [vs c2]. simpl. now rewrite E.
  - intros H. destruct (instantiate b x) as [v c1] eqn:Ex.
    destruct (IH (b + length c1) H) as (pre & post & Hc & Hv).
    destruct (fill_fields (b + length c1) fs) as [vs c2]. simpl in *.
    exists (c1 ++ pre), post. rewrite E, length_app, Nat.add_assoc.
    split; [|assumption]. now rewrite Hc, <- app_assoc.
Qed.

Lemma placed_alloc h cs : placed (h ++ cs) (length h) cs.
Proof.
  intros k o H. rewrite lookup_app_r by lia.
  now replace (length h + k - length h) with k by lia.
Qed.

Lemma placed_head h b o cs : placed h b (o :: cs) -> h !! b = Some o.
Proof. intros H. specialize (H 0 o eq_refl). now rewrite Nat.add_0_r in H. Qed.

Lemma placed_tail h b o cs : placed h b (o :: cs) -> placed h (S b) cs.
Proof.
  intros H k x Hk. specialize (H (S k) x Hk).
  now rewrite Nat.add_succ_r in H.
Qed.

Lemma placed_middle h b pre mid post :
  placed h b (pre ++ mid ++ post) -> placed h (b + length pre) mid.
Proof.
  intros H k o Hk. rewrite <- Nat.add_assoc. apply H.
  rewrite lookup_app_r by lia.
  replace (length pre + k - length pre) with k by lia.
  now apply lookup_app_l_Some.
Qed.

Lemma placed_lt h b o cs : placed h b (o :: cs) -> b < length h.
Proof. intros H. apply placed_head in H. now apply lookup_lt_Some in H. Qed.

(** The element [f] of a freshly laid out object: where its value lives. *)
Lemma placed_field h b cls fs f sh :
  placed h b (snd (instantiate b (ShObj cls fs))) ->
  assoc f fs = Some sh ->
  exists l,
    b < l /\
    obj_field h (VRef b) f = Some (fst (instantiate l sh)) /\
    placed h l (snd (instantiate l sh)).
Proof.
  intros Hp Hf. rewrite instantiate_obj in Hp. simpl in Hp.
  destruct (fill_fields_assoc f sh fs (S b) Hf) as (pre & post & Hc & Hv).
  exists (S b + length pre). split; [lia|]. split.
  - unfold obj_field. rewrite (placed_head _ _ _ _ Hp). simpl. exact Hv.
  - apply placed_tail in Hp. rewrite Hc in Hp.
    now apply placed_middle in Hp.
Qed.

Lemma placed_field_list h b cls fs f :
  placed h b (snd (instantiate b (ShObj cls fs))) ->
  assoc f fs = Some ShList ->
  exists l, b < l /\ obj_field h (VRef b) f = Some (VRef l) /\
            h !! l = Some (HList []).
Proof.
  intros Hp Hf. destruct (placed_field _ _ _ _ _ _ Hp Hf) as (l & Hl & Hv & Hc).
  exists l. repeat split; try assumption. now apply placed_head in Hc.
Qed.

Lemma placed_field_str h b cls fs f x :
  placed h b (snd (instantiate b (ShObj cls fs))) ->
  assoc f fs = Some (ShStr x) ->
  obj_field h (VRef b) f = Some (VStr x).
Proof.
  intros Hp Hf. now destruct (placed_field _ _ _ _ _ _ Hp Hf) as (l & Hl & Hv & Hc).
Qed.

Lemma placed_object h b cls fs :
  placed h b (snd (instantiate b (ShObj cls fs))) ->
  h !! b = Some (HObject cls (fst (fill_fields (S b) fs))).
Proof. rewrite instantiate_obj. apply placed_head. Qed.

Lemma shape_induction (P : shape -> Prop) :
  P ShNone -> (forall x, P (ShStr x)) -> P ShList ->
  (forall cls fs, Forall (fun kv => P (snd kv)) fs -> P (ShObj cls fs)) ->
  forall sh, P sh.
Proof.
  intros HN HS HL HO. fix IH 1.
  intros [| x | | cls fs]; [exact HN | apply HS | exact HL |].
  apply HO. induction fs as [|[n sh] fs IHfs]; constructor;
    [apply IH | exact IHfs].
Qed.

Lemma fresh_value_mono lo hi lo' hi' v :
  lo' <= lo -> hi <= hi' -> fresh_value lo hi v = true ->
  fresh_value lo' hi' v = true.
Proof.
  intros H1 H2. destruct v; simpl; try easy.
  rewrite !andb_true_iff, !Nat.leb_le, !Nat.ltb_lt. lia.
Qed.

(** Whatever the shape, a new instance holds no data and refers to no cell
    but its own. *)
Lemma instantiate_fresh sh :
  forall b lo hi,
    lo <= b -> b + length (snd (instantiate b sh)) <= hi ->
    (snd (instantiate b sh) <> [] -> fresh_value lo hi (fst (instantiate b sh)) = true) /\
    (snd (instantiate b sh) = [] -> fresh_value lo hi (fst (instantiate b sh)) = true) /\
    forallb (fresh_cell lo hi) (snd (instantiate b sh)) = true.
Proof.
  induction sh as [| x | | cls fs IH] using shape_induction; intros b lo hi Hlo Hhi.
  - simpl. auto.
  - simpl. auto.
  - simpl in *. repeat split; try easy.
    intros _. rewrite andb_true_iff, Nat.leb_le, Nat.ltb_lt. lia.
  - rewrite instantiate_obj in *. simpl in *.
    assert (Hb : Nat.leb lo b && Nat.ltb b hi = true).
    { rewrite andb_true_iff, Nat.leb_le, Nat.ltb_lt. lia. }
    rewrite Hb. repeat split; try easy.
    rewrite andb_true_iff. 
    assert (G : forall c, lo <= c -> c + length (snd (fill_fields c fs)) <= hi ->
      forallb (fun kv => fresh_value lo hi (snd kv)) (fst (fill_fields c fs)) = true /\
      forallb (fresh_cell lo hi) (snd (fill_fields c fs)) = true).
    { clear Hb Hhi Hlo b. induction IH as [|[n sh] gs Hsh _ IHgs]; intros c Hc Hh.
      - simpl. auto.
      - simpl in *. destruct (instantiate c sh) as [v c1] eqn:Ei.
        destruct (fill_fields (c + length c1) gs) as [vs c2] eqn:Ef.
        simpl in *. rewrite length_app in Hh.
        specialize (Hsh c lo hi Hc). rewrite Ei in Hsh. simpl in Hsh.
        destruct (Hsh ltac:(lia)) as (H1 & H2 & H3).
        specialize (IHgs (c + length c1)). rewrite Ef in IHgs. simpl in IHgs.
        destruct (IHgs ltac:(lia) ltac:(lia)) as [H4 H5].
        rewrite forallb_app, H3, H5, H4.
        destruct c1; [rewrite H2|rewrite H1]; easy. }
    apply G; lia.
Qed.

Lemma instantiate_pristine b cls fs :
  pristine b (snd (instantiate b (ShObj cls fs))) = true.
Proof. unfold pristine. apply instantiate_fresh; lia. Qed.

(** ** Attribute lookup *)

Lemma self_suds_client_ok s self inst :
  reaches_client s self inst -> self_suds_client self s = (Ok self, s).
Proof.
  intros (Hi & Ht & Hm). unfold self_suds_client. now rewrite Ht, Hm, Hi.
Qed.

Lemma getattribute_type s self inst name fs :
  reaches_client s self inst ->
  reserved name = false ->
  mem_str name (suds_types s) = true ->
  assoc name (sd_types (sd (suds_client inst))) = Some fs ->
  getattribute self name s
  = (Ok (VRef (length (heap s))),
     set_heap s (heap s ++ snd (instantiate (length (heap s)) (ShObj name fs)))).
Proof.
  intros Hc Hr Ht Hfs. unfold getattribute. rewrite Hr, Ht.
  cbn [negb andb].
  rewrite (bind_ok _ _ _ _ _ (self_suds_client_ok _ _ _ Hc)).
  unfold factory_create. destruct Hc as (Hi & _). rewrite Hi, Hfs.
  rewrite instantiate_obj. reflexivity.
Qed.

Lemma getattribute_method s self inst name :
  reaches_client s self inst ->
  reserved name = false ->
  mem_str name (suds_types s) = false ->
  mem_str name (suds_methods s) = true ->
  mem_str name (sd_methods (sd (suds_client inst))) = true ->
  getattribute self name s
  = (Ok (VRef (length (heap s))),
     set_heap s (heap s ++
       [HMethod self name [("client", VClient self); ("method", VOpaque name)]])).
Proof.
  intros Hc Hr Ht Hm Hsd. unfold getattribute. rewrite Hr, Ht, Hm.
  cbn [negb andb].
  rewrite (bind_ok _ _ _ _ _ (self_suds_client_ok _ _ _ Hc)).
  unfold service_getattr. destruct Hc as (Hi & _). now rewrite Hi, Hsd.
Qed.

Lemma getattribute_fallback s self name :
  reserved name = true \/
  mem_str name (suds_types s) = false /\ mem_str name (suds_methods s) = false ->
  getattribute self name s = object_getattribute self name s.
Proof.
  unfold getattribute. intros [-> | [-> ->]]; [reflexivity|].
  now rewrite !andb_false_r.
Qed.

Lemma object_getattribute_reserved s self inst name :
  instances s !! self = Some inst -> reserved name = true ->
  object_getattribute self name s = (Ok (VClassAttr name), s).
Proof.
  intros Hi Hr. unfold object_getattribute. rewrite Hi, Hr.
  unfold reserved in Hr. apply orb_true_iff in Hr.
  destruct Hr as [E | E]; apply String.eqb_eq in E; subst name; reflexivity.
Qed.


(** C5 (amended).  For a known structured type other than the two reserved
    names, which the service description of the facade defines: when
    [suds_client] is itself a SOAP name, an access gives no instance at all
    ([RuntimeError]); otherwise it returns an untouched instance at a new
    address and, whatever is then done to the heap, the next access returns
    another one, at another address, laid out the same way and untouched,
    and building it changes no cell that existed. *)
Theorem type_access_fresh s self inst name fs :
  instances s !! self = Some inst ->
  reserved name = false ->
  mem_str name (suds_types s) = true ->
  assoc name (sd_types (sd (suds_client inst))) = Some fs ->
  (client_shadowed s = true ->
     forall h', getattribute self name (set_heap s h')
                = (Raise RuntimeError, set_heap s h')) /\
  (client_shadowed s = false ->
   let l1 := length (heap s) in
   exists cells1,
     getattribute self name s = (Ok (VRef l1), set_heap s (heap s ++ cells1)) /\
     cells1 = snd (instantiate l1 (ShObj name fs)) /\
     pristine l1 cells1 = true /\
     forall h', length (heap s ++ cells1) <= length h' ->
       let l2 := length h' in
       exists cells2,
         getattribute self name (set_heap s h')
         = (Ok (VRef l2), set_heap s (h' ++ cells2)) /\
         l2 <> l1 /\
         cells2 = snd (instantiate l2 (ShObj name fs)) /\
         pristine l2 cells2 = true /\
         (forall l, l < l2 -> (h' ++ cells2) !! l = h' !! l)).
Proof.
  intros Hi Hr Ht Hfs. split.
  { unfold client_shadowed. intros Hs h'.
    unfold getattribute, set_heap. cbn [suds_types suds_methods].
    rewrite Hr, Ht. cbn [negb andb].
    unfold bind, self_suds_client. cbn [suds_types suds_methods].
    now rewrite Hs. }
  intros Hs l1.
  assert (Hc : reaches_client s self inst).
  { unfold client_shadowed in Hs. apply orb_false_iff in Hs.
    destruct Hs. now repeat split. }
  exists (snd (instantiate l1 (ShObj name fs))).
  split; [now apply getattribute_type with inst|].
  split; [reflexivity|]. split; [apply instantiate_pristine|].
  intros h' Hlen l2. exists (snd (instantiate l2 (ShObj name fs))).
  split; [|split; [|split; [reflexivity|split]]].
  - now apply (getattribute_type (set_heap s h') self inst name fs).
  - rewrite length_app, instantiate_obj in Hlen. simpl in Hlen.
    subst l1 l2. lia.
  - apply instantiate_pristine.
  - intros l Hl. now apply lookup_app_l.
Qed.

(** ** Names of the class *)

Lemma no_collision_name s n :
  no_collision s = true -> mem_str n static_names = true ->
  mem_str n (suds_types s) = false /\ mem_str n (suds_methods s) = false.
Proof.
  unfold no_collision. rewrite forallb_forall. intros H Hn.
  apply mem_str_In in Hn. specialize (H n Hn).
  apply andb_true_iff in H. destruct H as [H1 H2].
  now rewrite negb_true_iff in H1, H2.
Qed.

Lemma getattribute_static s self n :
  no_collision s = true -> mem_str n static_names = true ->
  getattribute self n s = object_getattribute self n s.
Proof.
  intros Hn Hs. apply getattribute_fallback. right.
  now apply no_collision_name.
Qed.

Lemma ready_reaches s self U K :
  ready s self U K ->
  exists inst,
    reaches_client s self inst /\ user_id inst = VStr U /\
    encryption_key inst = VStr K.
Proof.
  intros (Hn & (inst & Hi & HU & HK) & _). exists inst.
  repeat split; try assumption; now apply (no_collision_name s "suds_client").
Qed.

Lemma call_self_method s self inst n args body :
  instances s !! self = Some inst -> no_collision s = true ->
  mem_str n class_methods = true ->
  call_self self n args body s = body s.
Proof.
  intros Hi Hn Hm. unfold call_self.
  assert (E : getattribute self n s = (Ok (VBound self n), s)).
  { rewrite getattribute_static; [|assumption|].
    - unfold object_getattribute. rewrite Hi.
      apply mem_str_In in Hm. simpl in Hm.
      repeat (destruct Hm as [<- | Hm]; [reflexivity|]). contradiction.
    - unfold static_names. rewrite !mem_str_app, Hm. now rewrite !orb_true_r. }
  now rewrite (bind_ok _ _ _ _ _ E).
Qed.

Lemma self_getattribute_eq s self inst name :
  instances s !! self = Some inst -> no_collision s = true ->
  self_getattribute self name s = getattribute self name s.
Proof. intros Hi Hn. now apply call_self_method with inst. Qed.

(** ** Heap bookkeeping *)

Lemma insert_middle {A} (h : list A) x y cs :
  <[length h := x]> (h ++ y :: cs) = h ++ x :: cs.
Proof.
  rewrite insert_app_r_alt by lia. now rewrite Nat.sub_diag.
Qed.

Lemma obj_field_app h cs l f :
  l < length h -> obj_field (h ++ cs) (VRef l) f = obj_field h (VRef l) f.
Proof. intros H. unfold obj_field. now rewrite lookup_app_l. Qed.

Lemma obj_field_insert_ne h l l' o f :
  l <> l' -> obj_field (<[l' := o]> h) (VRef l) f = obj_field h (VRef l) f.
Proof. intros H. unfold obj_field. now rewrite list_lookup_insert_ne. Qed.

Lemma obj_field_agree h h' l f :
  h' !! l = h !! l -> obj_field h' (VRef l) f = obj_field h (VRef l) f.
Proof. intros H. unfold obj_field. now rewrite H. Qed.

Lemma obj_field_cell h l cls fs f :
  h !! l = Some (HObject cls fs) -> obj_field h (VRef l) f = assoc f fs.
Proof. intros H. unfold obj_field. now rewrite H. Qed.

Lemma setattr_object s l cls fs name x :
  heap s !! l = Some (HObject cls fs) ->
  setattr (VRef l) name x s
  = (Ok tt, set_heap s (<[l := HObject cls (set_field name x fs)]> (heap s))).
Proof. intros H. unfold setattr. now rewrite H. Qed.

Lemma getattr_field s l name x :
  obj_field (heap s) (VRef l) name = Some x ->
  getattr (VRef l) name s = (Ok x, s).
Proof.
  intros H. unfold getattr. rewrite H.
  unfold obj_field in H. now destruct (heap s !! l).
Qed.

Lemma call_append_list s l items x :
  heap s !! l = Some (HList items) ->
  call_append (VRef l) x s
  = (Ok tt, set_heap s (<[l := HList (items ++ [x])]> (heap s))).
Proof. intros H. unfold call_append. now rewrite H. Qed.

(** Projections of a state written out. *)
Ltac norm :=
  unfold set_heap, set_instances;
  cbn [heap suds_types suds_methods instances calls clock fst snd
       call_client call_op call_args call_headers call_heap].

Tactic Notation "norm" "in" hyp_list(Hs) :=
  unfold set_heap, set_instances in Hs;
  cbn [heap suds_types suds_methods instances calls clock fst snd
       call_client call_op call_args call_headers call_heap] in Hs.

(** ** Signing the header *)

Lemma set_header_ok s self U K :
  ready s self U K ->
  exists hdr cs inst inst',
    set_header self s
    = (Ok VNone,
       {| heap := heap s ++ HObject "AuthenticationHeaderInfo" hdr :: cs;
          suds_types := suds_types s; suds_methods := suds_methods s;
          instances := <[self := inst']> (instances s);
          calls := calls s; clock := S (clock s) |}) /\
    instances s !! self = Some inst /\
    soapheaders (suds_client inst') = VRef (length (heap s)) /\
    sd (suds_client inst') = sd (suds_client inst) /\
    user_id inst' = user_id inst /\
    encryption_key inst' = encryption_key inst /\
    assoc "requestSignature" hdr
      = Some (VStr (sign (rfc3339_utcnow (clock s) ++ U) K)) /\
    assoc "mktowsUserId" hdr = Some (VStr U) /\
    assoc "requestTimestamp" hdr = Some (VStr (rfc3339_utcnow (clock s))).
Proof.
  intros Hr. destruct (ready_reaches _ _ _ _ Hr) as (inst & Hc & HU & HK).
  destruct Hr as (Hn & _ & fs & Ht & inst0 & Hi0 & Hfs).
  pose proof Hc as (Hi & _). rewrite Hi in Hi0. injection Hi0 as <-.
  set (T := rfc3339_utcnow (clock s)).
  set (fvs := fst (fill_fields (S (length (heap s))) fs)).
  set (cs := snd (fill_fields (S (length (heap s))) fs)).
  set (hdr := set_field "requestTimestamp" (VStr T)
                (set_field "mktowsUserId" (VStr U)
                   (set_field "requestSignature" (VStr (sign (T ++ U) K)) fvs))).
  set (inst' :=
    {| soap_endpoint := soap_endpoint inst; user_id := user_id inst;
       encryption_key := encryption_key inst;
       suds_client := {| location := location (suds_client inst);
                         sd := sd (suds_client inst);
                         soapheaders := VRef (length (heap s)) |} |}).
  exists hdr, cs, inst, inst'.
  split; [|repeat split; try assumption].
  - unfold set_header.
    rewrite (bind_ok _ _ _ _ _
      (getattribute_type s self inst "AuthenticationHeaderInfo" fs Hc eq_refl Ht Hfs)).
    rewrite instantiate_obj. fold fvs cs.
    unfold utcnow, bind at 1. norm.
    fold T.
    match goal with |- context [bind (getattribute self "user_id") _ ?st] =>
      set (s1 := st) end.
    assert (EU : getattribute self "user_id" s1 = (Ok (VStr U), s1)).
    { rewrite getattribute_static; [|exact Hn|reflexivity].
      unfold object_getattribute. subst s1. cbn [instances]. now rewrite Hi, <- HU. }
    assert (EK : getattribute self "encryption_key" s1 = (Ok (VStr K), s1)).
    { rewrite getattribute_static; [|exact Hn|reflexivity].
      unfold object_getattribute. subst s1. cbn [instances]. now rewrite Hi, <- HK. }
    rewrite (bind_ok _ _ _ _ _ EU). cbn [py_add]. rewrite bind_lift_ok.
    rewrite (bind_ok _ _ _ _ _ EK). cbn [sign_values]. rewrite bind_lift_ok.
    assert (E1 : heap s1 !! length (heap s) = Some (HObject "AuthenticationHeaderInfo" fvs)).
    { subst s1. cbn [heap]. now apply list_lookup_middle. }
    rewrite (bind_ok _ _ _ _ _ (setattr_object s1 _ _ _ _ _ E1)).
    subst s1. norm.
    rewrite insert_middle.
    match goal with |- context [bind (getattribute self "user_id") _ ?st] =>
      set (s2 := st) end.
    assert (EU2 : getattribute self "user_id" s2 = (Ok (VStr U), s2)).
    { rewrite getattribute_static; [|exact Hn|reflexivity].
      unfold object_getattribute. subst s2. cbn [instances]. now rewrite Hi, <- HU. }
    rewrite (bind_ok _ _ _ _ _ EU2).
    match eval unfold s2 in s2 with context [HObject ?c ?f] =>
      assert (E2 : heap s2 !! length (heap s) = Some (HObject c f))
        by (subst s2; cbn [heap]; now apply list_lookup_middle);
      rewrite (bind_ok _ _ _ _ _ (setattr_object s2 _ _ _ _ _ E2))
    end.
    subst s2. norm.
    rewrite insert_middle.
    match goal with |- context [bind (setattr _ _ _) _ ?st] =>
      set (s3 := st) end.
    match eval unfold s3 in s3 with context [HObject ?c ?f] =>
      assert (E3 : heap s3 !! length (heap s) = Some (HObject c f))
        by (subst s3; cbn [heap]; now apply list_lookup_middle);
      rewrite (bind_ok _ _ _ _ _ (setattr_object s3 _ _ _ _ _ E3))
    end.
    subst s3. norm.
    rewrite insert_middle.
    match goal with |- context [bind (self_suds_client self) _ ?st] =>
      rewrite (bind_ok _ _ st _ _ (self_suds_client_ok st self inst Hc))
    end.
    unfold bind, set_options, ret.
    norm.
    rewrite Hi. reflexivity.
  - subst hdr. rewrite assoc_set_field_ne by discriminate.
    rewrite assoc_set_field_ne by discriminate. apply assoc_set_field_eq.
  - subst hdr. rewrite assoc_set_field_ne by discriminate.
    apply assoc_set_field_eq.
  - subst hdr. apply assoc_set_field_eq.
Qed.

(** C1.  The signature [set_header] attaches is the lowercase hexadecimal
    HMAC-SHA1 digest of [T + U] keyed by [K]: 40 digits among 0-9a-f, a
    function of the timestamp, the user id and the key alone, so that
    [sign(T + U, K)] computed again gives the same string. *)
Theorem request_signature s self U K :
  ready s self U K ->
  let T := rfc3339_utcnow (clock s) in
  exists s' inst',
    set_header self s = (Ok VNone, s') /\
    instances s' !! self = Some inst' /\
    let header := soapheaders (suds_client inst') in
    obj_field (heap s') header "requestSignature"
      = Some (VStr (spec_signature T U K)) /\
    obj_field (heap s') header "mktowsUserId" = Some (VStr U) /\
    obj_field (heap s') header "requestTimestamp" = Some (VStr T) /\
    sign (T ++ U) K = spec_signature T U K /\
    String.length (spec_signature T U K) = 40 /\
    forallb is_lower_hex (list_ascii_of_string (spec_signature T U K)) = true.
Proof.
  intros Hr T.
  destruct (set_header_ok s self U K Hr)
    as (hdr & cs & inst & inst' & E & Hi & Hh & _ & _ & _ & H1 & H2 & H3).
  eexists _, inst'. split; [exact E|].
  norm. split.
  { apply list_lookup_insert_eq. now apply lookup_lt_Some in Hi. }
  cbv zeta. rewrite Hh.
  assert (Hcell : (heap s ++ HObject "AuthenticationHeaderInfo" hdr :: cs)
                    !! length (heap s)
                  = Some (HObject "AuthenticationHeaderInfo" hdr))
    by now apply list_lookup_middle.
  rewrite !(obj_field_cell _ _ _ _ _ Hcell), H1, H2, H3, sign_spec.
  repeat split; try apply sign_spec; apply spec_signature_format.
Qed.

(** ** Dispatching *)

Lemma invoke_method s l c op fs args :
  heap s !! l = Some (HMethod c op fs) ->
  invoke (VRef l) args s
  = (respond (length (calls s)),
     {| heap := heap s; suds_types := suds_types s;
        suds_methods := suds_methods s; instances := instances s;
        calls := calls s ++
          [{| call_client := c; call_op := op; call_args := args;
              call_headers :=
                match instances s !! c with
                | Some inst => soapheaders (suds_client inst)
                | None => VNone
                end;
              call_heap := heap s |}];
        clock := clock s |}).
Proof. intros H. unfold invoke. now rewrite H. Qed.

(** [call_service] signs, resolves the operation and sends: the request is
    recorded with the heap as it stood, in which every cell that existed
    before the call is unchanged. *)
Lemma call_service_ok s self U K name args :
  ready s self U K -> has_method s self name -> reserved name = false ->
  exists s' c,
    call_service self name args s = (respond (length (calls s)), s') /\
    calls s' = calls s ++ [c] /\
    call_client c = self /\ call_op c = name /\ call_args c = args /\
    heap s' = call_heap c /\
    (forall l, l < length (heap s) -> call_heap c !! l = heap s !! l) /\
    obj_field (call_heap c) (call_headers c) "requestSignature"
      = Some (VStr (sign (rfc3339_utcnow (clock s) ++ U) K)).
Proof.
  intros Hr (Hnt & Hm & inst0 & Hi0 & Hsd) Hres.
  destruct (set_header_ok s self U K Hr)
    as (hdr & cs & inst & inst' & E & Hi & Hh & Hsd' & _ & _ & H1 & _ & _).
  rewrite Hi in Hi0. injection Hi0 as <-.
  pose proof Hr as (Hn & _ & _).
  unfold call_service.
  rewrite (bind_ok _ _ _ _ _
    (eq_trans (call_self_method s self inst "set_header" [] _ Hi Hn eq_refl) E)).
  match goal with |- context [bind (self_getattribute self name) _ ?st] =>
    set (s1 := st) end.
  assert (Hi1 : instances s1 !! self = Some inst').
  { subst s1. norm. apply list_lookup_insert_eq. now apply lookup_lt_Some in Hi. }
  assert (Hc1 : reaches_client s1 self inst').
  { split; [exact Hi1|]. now apply (no_collision_name s "suds_client"). }
  assert (Eg : self_getattribute self name s1
               = (Ok (VRef (length (heap s1))),
                  set_heap s1 (heap s1 ++
                    [HMethod self name [("client", VClient self); ("method", VOpaque name)]]))).
  { rewrite (self_getattribute_eq s1 self inst' name Hi1 Hn).
    apply getattribute_method with inst'; try assumption. now rewrite Hsd'. }
  rewrite (bind_ok _ _ _ _ _ Eg).
  erewrite invoke_method by (norm; now apply list_lookup_middle).
  subst s1. norm.
  eexists _, _. split; [reflexivity|].
  split; [norm; reflexivity|]. norm.
  rewrite list_lookup_insert_eq by now apply lookup_lt_Some in Hi.
  rewrite Hh. repeat split.
  - intros l Hl. rewrite <- app_assoc. now apply lookup_app_l.
  - rewrite obj_field_app by (rewrite length_app; simpl; lia).
    erewrite obj_field_cell by now apply list_lookup_middle. exact H1.
Qed.

Lemma bind_assoc {A B C} (m : M A) (k1 : A -> M B) (k2 : B -> M C) s :
  bind (bind m k1) k2 s = bind m (fun x => bind (k1 x) k2) s.
Proof. unfold bind. destruct (m s) as [[a|e] s']; reflexivity. Qed.

(** A new instance of a known type: the heap grows by the cells of the
    instance and nothing else moves. *)
Lemma new_object s self inst name fs :
  reaches_client s self inst ->
  reserved name = false ->
  has_type s self name fs ->
  exists h',
    getattribute self name s = (Ok (VRef (length (heap s))), set_heap s h') /\
    length (heap s) < length h' /\
    (forall l, l < length (heap s) -> h' !! l = heap s !! l) /\
    placed h' (length (heap s)) (snd (instantiate (length (heap s)) (ShObj name fs))).
Proof.
  intros Hc Hres (Ht & inst0 & Hi0 & Hfs).
  pose proof Hc as (Hi & _). rewrite Hi in Hi0. injection Hi0 as <-.
  eexists. split; [exact (getattribute_type s self inst name fs Hc Hres Ht Hfs)|].
  repeat split.
  - rewrite length_app, instantiate_obj. simpl. lia.
  - intros l Hl. now apply lookup_app_l.
  - apply placed_alloc.
Qed.


(** C9.  [get_lead] with key type "Email" dispatches [getLead] with one
    argument, a lead key whose [keyType] is the EMAIL member of the
    [LeadKeyRef] enumeration and whose [keyValue] is the key value given
    (so "a@b.com" for [get_lead("a@b.com", "Email")]), both already set in
    the heap the request is built from. *)
Theorem get_lead_email s self U K fs_key fs_ref em keyValue :
  ready s self U K ->
  has_type s self "LeadKey" fs_key ->
  has_type s self "LeadKeyRef" fs_ref ->
  assoc "EMAIL" fs_ref = Some (ShStr em) ->
  has_method s self "getLead" ->
  exists s' c lead_key,
    get_lead self keyValue (VStr "Email") s = (respond (length (calls s)), s') /\
    calls s' = calls s ++ [c] /\
    call_op c = "getLead" /\
    call_args c = [lead_key] /\
    obj_field (call_heap c) lead_key "keyType" = Some (VStr em) /\
    obj_field (call_heap c) lead_key "keyValue" = Some keyValue.
Proof.
  intros Hr Hkey Href Hem Hm.
  destruct (ready_reaches _ _ _ _ Hr) as (inst & Hc & _ & _).
  pose proof Hr as (Hn & _ & _). pose proof Hc as (Hi & _).
  unfold get_lead.
  change (eq_str (VStr "Email") "Email") with true.
  change (eq_str (VStr "Email") "Cookie") with false.
  change (eq_str (VStr "Email") "IDNUM") with false.
  cbv match.
  (* lead_key = self.LeadKey *)
  destruct (new_object s self inst "LeadKey" fs_key Hc eq_refl Hkey)
    as (h1 & E1 & Hlen1 & Hold1 & Hp1).
  rewrite (bind_ok _ _ _ _ _ E1). set (l0 := length (heap s)) in *.
  rewrite bind_assoc.
  (* self.LeadKeyRef.EMAIL *)
  destruct (new_object (set_heap s h1) self inst "LeadKeyRef" fs_ref Hc eq_refl Href)
    as (h2 & E2 & Hlen2 & Hold2 & Hp2).
  rewrite (bind_ok _ _ _ _ _ E2). norm. norm in Hlen2 Hold2 Hp2.
  rewrite bind_assoc.
  rewrite (bind_ok _ _ _ _ _
    (getattr_field (set_heap s h2) _ _ _ (placed_field_str _ _ _ _ _ _ Hp2 Hem))).
  (* lead_key.keyType = ... *)
  pose proof (placed_object _ _ _ _ Hp1) as Hcell.
  rewrite <- Hold2 in Hcell by exact Hlen1.
  rewrite (bind_ok _ _ _ _ _ (setattr_object (set_heap s h2) _ _ _ _ _ Hcell)).
  norm. rewrite !bind_ret.
  (* lead_key.keyValue = keyValue *)
  match goal with |- context [bind (setattr _ _ _) _ ?st] => set (s3 := st) end.
  assert (Hcell3 : heap s3 !! l0
            = Some (HObject "LeadKey"
                (set_field "keyType" (VStr em) (fst (fill_fields (S l0) fs_key))))).
  { subst s3. norm. apply list_lookup_insert_eq. lia. }
  rewrite (bind_ok _ _ _ _ _ (setattr_object s3 _ _ _ _ _ Hcell3)).
  subst s3. norm.
  (* self.call_service('getLead', lead_key) *)
  match goal with |- context [call_self _ _ _ _ ?st] =>
    rewrite (call_self_method st self inst "call_service" _ _ Hi Hn eq_refl);
    destruct (call_service_ok st self U K "getLead" [VRef l0] Hr Hm eq_refl)
      as (s' & c & E & Hcalls & _ & Hop & Hargs & _ & Hheap & _)
  end.
  norm in Hheap. rewrite !length_insert in Hheap.
  exists s', c, (VRef l0). repeat split; try assumption.
  - rewrite (obj_field_agree _ _ _ _ (Hheap l0 ltac:(lia))).
    erewrite obj_field_cell by (apply list_lookup_insert_eq; rewrite length_insert; lia).
    rewrite assoc_set_field_ne by discriminate. apply assoc_set_field_eq.
  - rewrite (obj_field_agree _ _ _ _ (Hheap l0 ltac:(lia))).
    erewrite obj_field_cell by (apply list_lookup_insert_eq; rewrite length_insert; lia).
    apply assoc_set_field_eq.
Qed.

Lemma new_object_explicit s self inst name fs :
  reaches_client s self inst ->
  no_collision s = true ->
  reserved name = false ->
  has_type s self name fs ->
  exists h',
    self_getattribute self name s = (Ok (VRef (length (heap s))), set_heap s h') /\
    length (heap s) < length h' /\
    (forall l, l < length (heap s) -> h' !! l = heap s !! l) /\
    placed h' (length (heap s)) (snd (instantiate (length (heap s)) (ShObj name fs))).
Proof.
  intros Hc Hn Hres Ht. pose proof Hc as (Hi & _).
  rewrite (self_getattribute_eq s self inst name Hi Hn).
  now apply new_object with inst.
Qed.

Lemma placed_field_obj h b cls fs f c gs :
  placed h b (snd (instantiate b (ShObj cls fs))) ->
  assoc f fs = Some (ShObj c gs) ->
  exists l, b < l /\ obj_field h (VRef b) f = Some (VRef l) /\
            placed h l (snd (instantiate l (ShObj c gs))).
Proof.
  intros Hp Hf. destruct (placed_field _ _ _ _ _ _ Hp Hf) as (l & Hl & Hv & Hc).
  exists l. rewrite instantiate_obj in Hv. now repeat split.
Qed.

Lemma placed_obj_lt h b cls fs :
  placed h b (snd (instantiate b (ShObj cls fs))) -> b < length h.
Proof. rewrite instantiate_obj. apply placed_lt. Qed.

(** Lookups through updates and allocations elsewhere. *)
Ltac heap_lookup :=
  repeat first
    [ rewrite length_insert
    | rewrite obj_field_insert_ne by lia
    | rewrite list_lookup_insert_ne by lia
    | rewrite obj_field_app by lia
    | rewrite lookup_app_l by lia ];
  try eassumption.

(** C4.  With category "Score", [get_lead_activity] dispatches
    [getLeadActivity] with a filter whose included activity types are
    exactly [ChangeScore]; with a category that is none of the four of the
    table it returns [True] and sends nothing. *)
Theorem get_lead_activity_table s self U K fs_key fs_filter cookie :
  ready s self U K ->
  has_type s self "LeadKey" fs_key ->
  has_type s self "ActivityTypeFilter" fs_filter ->
  (forall cls fs_inc,
     assoc "includeTypes" fs_filter = Some (ShObj cls fs_inc) ->
     assoc "activityType" fs_inc = Some ShList ->
     has_method s self "getLeadActivity" ->
     exists s' c key filter inc tokens,
       get_lead_activity self cookie (VStr "Score") s
         = (respond (length (calls s)), s') /\
       calls s' = calls s ++ [c] /\
       call_op c = "getLeadActivity" /\
       call_args c = [key; filter] /\
       obj_field (call_heap c) filter "includeTypes" = Some inc /\
       obj_field (call_heap c) inc "activityType" = Some tokens /\
       list_items (call_heap c) tokens = Some [VStr "ChangeScore"]) /\
  (forall acttype,
     eq_str acttype "Website Activity" = false ->
     eq_str acttype "Email Activity" = false ->
     eq_str acttype "Score" = false ->
     eq_str acttype "Interesting Moments" = false ->
     exists s',
       get_lead_activity self cookie acttype s = (Ok (VBool true), s') /\
       calls s' = calls s).
Proof.
  intros Hr Hkey Hfil.
  destruct (ready_reaches _ _ _ _ Hr) as (inst & Hc & _ & _).
  pose proof Hr as (Hn & _ & _). pose proof Hc as (Hi & _).
  destruct (new_object_explicit s self inst "LeadKey" fs_key Hc Hn eq_refl Hkey)
    as (h1 & E1 & Hlen1 & Hold1 & Hp1).
  destruct (new_object_explicit (set_heap s h1) self inst "ActivityTypeFilter"
              fs_filter Hc Hn eq_refl Hfil)
    as (h2 & E2 & Hlen2 & Hold2 & Hp2).
  pose proof (placed_object _ _ _ _ Hp1) as Hcell.
  rewrite <- Hold2 in Hcell by exact Hlen1.
  norm in Hlen2 Hold2 Hp2 Hcell.
  split.
  - intros cls fs_inc Hinc Hact Hm.
    destruct (placed_field_obj _ _ _ _ _ _ _ Hp2 Hinc) as (li & Hli & Fi & Hpi).
    destruct (placed_field_list _ _ _ _ _ Hpi Hact) as (ll & Hll & Fl & Fc).
    pose proof (lookup_lt_Some _ _ _ Fc) as Hll'.
    unfold get_lead_activity.
    rewrite (bind_ok _ _ _ _ _ E1), (bind_ok _ _ _ _ _ E2).
    change (eq_str (VStr "Score") "Email Activity") with false.
    change (eq_str (VStr "Score") "Website Activity") with false.
    change (eq_str (VStr "Score") "Interesting Moments") with false.
    change (eq_str (VStr "Score") "Score") with true.
    cbv match. rewrite !bind_ret.
    rewrite (bind_ok _ _ _ _ _ (setattr_object (set_heap (set_heap s h1) h2) _ _ _ _ _ Hcell)).
    norm.
    erewrite bind_ok
      by (apply setattr_object; norm; apply list_lookup_insert_eq; lia).
    norm. unfold include_type. rewrite !bind_assoc.
    erewrite bind_ok by (apply getattr_field; norm; heap_lookup).
    rewrite !bind_assoc.
    erewrite bind_ok by (apply getattr_field; norm; heap_lookup).
    erewrite bind_ok by (apply call_append_list; norm; heap_lookup).
    norm.
    match goal with |- context [call_self _ _ _ _ ?st] =>
      rewrite (call_self_method st self inst "call_service" _ _ Hi Hn eq_refl);
      destruct (call_service_ok st self U K "getLeadActivity"
                  [VRef (length (heap s)); VRef (length h1)] Hr Hm eq_refl)
        as (s' & c & E & Hcalls & _ & Hop & Hargs & _ & Hheap & _)
    end.
    norm in Hheap. rewrite !length_insert in Hheap.
    exists s', c, (VRef (length (heap s))), (VRef (length h1)), (VRef li), (VRef ll).
    repeat split; try assumption.
    + rewrite (obj_field_agree _ _ _ _ (Hheap (length h1) ltac:(lia))).
      heap_lookup.
    + rewrite (obj_field_agree _ _ _ _ (Hheap li ltac:(lia))).
      heap_lookup.
    + unfold list_items. rewrite (Hheap ll ltac:(lia)).
      rewrite list_lookup_insert_eq by (rewrite !length_insert; lia).
      reflexivity.
  - intros acttype H1 H2 H3 H4.
    unfold get_lead_activity.
    rewrite (bind_ok _ _ _ _ _ E1), (bind_ok _ _ _ _ _ E2).
    rewrite H1, H2, H3, H4. rewrite !bind_ret.
    erewrite bind_ok by (apply setattr_object; norm; exact Hcell).
    eexists. split; reflexivity.
Qed.

(** ** Loops that build a list of objects

    The loops of [build_lead_record] and [sync_m_objects] have one shape:
    each round allocates an object, fills it from the element at hand and
    appends it to one list of the heap, at address [la]. *)

Section AppendLoop.

Context {T : Type}.
Variable s0 : state.
Variable body : value -> M unit.
Variable enc : T -> value.
Variable la : nat.
Variable Inv : list hobj -> Prop.
Variable R : list hobj -> nat -> T -> Prop.

Hypothesis Inv_stable : forall h h',
  Inv h -> length h <= length h' ->
  (forall l, l < length h -> l <> la -> h' !! l = h !! l) -> Inv h'.

Hypothesis R_stable : forall h h' a t,
  R h a t -> h' !! a = h !! a -> R h' a t.

Hypothesis body_spec : forall h items t,
  Inv h -> h !! la = Some (HList items) ->
  exists h',
    body (enc t) (set_heap s0 h) = (Ok tt, set_heap s0 h') /\
    length h < length h' /\
    (forall l, l < length h -> l <> la -> h' !! l = h !! l) /\
    h' !! la = Some (HList (items ++ [VRef (length h)])) /\
    R h' (length h) t.

Lemma for_each_append ts : forall h items,
  Inv h -> h !! la = Some (HList items) ->
  exists h' locs,
    for_each (map enc ts) body (set_heap s0 h) = (Ok tt, set_heap s0 h') /\
    length h <= length h' /\
    (forall l, l < length h -> l <> la -> h' !! l = h !! l) /\
    h' !! la = Some (HList (items ++ map VRef locs)) /\
    Forall2 (R h') locs ts.
Proof.
  induction ts as [|t ts IH]; intros h items HI Hla.
  - exists h, []. simpl. rewrite app_nil_r. repeat split; auto.
  - destruct (body_spec h items t HI Hla) as (h1 & E1 & Hlen1 & Hold1 & Hla1 & HR1).
    assert (HI1 : Inv h1) by (apply (Inv_stable h); [assumption|lia|assumption]).
    destruct (IH h1 _ HI1 Hla1) as (h' & locs & E & Hlen & Hold & Hla' & HR).
    exists h', (length h :: locs). simpl.
    rewrite (bind_ok _ _ _ _ _ E1), E.
    pose proof (lookup_lt_Some _ _ _ Hla) as Hlt.
    repeat split.
    + lia.
    + intros l Hl Hne. rewrite Hold by lia. now apply Hold1.
    + now rewrite Hla', <- app_assoc.
    + constructor; [|assumption].
      apply (R_stable h1); [assumption|]. apply Hold; lia.
Qed.

End AppendLoop.

(** ** Lead records *)

Lemma read_attribute_agree h h' a :
  h' !! a = h !! a -> read_attribute h' (VRef a) = read_attribute h (VRef a).
Proof.
  intros H. unfold read_attribute.
  now rewrite !(obj_field_agree _ _ _ _ H).
Qed.

Lemma read_attrib_agree h h' a :
  h' !! a = h !! a -> read_attrib h' (VRef a) = read_attrib h (VRef a).
Proof.
  intros H. unfold read_attrib. now rewrite !(obj_field_agree _ _ _ _ H).
Qed.

Lemma read_attribute_intro h v a b c :
  obj_field h v "attrName" = Some a -> obj_field h v "attrType" = Some b ->
  obj_field h v "attrValue" = Some c -> read_attribute h v = Some (a, b, c).
Proof. intros H1 H2 H3. unfold read_attribute. now rewrite H1, H2, H3. Qed.

Lemma read_attrib_intro h v a b :
  obj_field h v "name" = Some a -> obj_field h v "value" = Some b ->
  read_attrib h v = Some (a, b).
Proof. intros H1 H2. unfold read_attrib. now rewrite H1, H2. Qed.

Lemma Forall2_read {T} (read : list hobj -> value -> option T) h lo locs ts :
  Forall2 (fun a t => lo <= a /\ a < length h /\ read h (VRef a) = Some t) locs ts ->
  map (read h) (map VRef locs) = map Some ts.
Proof.
  induction 1 as [|a t locs ts (_ & _ & E) _ IH]; simpl; [reflexivity|].
  now rewrite E, IH.
Qed.

(** One round of the loop of [build_lead_record] (lines 90-92). *)
Lemma attribute_round s self inst fs_attr list_obj la lo h items t :
  reaches_client s self inst ->
  has_type s self "Attribute" fs_attr ->
  obj_field h (VRef list_obj) "attribute" = Some (VRef la) ->
  list_obj < length h -> list_obj <> la -> lo <= length h ->
  h !! la = Some (HList items) ->
  exists h',
    (attribute <- getattribute self "Attribute" ;;
     abc <- unpack3 (triple t) ;;
     setattr attribute "attrName" (fst (fst abc)) ;;;
     setattr attribute "attrType" (snd (fst abc)) ;;;
     setattr attribute "attrValue" (snd abc) ;;;
     l <- getattr (VRef list_obj) "attribute" ;;
     call_append l attribute) (set_heap s h)
    = (Ok tt, set_heap s h') /\
    length h < length h' /\
    (forall l, l < length h -> l <> la -> h' !! l = h !! l) /\
    h' !! la = Some (HList (items ++ [VRef (length h)])) /\
    (lo <= length h /\ length h < length h' /\
     read_attribute h' (VRef (length h)) = Some t).
Proof.
  intros Hc Hattr Hfield Hlt Hne Hlo Hla.
  pose proof (lookup_lt_Some _ _ _ Hla) as Hla_lt.
  destruct (new_object (set_heap s h) self inst "Attribute" fs_attr Hc eq_refl Hattr)
    as (h1 & E1 & Hlen1 & Hold1 & Hp1).
  norm in Hlen1 Hold1 Hp1.
  pose proof (placed_object _ _ _ _ Hp1) as Hcell.
  rewrite (bind_ok _ _ _ _ _ E1).
  destruct t as [[a b] c]. unfold unpack3, triple, py_iter. rewrite bind_assoc.
  unfold bind at 1. cbn [fst snd]. rewrite bind_ret. cbn [fst snd].
  erewrite bind_ok by (apply setattr_object; norm; exact Hcell). norm.
  erewrite bind_ok
    by (apply setattr_object; norm; apply list_lookup_insert_eq; lia). norm.
  erewrite bind_ok
    by (apply setattr_object; norm; apply list_lookup_insert_eq;
        rewrite ?length_insert; lia). norm.
  erewrite bind_ok
    by (apply getattr_field; norm; heap_lookup; rewrite obj_field_agree with (h := h);
        [eassumption|apply Hold1; lia]).
  erewrite call_append_list
    by (norm; heap_lookup; rewrite Hold1 by lia; eassumption).
  norm. eexists. split; [reflexivity|].
  rewrite !length_insert.
  split; [lia|]. split; [|split; [|split; [lia|split; [lia|]]]].
  - intros l Hl Hl'. heap_lookup. now apply Hold1.
  - apply list_lookup_insert_eq. rewrite !length_insert. lia.
  - apply read_attribute_intro;
      rewrite obj_field_insert_ne by lia;
      (erewrite obj_field_cell
         by (apply list_lookup_insert_eq; rewrite ?length_insert; lia));
      repeat first [ rewrite assoc_set_field_eq
                   | rewrite assoc_set_field_ne by discriminate ];
      reflexivity.
Qed.

(** [build_lead_record]: the record, its attribute array and the list of
    [Attribute] objects, one per triple, in order. *)
Lemma build_lead_record_framed s self inst fs_rec fs_arr fs_attr email triples :
  reaches_client s self inst ->
  has_type s self "LeadRecord" fs_rec ->
  has_type s self "ArrayOfAttribute" fs_arr ->
  assoc "attribute" fs_arr = Some ShList ->
  has_type s self "Attribute" fs_attr ->
  exists h' arr lst locs,
   (build_lead_record self email (VTuple (map triple triples)) s
    = (Ok (VRef (length (heap s))), set_heap s h') /\
    length (heap s) < length h' /\
    obj_field h' (VRef (length (heap s))) "Email" = Some email /\
    obj_field h' (VRef (length (heap s))) "leadAttributeList" = Some (VRef arr) /\
    arr < length h' /\
    obj_field h' (VRef arr) "attribute" = Some (VRef lst) /\
    lst < length h' /\
    h' !! lst = Some (HList (map VRef locs)) /\
    Forall (fun a => a < length h') locs /\
    map (read_attribute h') (map VRef locs) = map Some triples) /\
    (forall l, l < length (heap s) -> h' !! l = heap s !! l) /\
    length (heap s) < arr /\ length (heap s) < lst /\
    Forall (fun a => length (heap s) < a) locs.
Proof.
  intros Hc Hrec Harr Hfield Hattr.
  destruct (new_object s self inst "LeadRecord" fs_rec Hc eq_refl Hrec)
    as (h1 & E1 & Hlen1 & Hold1 & Hp1).
  pose proof (placed_object _ _ _ _ Hp1) as Hcell.
  set (l0 := length (heap s)) in *.
  set (rec1 := HObject "LeadRecord"
                 (set_field "Email" email (fst (fill_fields (S l0) fs_rec)))).
  set (h2 := <[l0 := rec1]> h1).
  destruct (new_object (set_heap s h2) self inst "ArrayOfAttribute" fs_arr
              Hc eq_refl Harr)
    as (h3 & E3 & Hlen3 & Hold3 & Hp3).
  norm in Hlen3 Hold3 Hp3.
  assert (Hlen2 : length h2 = length h1) by apply length_insert.
  destruct (placed_field_list _ _ _ _ _ Hp3 Hfield) as (la & Hla & Fa & Fc).
  pose proof (lookup_lt_Some _ _ _ Fc) as Hla_lt.
  destruct (for_each_append s
              (fun attr =>
                 attribute <- getattribute self "Attribute" ;;
                 abc <- unpack3 attr ;;
                 setattr attribute "attrName" (fst (fst abc)) ;;;
                 setattr attribute "attrType" (snd (fst abc)) ;;;
                 setattr attribute "attrValue" (snd abc) ;;;
                 l <- getattr (VRef (length h2)) "attribute" ;;
                 call_append l attribute)
              triple la
              (fun h => obj_field h (VRef (length h2)) "attribute" = Some (VRef la)
                        /\ length h3 <= length h)
              (fun h a t => length h3 <= a /\ a < length h
                            /\ read_attribute h (VRef a) = Some t))
    with (ts := triples) (h := h3) (items := @nil value)
    as (h4 & locs & E4 & Hlen4 & Hold4 & Hla4 & HR4).
  { intros h h' [HI1 HI2] Hle Hag. split; [|lia].
    rewrite (obj_field_agree h); [assumption|]. apply Hag; lia. }
  { intros h h' a t (H1 & H2 & H3) Hag. repeat split; [assumption| |].
    - apply lookup_lt_is_Some. rewrite Hag. now apply lookup_lt_is_Some.
    - now rewrite (read_attribute_agree h). }
  { intros h items t [HI1 HI2] Hitems.
    apply (attribute_round s self inst fs_attr); try assumption; lia. }
  { split; [assumption|lia]. }
  { assumption. }
  simpl in Hla4.
  exists (<[l0 := HObject "LeadRecord"
               (set_field "leadAttributeList" (VRef (length h2))
                  (set_field "Email" email (fst (fill_fields (S l0) fs_rec))))]> h4),
         (length h2), la, locs.
  assert (Hcell4 : h4 !! l0 = Some rec1).
  { rewrite Hold4 by lia. rewrite Hold3 by lia.
    subst h2. apply list_lookup_insert_eq. lia. }
  assert (Hlo : Forall (fun a => length h3 <= a) locs).
  { clear -HR4. induction HR4 as [|a t locs ts (H & _) _ IH]; constructor; auto. }
  split; [split|].
  - unfold build_lead_record.
    rewrite (bind_ok _ _ _ _ _ E1).
    erewrite bind_ok by (apply setattr_object; norm; exact Hcell).
    norm. fold rec1 h2.
    change {| heap := h2; suds_types := suds_types s;
              suds_methods := suds_methods s; instances := instances s;
              calls := calls s; clock := clock s |} with (set_heap s h2).
    rewrite (bind_ok _ _ _ _ _ E3).
    unfold py_iter at 1. unfold bind at 1.
    change (set_heap (set_heap s h2) h3) with (set_heap s h3).
    rewrite (bind_ok _ _ _ _ _ E4).
    erewrite bind_ok by (apply setattr_object; norm; exact Hcell4).
    reflexivity.
  - rewrite length_insert.
    assert (Hall : Forall (fun a => a < length h4) locs).
    { clear -HR4. induction HR4 as [|a t locs ts (_ & H & _) _ IH]; constructor; auto. }
    repeat split; try assumption; try lia.
    + erewrite obj_field_cell by (apply list_lookup_insert_eq; lia).
      rewrite assoc_set_field_ne by discriminate. apply assoc_set_field_eq.
    + erewrite obj_field_cell by (apply list_lookup_insert_eq; lia).
      apply assoc_set_field_eq.
    + rewrite obj_field_insert_ne by lia.
      rewrite (obj_field_agree h3); [assumption|]. apply Hold4; lia.
    + rewrite list_lookup_insert_ne by lia. assumption.
    + rewrite <- (Forall2_read read_attribute h4 (length h3) locs triples HR4).
      apply map_ext_in. intros v Hv. apply in_map_iff in Hv.
      destruct Hv as (a & <- & Ha).
      apply read_attribute_agree. apply list_lookup_insert_ne.
      rewrite Forall_forall in Hlo. apply list_elem_of_In in Ha.
      specialize (Hlo a Ha). lia.
  - split; [|split; [lia|split; [lia|]]].
    + intros l Hl. rewrite list_lookup_insert_ne by lia.
      rewrite Hold4, Hold3 by lia. subst h2.
      rewrite list_lookup_insert_ne by lia. now apply Hold1.
    + eapply Forall_impl; [exact Hlo|]. intros a Ha. simpl in Ha. lia.
Qed.

Lemma build_lead_record_ok s self inst fs_rec fs_arr fs_attr email triples :
  reaches_client s self inst ->
  has_type s self "LeadRecord" fs_rec ->
  has_type s self "ArrayOfAttribute" fs_arr ->
  assoc "attribute" fs_arr = Some ShList ->
  has_type s self "Attribute" fs_attr ->
  exists h' arr lst locs,
    build_lead_record self email (VTuple (map triple triples)) s
    = (Ok (VRef (length (heap s))), set_heap s h') /\
    length (heap s) < length h' /\
    obj_field h' (VRef (length (heap s))) "Email" = Some email /\
    obj_field h' (VRef (length (heap s))) "leadAttributeList" = Some (VRef arr) /\
    arr < length h' /\
    obj_field h' (VRef arr) "attribute" = Some (VRef lst) /\
    lst < length h' /\
    h' !! lst = Some (HList (map VRef locs)) /\
    Forall (fun a => a < length h') locs /\
    map (read_attribute h') (map VRef locs) = map Some triples.
Proof.
  intros Hc Hrec Harr Hfield Hattr.
  destruct (build_lead_record_framed s self inst fs_rec fs_arr fs_attr email
              triples Hc Hrec Harr Hfield Hattr)
    as (h' & arr & lst & locs & H & _).
  now exists h', arr, lst, locs.
Qed.

(** C7.  [sync_lead] dispatches [syncLead] with a lead record whose [Email]
    is the address given and whose attribute list holds one [Attribute] per
    input triple, with that triple's name, type and value, in input order.
    For [sync_lead("a@b.com", [("FirstName", "string", "Bob")])] this is the
    e-mail "a@b.com" and the one triple. *)
Theorem sync_lead_record s self U K fs_rec fs_arr fs_attr email triples return_lead :
  ready s self U K ->
  has_type s self "LeadRecord" fs_rec ->
  has_type s self "ArrayOfAttribute" fs_arr ->
  assoc "attribute" fs_arr = Some ShList ->
  has_type s self "Attribute" fs_attr ->
  has_method s self "syncLead" ->
  exists s' c record arr lst items,
    sync_lead self email (VTuple (map triple triples)) return_lead s
      = (respond (length (calls s)), s') /\
    calls s' = calls s ++ [c] /\
    call_op c = "syncLead" /\
    call_args c = [record; return_lead] /\
    obj_field (call_heap c) record "Email" = Some email /\
    obj_field (call_heap c) record "leadAttributeList" = Some arr /\
    obj_field (call_heap c) arr "attribute" = Some lst /\
    list_items (call_heap c) lst = Some items /\
    map (read_attribute (call_heap c)) items = map Some triples.
Proof.
  intros Hr Hrec Harr Hfield Hattr Hm.
  destruct (ready_reaches _ _ _ _ Hr) as (inst & Hc & _ & _).
  pose proof Hr as (Hn & _ & _). pose proof Hc as (Hi & _).
  destruct (build_lead_record_ok s self inst fs_rec fs_arr fs_attr email triples
              Hc Hrec Harr Hfield Hattr)
    as (h' & arr & lst & locs & E & Hlen & F1 & F2 & Harr_lt & F3 & Hlst_lt & F4 & Hall & F5).
  destruct (call_service_ok (set_heap s h') self U K "syncLead"
              [VRef (length (heap s)); return_lead] Hr Hm eq_refl)
    as (s' & c & Ec & Hcalls & _ & Hop & Hargs & _ & Hheap & _).
  norm in Hheap.
  exists s', c, (VRef (length (heap s))), (VRef arr), (VRef lst), (map VRef locs).
  split.
  { unfold sync_lead.
    rewrite (bind_ok _ _ _ _ _
      (eq_trans (call_self_method s self inst "build_lead_record" _ _ Hi Hn eq_refl) E)).
    rewrite (call_self_method (set_heap s h') self inst "call_service" _ _ Hi Hn eq_refl).
    exact Ec. }
  repeat split; try assumption.
  - now rewrite (obj_field_agree _ _ _ _ (Hheap _ Hlen)).
  - now rewrite (obj_field_agree _ _ _ _ (Hheap _ Hlen)).
  - now rewrite (obj_field_agree _ _ _ _ (Hheap _ Harr_lt)).
  - unfold list_items. now rewrite (Hheap _ Hlst_lt), F4.
  - rewrite <- F5. apply map_ext_in. intros v Hv. apply in_map_iff in Hv.
    destruct Hv as (a & <- & Ha). apply read_attribute_agree. apply Hheap.
    rewrite Forall_forall in Hall. apply Hall. now apply list_elem_of_In.
Qed.

(** ** M-objects *)

Lemma set_heap_id s : set_heap s (heap s) = s.
Proof. now destruct s. Qed.

Lemma operation_member_ok s self inst fs_op x member sh :
  reaches_client s self inst ->
  no_collision s = true ->
  has_type s self "SyncOperationEnum" fs_op ->
  assoc member fs_op = Some sh ->
  exists op' h',
    operation_member self x member s = (Ok op', set_heap s h') /\
    length (heap s) <= length h' /\
    (forall l, l < length (heap s) -> h' !! l = heap s !! l).
Proof.
  intros Hc Hn Hop Hmem. unfold operation_member.
  destruct (eq_str x member).
  - destruct (new_object_explicit s self inst "SyncOperationEnum" fs_op
                Hc Hn eq_refl Hop) as (h1 & E1 & Hlen1 & Hold1 & Hp1).
    destruct (placed_field _ _ _ _ _ _ Hp1 Hmem) as (l & _ & Hv & _).
    eexists _, h1. rewrite (bind_ok _ _ _ _ _ E1).
    rewrite (getattr_field (set_heap s h1) _ _ _ Hv).
    repeat split; [lia|assumption].
  - exists x, (heap s). rewrite set_heap_id. now repeat split.
Qed.

Lemma sync_operation_ok s self inst fs_op operation sh1 sh2 sh3 :
  reaches_client s self inst ->
  no_collision s = true ->
  has_type s self "SyncOperationEnum" fs_op ->
  assoc "UPSERT" fs_op = Some sh1 ->
  assoc "INSERT" fs_op = Some sh2 ->
  assoc "UPDATE" fs_op = Some sh3 ->
  exists op' h',
    sync_operation self operation s = (Ok op', set_heap s h') /\
    length (heap s) <= length h' /\
    (forall l, l < length (heap s) -> h' !! l = heap s !! l).
Proof.
  intros Hc Hn Hop H1 H2 H3. unfold sync_operation.
  destruct (operation_member_ok s self inst fs_op operation "UPSERT" sh1
              Hc Hn Hop H1) as (op1 & h1 & E1 & Hlen1 & Hold1).
  destruct (operation_member_ok (set_heap s h1) self inst fs_op op1 "INSERT" sh2
              Hc Hn Hop H2) as (op2 & h2 & E2 & Hlen2 & Hold2).
  destruct (operation_member_ok (set_heap s h2) self inst fs_op op2 "UPDATE" sh3
              Hc Hn Hop H3) as (op3 & h3 & E3 & Hlen3 & Hold3).
  norm in Hlen2 Hold2 Hlen3 Hold3.
  exists op3, h3.
  rewrite (bind_ok _ _ _ _ _ E1), (bind_ok _ _ _ _ _ E2).
  split; [exact E3|]. split; [lia|].
  intros l Hl. rewrite Hold3, Hold2, Hold1 by lia. reflexivity.
Qed.

(** One round of the loop of [sync_m_objects] (lines 357-361). *)
Lemma attrib_round s self inst fs_attrib mobj al la lo h items t :
  reaches_client s self inst ->
  no_collision s = true ->
  has_type s self "Attrib" fs_attrib ->
  obj_field h (VRef mobj) "attribList" = Some (VRef al) ->
  obj_field h (VRef al) "attrib" = Some (VRef la) ->
  mobj < length h -> al < length h -> lo <= length h ->
  h !! la = Some (HList items) ->
  exists h',
    (i <- self_getattribute self "Attrib" ;;
     e0 <- getitem (pair t) 0 ;;
     setattr i "name" e0 ;;;
     e1 <- getitem (pair t) 1 ;;
     setattr i "value" e1 ;;;
     al <- getattr (VRef mobj) "attribList" ;;
     l <- getattr al "attrib" ;;
     call_append l i) (set_heap s h)
    = (Ok tt, set_heap s h') /\
    length h < length h' /\
    (forall l, l < length h -> l <> la -> h' !! l = h !! l) /\
    h' !! la = Some (HList (items ++ [VRef (length h)])) /\
    (lo <= length h /\ length h < length h' /\
     read_attrib h' (VRef (length h)) = Some t).
Proof.
  intros Hc Hn Hattr F1 F2 Hm Hal Hlo Hla.
  pose proof (lookup_lt_Some _ _ _ Hla) as Hla_lt.
  destruct (new_object_explicit (set_heap s h) self inst "Attrib" fs_attrib
              Hc Hn eq_refl Hattr)
    as (h1 & E1 & Hlen1 & Hold1 & Hp1).
  norm in Hlen1 Hold1 Hp1.
  pose proof (placed_object _ _ _ _ Hp1) as Hcell.
  rewrite (bind_ok _ _ _ _ _ E1).
  destruct t as [a b]. unfold pair, getitem at 1. unfold bind at 1.
  cbn [fst snd nth_or_IndexError lookup list_lookup].
  erewrite bind_ok by (apply setattr_object; norm; exact Hcell). norm.
  unfold getitem at 1. unfold bind at 1.
  cbn [fst snd nth_or_IndexError lookup list_lookup].
  erewrite bind_ok
    by (apply setattr_object; norm; apply list_lookup_insert_eq; lia). norm.
  erewrite bind_ok
    by (apply getattr_field; norm; heap_lookup; rewrite obj_field_agree with (h := h);
        [eassumption|apply Hold1; lia]).
  erewrite bind_ok
    by (apply getattr_field; norm; heap_lookup; rewrite obj_field_agree with (h := h);
        [eassumption|apply Hold1; lia]).
  erewrite call_append_list
    by (norm; heap_lookup; rewrite Hold1 by lia; eassumption).
  norm. eexists. split; [reflexivity|].
  rewrite !length_insert.
  split; [lia|]. split; [|split; [|split; [lia|split; [lia|]]]].
  - intros l Hl Hl'. heap_lookup. now apply Hold1.
  - apply list_lookup_insert_eq. rewrite !length_insert. lia.
  - apply read_attrib_intro;
      rewrite obj_field_insert_ne by lia;
      (erewrite obj_field_cell
         by (apply list_lookup_insert_eq; rewrite ?length_insert; lia));
      repeat first [ rewrite assoc_set_field_eq
                   | rewrite assoc_set_field_ne by discriminate ];
      reflexivity.
Qed.

Lemma bind_if_false {A B} (a b : M A) (k : A -> M B) s :
  bind (if_truthy (VBool false) a b) k s = bind b k s.
Proof. reflexivity. Qed.

(** C8.  [sync_m_objects] for an "Opportunity" that does not exist yet
    dispatches [syncMObjects] with a list of one M-object whose attribute
    list holds one [Attrib] per pair of [oppinfo], with that pair's name and
    value, in input order. *)
Theorem sync_m_objects_opportunity s self U K
    fs_op sh1 sh2 sh3 fs_list fs_obj cls fs_al fs_type fs_attribs fs_attrib
    operation pairs idnum :
  ready s self U K ->
  has_type s self "SyncOperationEnum" fs_op ->
  assoc "UPSERT" fs_op = Some sh1 ->
  assoc "INSERT" fs_op = Some sh2 ->
  assoc "UPDATE" fs_op = Some sh3 ->
  has_type s self "ArrayOfMObject" fs_list ->
  assoc "mObject" fs_list = Some ShList ->
  has_type s self "MObject" fs_obj ->
  assoc "attribList" fs_obj = Some (ShObj cls fs_al) ->
  assoc "attrib" fs_al = Some ShList ->
  has_type s self "TypeAttrib" fs_type ->
  has_type s self "ArrayOfAttrib" fs_attribs ->
  has_type s self "Attrib" fs_attrib ->
  has_method s self "syncMObjects" ->
  exists s' c mObjectList operation' objs mObject al lst items,
    sync_m_objects self operation (VStr "Opportunity")
      (VTuple (map pair pairs)) (VBool false) idnum s
      = (respond (length (calls s)), s') /\
    calls s' = calls s ++ [c] /\
    call_op c = "syncMObjects" /\
    call_args c = [mObjectList; operation'] /\
    obj_field (call_heap c) mObjectList "mObject" = Some objs /\
    list_items (call_heap c) objs = Some [mObject] /\
    obj_field (call_heap c) mObject "type" = Some (VStr "Opportunity") /\
    obj_field (call_heap c) mObject "attribList" = Some al /\
    obj_field (call_heap c) al "attrib" = Some lst /\
    list_items (call_heap c) lst = Some items /\
    map (read_attrib (call_heap c)) items = map Some pairs.
Proof.
  intros Hr Hop H1 H2 H3 Hlist Hfl Hobj Hfal Hfa Htype Hattribs Hattrib Hm.
  destruct (ready_reaches _ _ _ _ Hr) as (inst & Hc & _ & _).
  pose proof Hr as (Hn & _ & _). pose proof Hc as (Hi & _).
  (* the objects of lines 329-343 *)
  destruct (sync_operation_ok s self inst fs_op operation sh1 sh2 sh3
              Hc Hn Hop H1 H2 H3) as (op' & h1 & E1 & Hlen1 & Hold1).
  destruct (new_object_explicit (set_heap s h1) self inst "ArrayOfMObject" fs_list
              Hc Hn eq_refl Hlist) as (h2 & E2 & Hlen2 & Hold2 & Hp2).
  destruct (new_object_explicit (set_heap s h2) self inst "MObject" fs_obj
              Hc Hn eq_refl Hobj) as (h3 & E3 & Hlen3 & Hold3 & Hp3).
  destruct (new_object_explicit (set_heap s h3) self inst "TypeAttrib" fs_type
              Hc Hn eq_refl Htype) as (h4 & E4 & Hlen4 & Hold4 & Hp4).
  destruct (new_object_explicit (set_heap s h4) self inst "ArrayOfAttrib" fs_attribs
              Hc Hn eq_refl Hattribs) as (h5 & E5 & Hlen5 & Hold5 & Hp5).
  norm in Hlen2 Hold2 Hp2 Hlen3 Hold3 Hp3 Hlen4 Hold4 Hp4 Hlen5 Hold5 Hp5.
  (* where the lists are *)
  destruct (placed_field_list _ _ _ _ _ Hp2 Hfl) as (lm & Hlm & Fm & Fmc).
  pose proof (lookup_lt_Some _ _ _ Fmc) as Hlm_lt.
  destruct (placed_field_obj _ _ _ _ _ _ _ Hp3 Hfal) as (lal & Hlal & Fal & Hpal).
  destruct (placed_field_list _ _ _ _ _ Hpal Hfa) as (la & Hla & Fa & Fac).
  pose proof (lookup_lt_Some _ _ _ Fac) as Hla_lt.
  pose proof (placed_object _ _ _ _ Hp3) as Hcell.
  set (fvs := fst (fill_fields (S (length h2)) fs_obj)) in *.
  set (obj3 := HObject "MObject"
                 (set_field "updatedAt" (VStr "2014-01-31T12:38:44-05:00")
                    (set_field "createdAt" (VStr "2014-01-27T12:38:44-05:00")
                       (set_field "type" (VStr "Opportunity") fvs)))).
  set (h6 := <[length h2 := obj3]> h5).
  assert (Hlen6 : length h6 = length h5) by apply length_insert.
  assert (Hcell6 : h6 !! length h2 = Some obj3)
    by (apply list_lookup_insert_eq; lia).
  assert (Fal6 : obj_field h6 (VRef (length h2)) "attribList" = Some (VRef lal)).
  { rewrite (obj_field_cell _ _ _ _ _ Hcell6).
    repeat rewrite assoc_set_field_ne by discriminate.
    now rewrite <- (obj_field_cell _ _ _ _ _ Hcell). }
  assert (Fa6 : obj_field h6 (VRef lal) "attrib" = Some (VRef la)).
  { unfold h6. rewrite obj_field_insert_ne by lia.
    rewrite (obj_field_agree h3); [assumption|].
    rewrite Hold5, Hold4; [reflexivity| |]; pose proof (placed_obj_lt _ _ _ _ Hpal); lia. }
  assert (Fac6 : h6 !! la = Some (HList [])).
  { unfold h6. rewrite list_lookup_insert_ne by lia.
    rewrite Hold5, Hold4 by lia. assumption. }
  (* the loop *)
  destruct (for_each_append s
              (fun e =>
                 i <- self_getattribute self "Attrib" ;;
                 e0 <- getitem e 0 ;;
                 setattr i "name" e0 ;;;
                 e1 <- getitem e 1 ;;
                 setattr i "value" e1 ;;;
                 al <- getattr (VRef (length h2)) "attribList" ;;
                 l <- getattr al "attrib" ;;
                 call_append l i)
              pair la
              (fun h => obj_field h (VRef (length h2)) "attribList" = Some (VRef lal)
                        /\ obj_field h (VRef lal) "attrib" = Some (VRef la)
                        /\ length h6 <= length h)
              (fun h a t => length h6 <= a /\ a < length h
                            /\ read_attrib h (VRef a) = Some t))
    with (ts := pairs) (h := h6) (items := @nil value)
    as (h7 & locs & E7 & Hlen7 & Hold7 & Hla7 & HR7).
  { intros h h' (HI1 & HI2 & HI3) Hle Hag. split; [|split; [|lia]].
    - rewrite (obj_field_agree h); [assumption|]. apply Hag; lia.
    - rewrite (obj_field_agree h); [assumption|]. apply Hag; lia. }
  { intros h h' a t (Ha1 & Ha2 & Ha3) Hag. repeat split; [assumption| |].
    - apply lookup_lt_is_Some. rewrite Hag. now apply lookup_lt_is_Some.
    - now rewrite (read_attrib_agree h). }
  { intros h items t (HI1 & HI2 & HI3) Hitems.
    apply (attrib_round s self inst fs_attrib) with (al := lal);
      try assumption; lia. }
  { repeat split; [assumption|assumption|lia]. }
  { assumption. }
  simpl in Hla7.
  assert (Hlm7 : h7 !! lm = Some (HList [])).
  { rewrite Hold7 by lia. unfold h6. rewrite list_lookup_insert_ne by lia.
    rewrite Hold5, Hold4, Hold3 by lia. assumption. }
  set (h8 := <[lm := HList ([] ++ [VRef (length h2)])]> h7).
  (* the request *)
  destruct (call_service_ok (set_heap s h8) self U K "syncMObjects"
              [VRef (length h1); op'] Hr Hm eq_refl)
    as (s' & c & Ec & Hcalls & _ & Hcop & Hargs & _ & Hheap & _).
  norm in Hheap.
  assert (Hlen8 : length h8 = length h7) by apply length_insert.
  exists s', c, (VRef (length h1)), op', (VRef lm), (VRef (length h2)),
         (VRef lal), (VRef la), (map VRef locs).
  split.
  { unfold sync_m_objects.
    rewrite (bind_ok _ _ _ _ _ E1), (bind_ok _ _ _ _ _ E2),
            (bind_ok _ _ _ _ _ E3), (bind_ok _ _ _ _ _ E4),
            (bind_ok _ _ _ _ _ E5).
    change (eq_str (VStr "Opportunity") "Opportunity") with true.
    change (eq_str (VStr "Opportunity") "OpportunityPersonRole") with false.
    cbv match. rewrite !bind_assoc.
    erewrite bind_ok
      by (apply setattr_object; norm; rewrite Hold5, Hold4 by lia; exact Hcell).
    norm. rewrite !bind_assoc, bind_if_false, !bind_assoc.
    erewrite bind_ok
      by (apply setattr_object; norm; apply list_lookup_insert_eq; lia).
    norm. rewrite !bind_assoc.
    erewrite bind_ok
      by (apply setattr_object; norm; apply list_lookup_insert_eq;
          rewrite ?length_insert; lia).
    norm. rewrite !list_insert_insert_eq. fold obj3 h6.
    rewrite !bind_assoc.
    unfold py_iter at 1. unfold bind at 1. unfold add_attribs.
    change {| heap := h6; suds_types := suds_types s;
              suds_methods := suds_methods s; instances := instances s;
              calls := calls s; clock := clock s |} with (set_heap s h6).
    rewrite (bind_ok _ _ _ _ _ E7). rewrite !bind_assoc.
    erewrite bind_ok
      by (apply getattr_field; norm; rewrite (obj_field_agree h2);
          [exact Fm| rewrite Hold7 by lia; unfold h6;
                     rewrite list_lookup_insert_ne by lia;
                     rewrite Hold5, Hold4, Hold3 by lia; reflexivity]).
    erewrite bind_ok by (apply call_append_list; norm; exact Hlm7).
    norm. rewrite bind_ret.
    match goal with |- context [call_self _ _ _ _ ?st] =>
      rewrite (call_self_method st self inst "call_service" _ _ Hi Hn eq_refl)
    end.
    exact Ec. }
  assert (Hall : Forall (fun a => a < length h7) locs).
  { clear -HR7. induction HR7 as [|a t locs ts (_ & H & _) _ IH]; constructor; auto. }
  assert (Hlo : Forall (fun a => length h6 <= a) locs).
  { clear -HR7. induction HR7 as [|a t locs ts (H & _) _ IH]; constructor; auto. }
  assert (Hcell8 : h8 !! length h2 = Some obj3).
  { unfold h8. rewrite list_lookup_insert_ne by lia. rewrite Hold7 by lia.
    exact Hcell6. }
  repeat split; try assumption.
  - rewrite (obj_field_agree _ _ _ _ (Hheap (length h1) ltac:(lia))).
    unfold h8. rewrite obj_field_insert_ne by lia.
    rewrite (obj_field_agree h2); [exact Fm|].
    rewrite Hold7 by lia. unfold h6. rewrite list_lookup_insert_ne by lia.
    rewrite Hold5, Hold4, Hold3 by lia. reflexivity.
  - unfold list_items. rewrite (Hheap lm ltac:(lia)). unfold h8.
    rewrite list_lookup_insert_eq by lia. reflexivity.
  - rewrite (obj_field_agree _ _ _ _ (Hheap (length h2) ltac:(lia))).
    rewrite (obj_field_cell _ _ _ _ _ Hcell8).
    repeat rewrite assoc_set_field_ne by discriminate.
    apply assoc_set_field_eq.
  - rewrite (obj_field_agree _ _ _ _ (Hheap (length h2) ltac:(lia))).
    rewrite (obj_field_agree h6); [exact Fal6|].
    rewrite Hcell8. now rewrite Hcell6.
  - pose proof (placed_obj_lt _ _ _ _ Hpal) as Hlal_lt.
    rewrite (obj_field_agree _ _ _ _ (Hheap lal ltac:(lia))).
    unfold h8. rewrite obj_field_insert_ne by lia.
    rewrite (obj_field_agree h6); [exact Fa6|]. apply Hold7; lia.
  - unfold list_items. rewrite (Hheap la ltac:(lia)). unfold h8.
    rewrite list_lookup_insert_ne by lia. now rewrite Hla7.
  - rewrite <- (Forall2_read read_attrib h7 (length h6) locs pairs HR7).
    apply map_ext_in. intros v Hv. apply in_map_iff in Hv.
    destruct Hv as (a & <- & Ha). apply list_elem_of_In in Ha.
    rewrite Forall_forall in Hall, Hlo.
    specialize (Hall a Ha). specialize (Hlo a Ha).
    apply read_attrib_agree. rewrite (Hheap a ltac:(lia)).
    unfold h8. apply list_lookup_insert_ne. lia.
Qed.

(** ** Merging leads *)

Lemma try_pass_ok {A} (m : M A) s a s' :
  m s = (Ok a, s') -> try_pass m s = (Ok (Some a), s').
Proof. unfold try_pass. now intros ->. Qed.

Lemma try_pass_raise {A} (m : M A) s e s' :
  m s = (Raise e, s') -> try_pass m s = (Ok None, s').
Proof. unfold try_pass. now intros ->. Qed.






(** ** Requesting a campaign *)

(** A SOAP name the class does not define: the lookup either raises on the
    caller's side and changes nothing, or allocates an object or a callable
    at the end of the heap. *)
Lemma getattribute_cases s self inst name :
  instances s !! self = Some inst ->
  reserved name = false ->
  object_getattribute self name s = (Raise (AttributeError name), s) ->
  (exists e, getattribute self name s = (Raise e, s) /\ is_local_error e = true) \/
  (exists o cs fs,
     cell_fields o = Some fs /\
     getattribute self name s
     = (Ok (VRef (length (heap s))), set_heap s (heap s ++ o :: cs))).
Proof.
  intros Hi Hres Hstatic. unfold getattribute. rewrite Hres. cbn [negb andb].
  destruct (mem_str name (suds_types s)).
  - unfold bind, self_suds_client.
    destruct (mem_str "suds_client" (suds_types s)
              || mem_str "suds_client" (suds_methods s)).
    + left. now exists RuntimeError.
    + rewrite Hi. unfold factory_create. rewrite Hi.
      destruct (assoc name (sd_types (sd (suds_client inst)))) as [fs|].
      * right. rewrite instantiate_obj. now eexists _, _, _.
      * left. now exists (TypeNotFound name).
  - destruct (mem_str name (suds_methods s)).
    + unfold bind, self_suds_client.
      destruct (mem_str "suds_client" (suds_types s)
                || mem_str "suds_client" (suds_methods s)).
      * left. now exists RuntimeError.
      * rewrite Hi. unfold service_getattr. rewrite Hi.
        destruct (mem_str name (sd_methods (sd (suds_client inst)))).
        -- right. now eexists _, _, _.
        -- left. now exists (MethodNotFound name).
    + left. rewrite Hstatic. now exists (AttributeError name).
Qed.

Lemma setattr_cell s l o fs name x :
  heap s !! l = Some o -> cell_fields o = Some fs ->
  exists o', setattr (VRef l) name x s
             = (Ok tt, set_heap s (<[l := o']> (heap s))).
Proof.
  intros Ho Hf. unfold setattr. rewrite Ho.
  destruct o; try discriminate; now eexists.
Qed.

Lemma getattr_cases s l o name :
  heap s !! l = Some o ->
  (exists x, getattr (VRef l) name s = (Ok x, s)) \/
  getattr (VRef l) name s = (Raise (AttributeError name), s).
Proof.
  intros Ho. unfold getattr. rewrite Ho.
  destruct (obj_field (heap s) (VRef l) name); eauto.
Qed.

Lemma chars_length x : length (chars x) = String.length x.
Proof.
  unfold chars. rewrite length_map.
  induction x as [|c x IH]; simpl; congruence.
Qed.

Lemma nth_short vs i : length vs <= i -> nth_or_IndexError vs i = Raise IndexError.
Proof.
  intros H. unfold nth_or_IndexError. now rewrite lookup_ge_None_2.
Qed.

(** Indexing past the end. *)
Lemma getitem_short s v n i :
  py_len s v = Some n -> n <= i -> getitem v i s = (Raise IndexError, s).
Proof.
  intros Hlen Hle. unfold getitem. destruct v; try discriminate; simpl in Hlen.
  - injection Hlen as <-. rewrite nth_short; [reflexivity|].
    now rewrite chars_length.
  - injection Hlen as <-. now rewrite nth_short.
  - destruct (heap s !! l) as [[cls fs|items|]|]; try discriminate;
      injection Hlen as <-.
    + now rewrite lookup_ge_None_2.
    + now rewrite nth_short.
  - injection Hlen as <-. now rewrite nth_short.
Qed.

Lemma getitem_sized s v n i :
  py_len s v = Some n ->
  (exists x, getitem v i s = (Ok x, s)) \/
  (exists e, getitem v i s = (Raise e, s) /\ is_local_error e = true).
Proof.
  intros Hlen. unfold getitem, nth_or_IndexError.
  destruct v; try discriminate; simpl in Hlen.
  - destruct (chars s0 !! i); [left|right]; eauto.
  - destruct (vs !! i); [left|right]; eauto.
  - destruct (heap s !! l) as [[cls fs|items|]|]; try discriminate.
    + destruct (fs !! i) as [[k v]|]; [|right; eauto].
      destruct (assoc k fs); [left|right]; eauto.
    + destruct (items !! i); [left|right]; eauto.
  - destruct (class_list s name !! i); [left|right]; eauto.
Qed.

Lemma py_len_preserved s s' v n :
  py_len s v = Some n ->
  suds_types s' = suds_types s -> suds_methods s' = suds_methods s ->
  (forall l, l < length (heap s) -> heap s' !! l = heap s !! l) ->
  py_len s' v = Some n.
Proof.
  intros Hlen Ht Hm Hold. destruct v; try discriminate; simpl in *; try assumption.
  - destruct (heap s !! l) eqn:E; [|discriminate].
    rewrite (Hold l (lookup_lt_Some _ _ _ E)), E. assumption.
  - unfold class_list in *. now rewrite Ht, Hm.
Qed.

Lemma static_missing s self inst name :
  instances s !! self = Some inst ->
  mem_str name static_names = false ->
  mem_str name object_attributes = false ->
  object_getattribute self name s = (Raise (AttributeError name), s).
Proof.
  intros Hi Hs Ho. unfold object_getattribute. rewrite Hi.
  unfold static_names in Hs. rewrite !mem_str_app, !orb_false_iff in Hs.
  destruct Hs as (Ha & Hb & Hm).
  unfold mem_str, instance_attributes in Ha, Hb.
  cbn [existsb] in Ha, Hb. unfold reserved.
  repeat match goal with
  | |- context [if String.eqb name ?x then _ else _] =>
      destruct (String.eqb name x); [cbn [orb] in Ha, Hb; discriminate|];
      cbn [orb] in Ha, Hb |- *
  end.
  rewrite orb_false_r in Hb. now rewrite Hb, Hm, Ho.
Qed.

(** Lines 178-201 of [request_campaign], once [source] is settled. *)
Lemma request_campaign_tail s self inst source' campaign_id lead_list
    program_name campaign_name program_token_list :
  instances s !! self = Some inst ->
  no_collision s = true ->
  program_token_list = VNone \/
    (exists n, py_len s program_token_list = Some n /\ n < 2) ->
  fails_locally s
    ((lead_list_keys <- getattribute self "ArrayOfLeadKey" ;;
      ptl <- self_getattribute self "ArrayOfAttribute" ;;
      pta <- self_getattribute self "Attribute" ;;
      x0 <- getitem program_token_list 0 ;;
      setattr pta "attrName" x0 ;;;
      x1 <- getitem program_token_list 1 ;;
      setattr pta "attrValue" x1 ;;;
      l <- getattr ptl "attribute" ;;
      call_append l pta ;;;
      leads <- py_iter lead_list ;;
      for_each leads (fun lead =>
        lead_key <- getattribute self "LeadKey" ;;
        ab <- unpack2 lead ;;
        kt <- getattr lead_key "keyType" ;;
        setattr kt "value" (fst ab) ;;;
        setattr lead_key "keyValue" (snd ab) ;;;
        lk <- getattr lead_list_keys "leadKey" ;;
        call_append lk lead_key) ;;;
      call_self self "call_service"
        [VStr "requestCampaign"; source'; campaign_id; lead_list_keys;
         program_name; campaign_name; ptl]
        (call_service self "requestCampaign"
           [source'; campaign_id; lead_list_keys; program_name;
            campaign_name; ptl])) s).
Proof.
  intros Hi Hn Hshort.
  assert (Hstop : forall B e st (k : M B),
            is_local_error e = true -> calls st = calls s ->
            k s = (Raise e, st) -> fails_locally s (k s)).
  { intros B e st k He Hc ->. now exists e. }
  (* lead_list_keys = self.ArrayOfLeadKey *)
  destruct (getattribute_cases s self inst "ArrayOfLeadKey" Hi eq_refl
              (static_missing s self inst "ArrayOfLeadKey" Hi eq_refl eq_refl))
    as [(e & E & He) | (o2 & cs2 & fs2 & _ & E2)].
  { apply (Hstop _ e s); [assumption|reflexivity|]. now apply bind_raise. }
  rewrite (bind_ok _ _ _ _ _ E2).
  set (s2 := set_heap s (heap s ++ o2 :: cs2)).
  (* ptl = self.__getattribute__('ArrayOfAttribute') *)
  unfold self_getattribute at 1.
  unfold call_self at 1. rewrite bind_assoc.
  assert (Eg : forall st, instances st = instances s ->
                 suds_types st = suds_types s ->
                 suds_methods st = suds_methods s ->
                 getattribute self "__getattribute__" st
                 = (Ok (VBound self "__getattribute__"), st)).
  { intros st H1 H2 H3. rewrite getattribute_static; [| |reflexivity].
    - unfold object_getattribute. now rewrite H1, Hi.
    - unfold no_collision. now rewrite H2, H3. }
  rewrite (bind_ok _ _ _ _ _ (Eg s2 eq_refl eq_refl eq_refl)).
  cbn [apply_bound].
  destruct (getattribute_cases s2 self inst "ArrayOfAttribute" Hi eq_refl
              (static_missing s2 self inst "ArrayOfAttribute" Hi eq_refl eq_refl))
    as [(e & E & He) | (o3 & cs3 & fs3 & _ & E3)].
  { exists e. rewrite (bind_raise _ _ _ _ _ E). now repeat split. }
  rewrite (bind_ok _ _ _ _ _ E3).
  set (s3 := set_heap s2 (heap s2 ++ o3 :: cs3)).
  (* pta = self.__getattribute__('Attribute') *)
  unfold self_getattribute at 1.
  unfold call_self at 1. rewrite bind_assoc.
  rewrite (bind_ok _ _ _ _ _ (Eg s3 eq_refl eq_refl eq_refl)).
  cbn [apply_bound].
  destruct (getattribute_cases s3 self inst "Attribute" Hi eq_refl
              (static_missing s3 self inst "Attribute" Hi eq_refl eq_refl))
    as [(e & E & He) | (o4 & cs4 & fs4 & Hf4 & E4)].
  { exists e. rewrite (bind_raise _ _ _ _ _ E). now repeat split. }
  rewrite (bind_ok _ _ _ _ _ E4).
  set (s4 := set_heap s3 (heap s3 ++ o4 :: cs4)).
  assert (Hold4 : forall l, l < length (heap s) -> heap s4 !! l = heap s !! l).
  { intros l Hl. subst s4 s3 s2. norm.
    rewrite !lookup_app_l; [reflexivity|lia|rewrite length_app; lia
                            |rewrite !length_app; lia]. }
  (* program_token_list[0] *)
  destruct Hshort as [-> | (n & Hlen & Hn2)].
  { exists TypeError. now repeat split. }
  pose proof (py_len_preserved s s4 _ _ Hlen eq_refl eq_refl Hold4) as Hlen4.
  destruct n as [|n].
  { exists IndexError.
    rewrite (bind_raise _ _ _ _ _ (getitem_short s4 _ 0 0 Hlen4 (le_n _))).
    now repeat split. }
  destruct (getitem_sized s4 _ _ 0 Hlen4) as [(x0 & E0) | (e & E0 & He)].
  2: { exists e. rewrite (bind_raise _ _ _ _ _ E0). now repeat split. }
  rewrite (bind_ok _ _ _ _ _ E0).
  (* pta.attrName = ...; program_token_list[1] *)
  assert (Hcell : heap s4 !! length (heap s3) = Some o4)
    by (subst s4; norm; now apply list_lookup_middle).
  destruct (setattr_cell s4 _ _ _ "attrName" x0 Hcell Hf4) as (o4' & E5).
  rewrite (bind_ok _ _ _ _ _ E5).
  set (s5 := set_heap s4 (<[length (heap s3) := o4']> (heap s4))).
  assert (Hlen5 : py_len s5 program_token_list = Some (S n)).
  { apply (py_len_preserved s); try assumption; try reflexivity.
    intros l Hl. subst s5. norm. rewrite list_lookup_insert_ne.
    - apply Hold4. exact Hl.
    - subst s3 s2. norm. rewrite !length_app. lia. }
  exists IndexError.
  rewrite (bind_raise _ _ _ _ _ (getitem_short s5 _ _ 1 Hlen5 ltac:(lia))).
  now repeat split.
Qed.

(** C10.  [request_campaign] reads [program_token_list[0]] and
    [program_token_list[1]] whatever the call: with the default [None], or
    with fewer than two elements, it ends in an error raised on the caller's
    side and no remote operation is invoked. *)
Theorem request_campaign_needs_tokens s self inst source campaign_id lead_list
    program_name campaign_name program_token_list :
  instances s !! self = Some inst ->
  no_collision s = true ->
  program_token_list = VNone \/
    (exists n, py_len s program_token_list = Some n /\ n < 2) ->
  exists e s',
    request_campaign self source campaign_id lead_list program_name
      campaign_name program_token_list s = (Raise e, s') /\
    is_local_error e = true /\
    calls s' = calls s.
Proof.
  intros Hi Hn Hshort.
  assert (Hfin : forall out : result value * state,
            fails_locally s out ->
            exists e s', out = (Raise e, s') /\ is_local_error e = true
                         /\ calls s' = calls s).
  { intros [r st] (e & Hr & He & Hc). simpl in *. subst r. now exists e, st. }
  apply Hfin. unfold request_campaign.
  unfold bind at 1. unfold if_truthy at 1.
  destruct (truthy s source).
  - apply request_campaign_tail with inst; assumption.
  - destruct (getattribute_cases s self inst "ReqCampSourceType" Hi eq_refl
                (static_missing s self inst "ReqCampSourceType" Hi eq_refl eq_refl))
      as [(e & E & He) | (o1 & cs1 & fs1 & _ & E1)].
    { exists e. rewrite (bind_raise _ _ _ _ _ E). now repeat split. }
    rewrite (bind_ok _ _ _ _ _ E1).
    set (s1 := set_heap s (heap s ++ o1 :: cs1)).
    assert (Hcell : heap s1 !! length (heap s) = Some o1)
      by (subst s1; norm; now apply list_lookup_middle).
    destruct (getattr_cases s1 _ _ "MKTOWS" Hcell) as [(x & E) | E]; rewrite E.
    + destruct (request_campaign_tail s1 self inst x campaign_id lead_list
                  program_name campaign_name program_token_list Hi Hn)
        as (e & Hr & He & Hc).
      { destruct Hshort as [-> | (n & Hlen & Hn2)]; [now left|right].
        exists n. split; [|assumption].
        apply (py_len_preserved s); try assumption; try reflexivity.
        intros l Hl. subst s1. norm. now apply lookup_app_l. }
      exists e. now repeat split.
    + now exists (AttributeError "MKTOWS").
Qed.

(** ** Construction *)

Lemma class_list_append s self inst which names :
  instances s !! self = Some inst ->
  reserved which = true ->
  for_each names (fun n =>
    l <- getattribute self which ;; call_append l (VStr n)) s
  = (Ok tt,
     fold_left (fun st n => snd (append_class_list which n st)) names s).
Proof.
  intros Hi Hres. revert s Hi. induction names as [|n names IH]; intros s Hi.
  - reflexivity.
  - simpl. rewrite bind_assoc.
    assert (E : getattribute self which s = (Ok (VClassAttr which), s)).
    { rewrite getattribute_fallback by now left.
      now apply object_getattribute_reserved with inst. }
    rewrite (bind_ok _ _ _ _ _ E).
    assert (E' : call_append (VClassAttr which) (VStr n) s
                 = (Ok tt, snd (append_class_list which n s))).
    { unfold call_append, append_class_list. now destruct (String.eqb which _). }
    rewrite (bind_ok _ _ _ _ _ E'). apply IH.
    unfold append_class_list. now destruct (String.eqb which _).
Qed.

Lemma fold_append_types names s :
  fold_left (fun st n => snd (append_class_list "suds_types" n st)) names s
  = {| heap := heap s; suds_types := suds_types s ++ names;
       suds_methods := suds_methods s; instances := instances s;
       calls := calls s; clock := clock s |}.
Proof.
  revert s. induction names as [|n names IH]; intros s; simpl.
  - rewrite app_nil_r. now destruct s.
  - rewrite IH. simpl. now rewrite <- app_assoc.
Qed.

Lemma fold_append_methods names s :
  fold_left (fun st n => snd (append_class_list "suds_methods" n st)) names s
  = {| heap := heap s; suds_types := suds_types s;
       suds_methods := suds_methods s ++ names; instances := instances s;
       calls := calls s; clock := clock s |}.
Proof.
  revert s. induction names as [|n names IH]; intros s; simpl.
  - rewrite app_nil_r. now destruct s.
  - rewrite IH. simpl. now rewrite <- app_assoc.
Qed.

(** Every construction appends the names of its service description to the
    two lists of the class, after those the earlier facades put there. *)
Lemma init_appends s endpoint uid key wsdl :
  mem_str "suds_client" (suds_types s ++ map fst (sd_types wsdl)) = false ->
  mem_str "suds_client" (suds_methods s) = false ->
  exists inst,
    init endpoint uid key wsdl s
    = (Ok (length (instances s)),
       {| heap := heap s;
          suds_types := suds_types s ++ map fst (sd_types wsdl);
          suds_methods := suds_methods s ++ sd_methods wsdl;
          instances := instances s ++ [inst];
          calls := calls s; clock := clock s |}) /\
    user_id inst = uid /\ encryption_key inst = key /\
    sd (suds_client inst) = wsdl.
Proof.
  intros Ht Hm. rewrite mem_str_app in Ht. apply orb_false_iff in Ht.
  destruct Ht as [Ht1 Ht2].
  set (inst :=
    {| soap_endpoint := endpoint; user_id := uid; encryption_key := key;
       suds_client := {| location := endpoint; sd := wsdl;
                         soapheaders := VNone |} |}).
  exists inst. split; [|now repeat split].
  unfold init. fold inst.
  set (s1 := set_instances s (instances s ++ [inst])).
  assert (Hi : instances s1 !! length (instances s) = Some inst)
    by (subst s1; norm; now apply list_lookup_middle).
  assert (E1 : self_suds_client (length (instances s)) s1
               = (Ok (length (instances s)), s1)).
  { unfold self_suds_client. subst s1. norm. norm in Hi.
    now rewrite Ht1, Hm, Hi. }
  rewrite (bind_ok _ _ _ _ _ E1).
  rewrite (bind_ok _ _ _ _ _
    (class_list_append s1 _ inst "suds_types" _ Hi eq_refl)).
  rewrite fold_append_types. subst s1. norm.
  match goal with |- context [bind (self_suds_client _) _ ?st] =>
    set (s2 := st) end.
  assert (Hi2 : instances s2 !! length (instances s) = Some inst)
    by (subst s2; norm; now apply list_lookup_middle).
  assert (E2 : self_suds_client (length (instances s)) s2
               = (Ok (length (instances s)), s2)).
  { unfold self_suds_client. subst s2. norm. norm in Hi2.
    now rewrite mem_str_app, Ht1, Ht2, Hm, Hi2. }
  rewrite (bind_ok _ _ _ _ _ E2).
  rewrite (bind_ok _ _ _ _ _
    (class_list_append s2 _ inst "suds_methods" _ Hi2 eq_refl)).
  rewrite fold_append_methods. subst s2. norm. reflexivity.
Qed.

(* ===================================================================== *)
(** * Further properties of the facade                                    *)
(* ===================================================================== *)

Ltac mnorm := repeat first [ rewrite bind_ret | rewrite bind_assoc ].

Lemma bind_ext {A B} (m : M A) (k1 k2 : A -> M B) s :
  (forall a s', k1 a s' = k2 a s') -> bind m k1 s = bind m k2 s.
Proof. intros H. unfold bind. destruct (m s) as [[a|e] s']; auto. Qed.

Ltac eq_str_eval :=
  repeat match goal with
  | |- context [eq_str (VStr ?a) ?b] =>
      let r := eval vm_compute in (eq_str (VStr a) b) in
      change (eq_str (VStr a) b) with r
  end.

(** ** Looking a lead up *)

(** X1.  [get_lead] with one of its three key types sets [keyType] to the
    matching member of [LeadKeyRef] and [keyValue] to the value given, then
    dispatches [getLead] with that key. *)
Theorem get_lead_known_key_type s self U K fs_key fs_ref kt member m keyValue :
  In (kt, member) known_key_types ->
  ready s self U K ->
  has_type s self "LeadKey" fs_key ->
  has_type s self "LeadKeyRef" fs_ref ->
  assoc member fs_ref = Some (ShStr m) ->
  has_method s self "getLead" ->
  exists s' c lead_key,
    get_lead self keyValue (VStr kt) s = (respond (length (calls s)), s') /\
    calls s' = calls s ++ [c] /\
    call_op c = "getLead" /\
    call_args c = [lead_key] /\
    obj_field (call_heap c) lead_key "keyType" = Some (VStr m) /\
    obj_field (call_heap c) lead_key "keyValue" = Some keyValue.
Proof.
  intros Hin Hr Hkey Href Hmem Hm.
  destruct (ready_reaches _ _ _ _ Hr) as (inst & Hc & _ & _).
  pose proof Hr as (Hn & _ & _). pose proof Hc as (Hi & _).
  destruct (new_object s self inst "LeadKey" fs_key Hc eq_refl Hkey)
    as (h1 & E1 & Hlen1 & Hold1 & Hp1).
  destruct (new_object (set_heap s h1) self inst "LeadKeyRef" fs_ref Hc eq_refl Href)
    as (h2 & E2 & Hlen2 & Hold2 & Hp2).
  norm in Hlen2 Hold2 Hp2.
  pose proof (placed_object _ _ _ _ Hp1) as Hcell.
  rewrite <- Hold2 in Hcell by exact Hlen1.
  set (l0 := length (heap s)) in *.
  set (key := HObject "LeadKey"
                (set_field "keyValue" keyValue
                   (set_field "keyType" (VStr m) (fst (fill_fields (S l0) fs_key))))).
  set (h3 := <[l0 := key]> h2).
  destruct (call_service_ok (set_heap s h3) self U K "getLead" [VRef l0] Hr Hm eq_refl)
    as (s' & c & E & Hcalls & _ & Hop & Hargs & _ & Hheap & _).
  norm in Hheap.
  assert (Hlen3 : length h3 = length h2) by apply length_insert.
  assert (Hkey3 : h3 !! l0 = Some key) by (apply list_lookup_insert_eq; lia).
  exists s', c, (VRef l0).
  split.
  { unfold get_lead, known_key_types in *. simpl in Hin.
    destruct Hin as [Hin | [Hin | [Hin | []]]]; injection Hin as <- <-;
      eq_str_eval; cbv match; mnorm;
      rewrite (bind_ok _ _ _ _ _ E1); mnorm;
      rewrite (bind_ok _ _ _ _ _ E2); mnorm;
      rewrite (bind_ok _ _ _ _ _
        (getattr_field (set_heap s h2) _ _ _
           (placed_field_str _ _ _ _ _ _ Hp2 Hmem)));
      rewrite (bind_ok _ _ _ _ _
        (setattr_object (set_heap s h2) _ _ _ _ _ Hcell));
      norm; mnorm;
      (erewrite bind_ok
         by (apply setattr_object; norm; apply list_lookup_insert_eq; lia));
      norm; rewrite list_insert_insert_eq; fold key h3;
      match goal with |- context [call_self _ _ _ _ ?st] =>
        rewrite (call_self_method st self inst "call_service" _ _ Hi Hn eq_refl)
      end; exact E. }
  repeat split; try assumption.
  - rewrite (obj_field_agree _ _ _ _ (Hheap l0 ltac:(lia))).
    rewrite (obj_field_cell _ _ _ _ _ Hkey3).
    rewrite assoc_set_field_ne by discriminate. apply assoc_set_field_eq.
  - rewrite (obj_field_agree _ _ _ _ (Hheap l0 ltac:(lia))).
    rewrite (obj_field_cell _ _ _ _ _ Hkey3). apply assoc_set_field_eq.
Qed.

(** X2.  [get_lead] with any other key type sets no [keyType]: the key is sent
    as the service description lays it out, with the key value alone
    filled in, and [LeadKeyRef] is not even looked at. *)
Theorem get_lead_unknown_key_type s self U K fs_key keyType keyValue :
  eq_str keyType "Email" = false ->
  eq_str keyType "Cookie" = false ->
  eq_str keyType "IDNUM" = false ->
  ready s self U K ->
  has_type s self "LeadKey" fs_key ->
  has_method s self "getLead" ->
  exists s' c,
    get_lead self keyValue keyType s = (respond (length (calls s)), s') /\
    calls s' = calls s ++ [c] /\
    call_op c = "getLead" /\
    call_args c = [VRef (length (heap s))] /\
    call_heap c !! length (heap s)
      = Some (HObject "LeadKey"
                (set_field "keyValue" keyValue
                   (fst (fill_fields (S (length (heap s))) fs_key)))).
Proof.
  intros H1 H2 H3 Hr Hkey Hm.
  destruct (ready_reaches _ _ _ _ Hr) as (inst & Hc & _ & _).
  pose proof Hr as (Hn & _ & _). pose proof Hc as (Hi & _).
  destruct (new_object s self inst "LeadKey" fs_key Hc eq_refl Hkey)
    as (h1 & E1 & Hlen1 & Hold1 & Hp1).
  pose proof (placed_object _ _ _ _ Hp1) as Hcell.
  set (l0 := length (heap s)) in *.
  set (key := HObject "LeadKey"
                (set_field "keyValue" keyValue (fst (fill_fields (S l0) fs_key)))).
  destruct (call_service_ok (set_heap s (<[l0 := key]> h1)) self U K "getLead"
              [VRef l0] Hr Hm eq_refl)
    as (s' & c & E & Hcalls & _ & Hop & Hargs & _ & Hheap & _).
  norm in Hheap. rewrite length_insert in Hheap.
  exists s', c. split.
  { unfold get_lead. rewrite H1, H2, H3. mnorm.
    rewrite (bind_ok _ _ _ _ _ E1). mnorm.
    rewrite (bind_ok _ _ _ _ _ (setattr_object (set_heap s h1) _ _ _ _ _ Hcell)).
    norm. fold key.
    match goal with |- context [call_self _ _ _ _ ?st] =>
      rewrite (call_self_method st self inst "call_service" _ _ Hi Hn eq_refl)
    end. exact E. }
  repeat split; try assumption.
  rewrite (Hheap l0 Hlen1). apply list_lookup_insert_eq. exact Hlen1.
Qed.

(** X3.  [get_lead_IDNUM] and [get_lead_by_cookie] are [get_lead] with the key
    types "IDNUM" and "Cookie": same result, same final state, whatever the
    state they start from. *)
Theorem get_lead_shortcuts self v s :
  get_lead_IDNUM self v s = get_lead self v (VStr "IDNUM") s /\
  get_lead_by_cookie self v s = get_lead self v (VStr "Cookie") s.
Proof.
  unfold get_lead_IDNUM, get_lead_by_cookie, get_lead. eq_str_eval. cbv match.
  split; repeat (mnorm; try reflexivity; apply bind_ext; intros).
Qed.

(** ** Lead activity *)

Lemma include_type_ok s h filter inc tokens items token :
  obj_field h (VRef filter) "includeTypes" = Some (VRef inc) ->
  obj_field h (VRef inc) "activityType" = Some (VRef tokens) ->
  h !! tokens = Some (HList items) ->
  include_type (VRef filter) token (set_heap s h)
  = (Ok tt, set_heap s (<[tokens := HList (items ++ [VStr token])]> h)).
Proof.
  intros Fi Fl Fc. unfold include_type.
  rewrite (bind_ok _ _ _ _ _ (getattr_field (set_heap s h) _ _ _ Fi)).
  rewrite (bind_ok _ _ _ _ _ (getattr_field (set_heap s h) _ _ _ Fl)).
  now rewrite (call_append_list (set_heap s h) _ _ _ Fc).
Qed.

Lemma include_types_ok s filter inc tokens toks : forall h items,
  obj_field h (VRef filter) "includeTypes" = Some (VRef inc) ->
  obj_field h (VRef inc) "activityType" = Some (VRef tokens) ->
  filter <> tokens -> inc <> tokens ->
  h !! tokens = Some (HList items) ->
  exists h',
    for_each toks (include_type (VRef filter)) (set_heap s h)
      = (Ok tt, set_heap s h') /\
    length h' = length h /\
    (forall l, l <> tokens -> h' !! l = h !! l) /\
    h' !! tokens = Some (HList (items ++ map VStr toks)).
Proof.
  induction toks as [|t toks IH]; intros h items Fi Fl Hn1 Hn2 Fc.
  - exists h. simpl. rewrite app_nil_r. now repeat split.
  - pose proof (lookup_lt_Some _ _ _ Fc) as Hlt.
    destruct (IH (<[tokens := HList (items ++ [VStr t])]> h) (items ++ [VStr t]))
      as (h' & E & Hlen & Hold & Hc).
    + now rewrite obj_field_insert_ne.
    + now rewrite obj_field_insert_ne.
    + assumption.
    + assumption.
    + now apply list_lookup_insert_eq.
    + exists h'. simpl.
      rewrite (bind_ok _ _ _ _ _ (include_type_ok s h _ _ _ _ t Fi Fl Fc)).
      split; [exact E|]. rewrite length_insert in Hlen.
      repeat split; [assumption| |].
      * intros l Hl. rewrite Hold by assumption.
        now apply list_lookup_insert_ne.
      * now rewrite Hc, <- app_assoc.
Qed.

(** X4.  For each of its four categories [get_lead_activity] dispatches
    [getLeadActivity] with a lead key carrying the cookie and the key type of
    the category, and a filter that includes exactly the activity types of
    the category, in the order of the source. *)
Theorem get_lead_activity_categories s self U K fs_key fs_filter cls fs_inc
    cookie category key_type toks :
  In (category, (key_type, toks)) activity_table ->
  ready s self U K ->
  has_type s self "LeadKey" fs_key ->
  has_type s self "ActivityTypeFilter" fs_filter ->
  assoc "includeTypes" fs_filter = Some (ShObj cls fs_inc) ->
  assoc "activityType" fs_inc = Some ShList ->
  has_method s self "getLeadActivity" ->
  exists s' c key filter inc tokens,
    get_lead_activity self cookie (VStr category) s
      = (respond (length (calls s)), s') /\
    calls s' = calls s ++ [c] /\
    call_op c = "getLeadActivity" /\
    call_args c = [key; filter] /\
    obj_field (call_heap c) key "keyType" = Some (VStr key_type) /\
    obj_field (call_heap c) key "keyValue" = Some cookie /\
    obj_field (call_heap c) filter "includeTypes" = Some inc /\
    obj_field (call_heap c) inc "activityType" = Some tokens /\
    list_items (call_heap c) tokens = Some (map VStr toks).
Proof.
  intros Hin Hr Hkey Hfil Hinc Hact Hm.
  destruct (ready_reaches _ _ _ _ Hr) as (inst & Hc & _ & _).
  pose proof Hr as (Hn & _ & _). pose proof Hc as (Hi & _).
  destruct (new_object_explicit s self inst "LeadKey" fs_key Hc Hn eq_refl Hkey)
    as (h1 & E1 & Hlen1 & Hold1 & Hp1).
  destruct (new_object_explicit (set_heap s h1) self inst "ActivityTypeFilter"
              fs_filter Hc Hn eq_refl Hfil)
    as (h2 & E2 & Hlen2 & Hold2 & Hp2).
  pose proof (placed_object _ _ _ _ Hp1) as Hcell.
  rewrite <- Hold2 in Hcell by exact Hlen1.
  norm in Hlen2 Hold2 Hp2 Hcell.
  destruct (placed_field_obj _ _ _ _ _ _ _ Hp2 Hinc) as (li & Hli & Fi & Hpi).
  destruct (placed_field_list _ _ _ _ _ Hpi Hact) as (ll & Hll & Fl & Fc).
  pose proof (lookup_lt_Some _ _ _ Fc) as Hll'.
  set (l0 := length (heap s)) in *.
  set (key := HObject "LeadKey"
                (set_field "keyValue" cookie
                   (set_field "keyType" (VStr key_type)
                      (fst (fill_fields (S l0) fs_key))))).
  set (h4 := <[l0 := key]> h2).
  assert (Hlen4 : length h4 = length h2) by apply length_insert.
  assert (Fi4 : obj_field h4 (VRef (length h1)) "includeTypes" = Some (VRef li))
    by (unfold h4; now rewrite obj_field_insert_ne by lia).
  assert (Fl4 : obj_field h4 (VRef li) "activityType" = Some (VRef ll))
    by (unfold h4; now rewrite obj_field_insert_ne by lia).
  assert (Fc4 : h4 !! ll = Some (HList []))
    by (unfold h4; now rewrite list_lookup_insert_ne by lia).
  destruct (include_types_ok s (length h1) li ll toks h4 [] Fi4 Fl4
              ltac:(lia) ltac:(lia) Fc4)
    as (h5 & E5 & Hlen5 & Hold5 & Hc5).
  simpl in Hc5.
  destruct (call_service_ok (set_heap s h5) self U K "getLeadActivity"
              [VRef l0; VRef (length h1)] Hr Hm eq_refl)
    as (s' & c & E & Hcalls & _ & Hop & Hargs & _ & Hheap & _).
  norm in Hheap.
  assert (Hkey5 : h5 !! l0 = Some key).
  { rewrite Hold5 by lia. apply list_lookup_insert_eq. lia. }
  exists s', c, (VRef l0), (VRef (length h1)), (VRef li), (VRef ll).
  split.
  { unfold get_lead_activity, activity_table in *. simpl in Hin.
    rewrite (bind_ok _ _ _ _ _ E1), (bind_ok _ _ _ _ _ E2).
    assert (Hsingle : forall t, toks = [t] ->
              include_type (VRef (length h1)) t (set_heap s h4)
              = (Ok tt, set_heap s h5)).
    { intros t ->. simpl in E5. unfold bind, ret in E5.
      destruct (include_type (VRef (length h1)) t (set_heap s h4))
        as [[[]|e] st] eqn:Et; [exact E5|discriminate E5]. }
    destruct Hin as [Hin | [Hin | [Hin | [Hin | []]]]];
      injection Hin as <- <- <-;
      eq_str_eval; cbv match; mnorm;
      rewrite (bind_ok _ _ _ _ _
        (setattr_object (set_heap (set_heap s h1) h2) _ _ _ _ _ Hcell));
      norm; mnorm;
      (erewrite bind_ok
         by (apply setattr_object; norm; apply list_lookup_insert_eq; lia));
      norm; rewrite list_insert_insert_eq; fold key h4;
      change {| heap := h4; suds_types := suds_types s;
                suds_methods := suds_methods s; instances := instances s;
                calls := calls s; clock := clock s |} with (set_heap s h4);
      first [ rewrite (bind_ok _ _ _ _ _ E5)
            | rewrite (bind_ok _ _ _ _ _ (Hsingle _ eq_refl)) ];
      match goal with |- context [call_self _ _ _ _ ?st] =>
        rewrite (call_self_method st self inst "call_service" _ _ Hi Hn eq_refl)
      end; exact E. }
  repeat split; try assumption.
  - rewrite (obj_field_agree _ _ _ _ (Hheap l0 ltac:(lia))).
    rewrite (obj_field_cell _ _ _ _ _ Hkey5).
    rewrite assoc_set_field_ne by discriminate. apply assoc_set_field_eq.
  - rewrite (obj_field_agree _ _ _ _ (Hheap l0 ltac:(lia))).
    rewrite (obj_field_cell _ _ _ _ _ Hkey5). apply assoc_set_field_eq.
  - rewrite (obj_field_agree _ _ _ _ (Hheap (length h1) ltac:(lia))).
    rewrite (obj_field_agree h4) by (apply Hold5; lia). exact Fi4.
  - rewrite (obj_field_agree _ _ _ _ (Hheap li ltac:(lia))).
    rewrite (obj_field_agree h4) by (apply Hold5; lia). exact Fl4.
  - unfold list_items. rewrite (Hheap ll ltac:(lia)). now rewrite Hc5.
Qed.

(** ** Sending a request *)

Lemma read_header_intro h v u g t :
  obj_field h v "mktowsUserId" = Some u ->
  obj_field h v "requestSignature" = Some g ->
  obj_field h v "requestTimestamp" = Some t ->
  read_header h v = Some (u, g, t).
Proof. intros H1 H2 H3. unfold read_header. now rewrite H1, H2, H3. Qed.

Lemma read_header_agree h h' l :
  h' !! l = h !! l -> read_header h' (VRef l) = read_header h (VRef l).
Proof.
  intros H. unfold read_header. now rewrite !(obj_field_agree h h' l _ H).
Qed.

(** What a facade knows is kept when one of its instances is replaced by
    one with the same credentials and service description. *)
Lemma facade_kept s s' self inst inst' U K :
  suds_types s' = suds_types s -> suds_methods s' = suds_methods s ->
  instances s !! self = Some inst ->
  instances s' = <[self := inst']> (instances s) ->
  user_id inst' = user_id inst -> encryption_key inst' = encryption_key inst ->
  sd (suds_client inst') = sd (suds_client inst) ->
  ready s self U K ->
  ready s' self U K /\
  (forall n fs, has_type s self n fs -> has_type s' self n fs) /\
  (forall n, has_method s self n -> has_method s' self n).
Proof.
  intros Ht Hm Hi Hi' HU HK Hsd Hr.
  assert (Hnew : instances s' !! self = Some inst').
  { rewrite Hi'. apply list_lookup_insert_eq. now apply lookup_lt_Some in Hi. }
  assert (Htype : forall n fs, has_type s self n fs -> has_type s' self n fs).
  { intros n fs (H1 & i0 & Hi0 & H2). rewrite Hi in Hi0. injection Hi0 as <-.
    split; [now rewrite Ht|]. exists inst'. split; [exact Hnew|]. now rewrite Hsd. }
  split; [|split; [exact Htype|]].
  - destruct Hr as (Hn & (i0 & Hi0 & H1 & H2) & fs & Hfs).
    rewrite Hi in Hi0. injection Hi0 as <-.
    split; [|split].
    + unfold no_collision in *. now rewrite Ht, Hm.
    + exists inst'. now rewrite HU, HK.
    + exists fs. now apply Htype.
  - intros n (H1 & H2 & i0 & Hi0 & H3). rewrite Hi in Hi0. injection Hi0 as <-.
    split; [now rewrite Ht|]. split; [now rewrite Hm|].
    exists inst'. split; [exact Hnew|]. now rewrite Hsd.
Qed.

(** One run of [call_service], in full: the header and the bound operation
    are the only new cells, the clock has been read once. *)
Lemma call_service_run s self U K name args :
  ready s self U K -> has_method s self name -> reserved name = false ->
  exists hdr cs inst inst',
    call_service self name args s
    = (respond (length (calls s)),
       {| heap := heap s ++ HObject "AuthenticationHeaderInfo" hdr :: cs ++
                    [HMethod self name
                       [("client", VClient self); ("method", VOpaque name)]];
          suds_types := suds_types s; suds_methods := suds_methods s;
          instances := <[self := inst']> (instances s);
          calls := calls s ++
            [{| call_client := self; call_op := name; call_args := args;
                call_headers := VRef (length (heap s));
                call_heap :=
                  heap s ++ HObject "AuthenticationHeaderInfo" hdr :: cs ++
                    [HMethod self name
                       [("client", VClient self); ("method", VOpaque name)]] |}];
          clock := S (clock s) |}) /\
    instances s !! self = Some inst /\
    sd (suds_client inst') = sd (suds_client inst) /\
    user_id inst' = user_id inst /\
    encryption_key inst' = encryption_key inst /\
    assoc "requestSignature" hdr
      = Some (VStr (sign (rfc3339_utcnow (clock s) ++ U) K)) /\
    assoc "mktowsUserId" hdr = Some (VStr U) /\
    assoc "requestTimestamp" hdr = Some (VStr (rfc3339_utcnow (clock s))).
Proof.
  intros Hr (Hnt & Hm & inst0 & Hi0 & Hsd) Hres.
  destruct (set_header_ok s self U K Hr)
    as (hdr & cs & inst & inst' & E & Hi & Hh & Hsd' & HU & HK & H1 & H2 & H3).
  rewrite Hi in Hi0. injection Hi0 as <-.
  pose proof Hr as (Hn & _ & _).
  exists hdr, cs, inst, inst'.
  split; [|now repeat split].
  unfold call_service.
  rewrite (bind_ok _ _ _ _ _
    (eq_trans (call_self_method s self inst "set_header" [] _ Hi Hn eq_refl) E)).
  match goal with |- context [bind (self_getattribute self name) _ ?st] =>
    set (s1 := st) end.
  assert (Hi1 : instances s1 !! self = Some inst').
  { subst s1. norm. apply list_lookup_insert_eq. now apply lookup_lt_Some in Hi. }
  assert (Hc1 : reaches_client s1 self inst').
  { split; [exact Hi1|]. now apply (no_collision_name s "suds_client"). }
  assert (Eg : self_getattribute self name s1
               = (Ok (VRef (length (heap s1))),
                  set_heap s1 (heap s1 ++
                    [HMethod self name [("client", VClient self); ("method", VOpaque name)]]))).
  { rewrite (self_getattribute_eq s1 self inst' name Hi1 Hn).
    apply getattribute_method with inst'; try assumption. now rewrite Hsd'. }
  rewrite (bind_ok _ _ _ _ _ Eg).
  erewrite invoke_method by (norm; now apply list_lookup_middle).
  subst s1. norm.
  rewrite list_lookup_insert_eq by now apply lookup_lt_Some in Hi.
  rewrite Hh. rewrite <- app_assoc. reflexivity.
Qed.

Lemma header_cell (h : list hobj) hdr cs U g t :
  assoc "requestSignature" hdr = Some g ->
  assoc "mktowsUserId" hdr = Some U ->
  assoc "requestTimestamp" hdr = Some t ->
  read_header (h ++ HObject "AuthenticationHeaderInfo" hdr :: cs)
    (VRef (length h)) = Some (U, g, t).
Proof.
  intros H1 H2 H3.
  assert (Hcell : (h ++ HObject "AuthenticationHeaderInfo" hdr :: cs) !! length h
                  = Some (HObject "AuthenticationHeaderInfo" hdr))
    by now apply list_lookup_middle.
  apply read_header_intro; now rewrite (obj_field_cell _ _ _ _ _ Hcell).
Qed.

(** X5.  [call_service] on a known operation reads the clock once, sends
    exactly one request, with the arguments as given and a header made for
    this request (user id, timestamp read, signature of the two), and returns
    what the service answers, a fault included.  No cell that existed before
    is changed, and the facade is as able to send afterwards as before. *)
Theorem call_service_request s self U K name args :
  ready s self U K -> has_method s self name -> reserved name = false ->
  exists s' c,
    call_service self name args s = (respond (length (calls s)), s') /\
    calls s' = calls s ++ [c] /\
    call_client c = self /\ call_op c = name /\ call_args c = args /\
    call_headers c = VRef (length (heap s)) /\
    read_header (call_heap c) (call_headers c)
      = Some (header_at rfc3339_utcnow (clock s) U K) /\
    (forall l, l < length (heap s) -> call_heap c !! l = heap s !! l) /\
    clock s' = S (clock s) /\
    ready s' self U K /\
    (forall n fs, has_type s self n fs -> has_type s' self n fs) /\
    (forall n, has_method s self n -> has_method s' self n).
Proof.
  intros Hr Hm Hres.
  destruct (call_service_run s self U K name args Hr Hm Hres)
    as (hdr & cs & inst & inst' & E & Hi & Hsd & HU & HK & H1 & H2 & H3).
  eexists _, _. split; [exact E|]. norm.
  destruct (facade_kept s
              {| heap := heap s ++ HObject "AuthenticationHeaderInfo" hdr :: cs ++
                    [HMethod self name
                       [("client", VClient self); ("method", VOpaque name)]];
                 suds_types := suds_types s; suds_methods := suds_methods s;
                 instances := <[self := inst']> (instances s);
                 calls := calls s ++
                   [{| call_client := self; call_op := name; call_args := args;
                       call_headers := VRef (length (heap s));
                       call_heap :=
                         heap s ++ HObject "AuthenticationHeaderInfo" hdr :: cs ++
                           [HMethod self name
                              [("client", VClient self); ("method", VOpaque name)]] |}];
                 clock := S (clock s) |}
              self inst inst' U K eq_refl eq_refl Hi eq_refl HU HK Hsd Hr)
    as (Hr' & Ht' & Hm').
  do 5 (split; [reflexivity|]).
  split; [now apply header_cell|].
  split; [intros l Hl; now apply lookup_app_l|].
  split; [reflexivity|].
  split; [exact Hr'|]. split; [exact Ht'|exact Hm'].
Qed.

(** X6.  Two requests in a row: each carries a header of its own, made from
    the clock reading of its own call, and the second call leaves the header
    of the first as it was sent. *)
Theorem call_service_fresh_headers s self U K name1 args1 name2 args2 :
  ready s self U K ->
  has_method s self name1 -> reserved name1 = false ->
  has_method s self name2 -> reserved name2 = false ->
  exists s1 s2 c1 c2,
    call_service self name1 args1 s = (respond (length (calls s)), s1) /\
    call_service self name2 args2 s1 = (respond (S (length (calls s))), s2) /\
    calls s2 = calls s ++ [c1; c2] /\
    call_op c1 = name1 /\ call_args c1 = args1 /\
    call_op c2 = name2 /\ call_args c2 = args2 /\
    call_headers c1 <> call_headers c2 /\
    read_header (call_heap c1) (call_headers c1)
      = Some (header_at rfc3339_utcnow (clock s) U K) /\
    read_header (call_heap c2) (call_headers c2)
      = Some (header_at rfc3339_utcnow (S (clock s)) U K) /\
    read_header (call_heap c2) (call_headers c1)
      = Some (header_at rfc3339_utcnow (clock s) U K).
Proof.
  intros Hr Hm1 Hres1 Hm2 Hres2.
  destruct (call_service_run s self U K name1 args1 Hr Hm1 Hres1)
    as (hdr & cs & inst & inst' & E & Hi & Hsd & HU & HK & H1 & H2 & H3).
  match type of E with _ = (_, ?st) => set (s1 := st) in * end.
  destruct (facade_kept s s1 self inst inst' U K eq_refl eq_refl Hi eq_refl
              HU HK Hsd Hr) as (Hr' & _ & Hm').
  destruct (call_service_run s1 self U K name2 args2 Hr' (Hm' _ Hm2) Hres2)
    as (hdr2 & cs2 & inst2 & inst2' & E2 & _ & _ & _ & _ & G1 & G2 & G3).
  eexists s1, _, _, _. split; [exact E|].
  split.
  { rewrite E2. subst s1. norm. rewrite length_app, Nat.add_1_r. reflexivity. }
  subst s1. norm.
  split; [now rewrite <- app_assoc|].
  repeat split.
  - intros H. injection H as H. rewrite !length_app in H. simpl in H. lia.
  - now apply header_cell.
  - now apply header_cell.
  - norm. rewrite read_header_agree
      with (h := heap s ++ HObject "AuthenticationHeaderInfo" hdr :: cs ++
                   [HMethod self name1
                      [("client", VClient self); ("method", VOpaque name1)]]).
    + now apply header_cell.
    + apply lookup_app_l. rewrite length_app. simpl. lia.
Qed.

(** X7.  A name that is neither a type, an operation nor an attribute of
    the class is found out only after the header has been made:
    [call_service] raises [AttributeError], nothing is sent, and the clock
    has been read. *)
Theorem call_service_unknown_name s self U K name args :
  ready s self U K ->
  mem_str name (suds_types s) = false ->
  mem_str name (suds_methods s) = false ->
  mem_str name static_names = false ->
  mem_str name object_attributes = false ->
  exists s',
    call_service self name args s = (Raise (AttributeError name), s') /\
    calls s' = calls s /\
    clock s' = S (clock s) /\
    length (heap s) < length (heap s').
Proof.
  intros Hr Ht Hm Hs Ho.
  destruct (set_header_ok s self U K Hr)
    as (hdr & cs & inst & inst' & E & Hi & Hh & Hsd' & _ & _ & _ & _ & _).
  pose proof Hr as (Hn & _ & _).
  unfold call_service.
  rewrite (bind_ok _ _ _ _ _
    (eq_trans (call_self_method s self inst "set_header" [] _ Hi Hn eq_refl) E)).
  match goal with |- context [bind (self_getattribute self name) _ ?st] =>
    set (s1 := st) end.
  assert (Hi1 : instances s1 !! self = Some inst').
  { subst s1. norm. apply list_lookup_insert_eq. now apply lookup_lt_Some in Hi. }
  unfold bind at 1.
  rewrite (self_getattribute_eq s1 self inst' name Hi1 Hn).
  rewrite getattribute_fallback by (right; split; assumption).
  rewrite (static_missing s1 self inst' name Hi1 Hs Ho).
  eexists. split; [reflexivity|]. subst s1. norm.
  repeat split. rewrite length_app. simpl. lia.
Qed.

(** X8.  The name of a structured type is no operation either: the lookup
    gives an instance, which cannot be called.  [call_service] fails on the
    caller's side once the header has been made, with the error of calling
    what is not callable, and nothing is sent. *)
Theorem call_service_type_name s self U K name fs args :
  ready s self U K -> has_type s self name fs -> reserved name = false ->
  exists s',
    call_service self name args s = (Raise NotCallable, s') /\
    is_local_error NotCallable = true /\
    calls s' = calls s /\
    clock s' = S (clock s).
Proof.
  intros Hr (Ht & i0 & Hi0 & Hfs) Hres.
  destruct (set_header_ok s self U K Hr)
    as (hdr & cs & inst & inst' & E & Hi & Hh & Hsd' & _ & _ & _ & _ & _).
  rewrite Hi in Hi0. injection Hi0 as <-.
  pose proof Hr as (Hn & _ & _).
  unfold call_service.
  rewrite (bind_ok _ _ _ _ _
    (eq_trans (call_self_method s self inst "set_header" [] _ Hi Hn eq_refl) E)).
  match goal with |- context [bind (self_getattribute self name) _ ?st] =>
    set (s1 := st) end.
  assert (Hi1 : instances s1 !! self = Some inst').
  { subst s1. norm. apply list_lookup_insert_eq. now apply lookup_lt_Some in Hi. }
  assert (Hc1 : reaches_client s1 self inst').
  { split; [exact Hi1|]. now apply (no_collision_name s "suds_client"). }
  unfold bind at 1.
  rewrite (self_getattribute_eq s1 self inst' name Hi1 Hn).
  rewrite (getattribute_type s1 self inst' name fs Hc1 Hres Ht)
    by now rewrite Hsd'.
  rewrite instantiate_obj.
  unfold invoke. norm.
  rewrite list_lookup_middle by (subst s1; reflexivity).
  eexists. split; [reflexivity|]. now subst s1.
Qed.

(** X9.  [describe_m_objects] sends [describeMObject] with the name it was
    given, whatever it is, under a header made for the request, and returns
    the answer of the service. *)
Theorem describe_m_objects_request s self U K objName :
  ready s self U K -> has_method s self "describeMObject" ->
  exists s' c,
    describe_m_objects self objName s = (respond (length (calls s)), s') /\
    calls s' = calls s ++ [c] /\
    call_op c = "describeMObject" /\
    call_args c = [objName] /\
    read_header (call_heap c) (call_headers c)
      = Some (header_at rfc3339_utcnow (clock s) U K) /\
    length (heap s) <= length (heap s') /\
    (forall l, l < length (heap s) -> heap s' !! l = heap s !! l).
Proof.
  intros Hr Hm.
  destruct (call_service_run s self U K "describeMObject" [objName] Hr Hm eq_refl)
    as (hdr & cs & inst & inst' & E & Hi & Hsd & HU & HK & H1 & H2 & H3).
  pose proof Hr as (Hn & _ & _).
  eexists _, _. split.
  { unfold describe_m_objects.
    rewrite (call_self_method s self inst "call_service" _ _ Hi Hn eq_refl).
    exact E. }
  norm. repeat split.
  - now apply header_cell.
  - rewrite length_app. lia.
  - intros l Hl. now apply lookup_app_l.
Qed.

(** ** Construction *)

Lemma assoc_mem {A} n (l : list (string * A)) x :
  assoc n l = Some x -> mem_str n (map fst l) = true.
Proof.
  induction l as [|[k y] l IH]; simpl; [discriminate|].
  unfold mem_str in *. simpl. rewrite (String.eqb_sym n k).
  destruct (String.eqb k n); [reflexivity|]. exact IH.
Qed.

Lemma static_not_reserved n :
  mem_str n static_names = false -> reserved n = false.
Proof.
  intros H. unfold static_names in H. rewrite !mem_str_app in H.
  apply orb_false_iff in H. destruct H as [_ H].
  apply orb_false_iff in H. destruct H as [H _].
  unfold mem_str in H. simpl in H. unfold reserved.
  destruct (String.eqb n "MARKETO_WSDL"); [discriminate|].
  simpl in H. now rewrite orb_false_r in H.
Qed.

(** X10.  [Client(endpoint, U, K)] on a service description none of whose
    names is a name of the class gives a facade that can sign and send, that
    knows every structured type of the description with its layout and
    every operation that is no type; the heap is untouched, nothing is sent
    and the facades made earlier are still there. *)
Theorem init_makes_ready s endpoint U K wsdl fs_hdr :
  no_collision (learn wsdl s) = true ->
  assoc "AuthenticationHeaderInfo" (sd_types wsdl) = Some fs_hdr ->
  exists s',
    init endpoint (VStr U) (VStr K) wsdl s = (Ok (length (instances s)), s') /\
    heap s' = heap s /\ calls s' = calls s /\ clock s' = clock s /\
    ready s' (length (instances s)) U K /\
    (forall n fs, assoc n (sd_types wsdl) = Some fs ->
       has_type s' (length (instances s)) n fs) /\
    (forall n, mem_str n (sd_methods wsdl) = true ->
       mem_str n (suds_types s') = false ->
       has_method s' (length (instances s)) n) /\
    (forall i inst, instances s !! i = Some inst -> instances s' !! i = Some inst).
Proof.
  intros Hn Hhdr.
  destruct (no_collision_name _ "suds_client" Hn eq_refl) as [Hc1 Hc2].
  unfold learn in Hc1, Hc2. norm in Hc1 Hc2.
  rewrite mem_str_app in Hc2. apply orb_false_iff in Hc2. destruct Hc2 as [Hc2 _].
  destruct (init_appends s endpoint (VStr U) (VStr K) wsdl Hc1 Hc2)
    as (inst & E & HU & HK & Hsd).
  eexists. split; [exact E|]. norm.
  assert (Hi : (instances s ++ [inst]) !! length (instances s) = Some inst)
    by now apply list_lookup_middle.
  assert (Htype : forall n fs, assoc n (sd_types wsdl) = Some fs ->
            has_type
              {| heap := heap s;
                 suds_types := suds_types s ++ map fst (sd_types wsdl);
                 suds_methods := suds_methods s ++ sd_methods wsdl;
                 instances := instances s ++ [inst];
                 calls := calls s; clock := clock s |}
              (length (instances s)) n fs).
  { intros n fs Hfs. split.
    - norm. rewrite mem_str_app, (assoc_mem _ _ _ Hfs). apply orb_true_r.
    - exists inst. split; [exact Hi|]. now rewrite Hsd. }
  do 3 (split; [reflexivity|]).
  split; [|split; [exact Htype|split]].
  - split; [exact Hn|]. split.
    + exists inst. now repeat split.
    + exists fs_hdr. now apply Htype.
  - intros n Hm Ht. split; [exact Ht|]. split.
    + norm. rewrite mem_str_app, Hm. apply orb_true_r.
    + exists inst. split; [exact Hi|]. now rewrite Hsd.
  - intros i inst0 Hi0. now apply lookup_app_l_Some.
Qed.

(** X11.  Making a facade changes what the facades made before it answer: a
    name that only the new service description declares as a type, and for
    which an older facade raised [AttributeError], now makes that facade
    raise the toolkit's [TypeNotFound]. *)
Theorem init_changes_other_facade s endpoint uid key wsdl first inst n fs :
  no_collision (learn wsdl s) = true ->
  instances s !! first = Some inst ->
  mem_str n (suds_types s) = false ->
  mem_str n (suds_methods s) = false ->
  mem_str n static_names = false ->
  mem_str n object_attributes = false ->
  assoc n (sd_types wsdl) = Some fs ->
  assoc n (sd_types (sd (suds_client inst))) = None ->
  exists s',
    init endpoint uid key wsdl s = (Ok (length (instances s)), s') /\
    getattribute first n s = (Raise (AttributeError n), s) /\
    getattribute first n s' = (Raise (TypeNotFound n), s').
Proof.
  intros Hn Hi Ht Hm Hs Ho Hfs Hnone.
  destruct (no_collision_name _ "suds_client" Hn eq_refl) as [Hc1 Hc2].
  unfold learn in Hc1, Hc2. norm in Hc1 Hc2.
  pose proof Hc2 as Hc2'.
  rewrite mem_str_app in Hc2. apply orb_false_iff in Hc2. destruct Hc2 as [Hc2 _].
  destruct (init_appends s endpoint uid key wsdl Hc1 Hc2)
    as (inst' & E & _).
  eexists. split; [exact E|]. split.
  - rewrite getattribute_fallback by (right; split; assumption).
    now apply static_missing with inst.
  - unfold getattribute. norm.
    rewrite (static_not_reserved n Hs), mem_str_app, (assoc_mem _ _ _ Hfs).
    rewrite orb_true_r. cbn [negb andb].
    unfold bind, self_suds_client. norm.
    rewrite Hc1, Hc2'. cbn [orb].
    rewrite (lookup_app_l_Some _ _ _ _ Hi).
    unfold factory_create. norm.
    rewrite (lookup_app_l_Some _ _ _ _ Hi). now rewrite Hnone.
Qed.

(** ** The operation of a sync request *)

Lemma eq_str_true v lit : eq_str v lit = true -> v = VStr lit.
Proof.
  destruct v; simpl; try discriminate. intros H.
  apply String.eqb_eq in H. now subst.
Qed.

Lemma operation_member_same s self inst fs_op x member :
  reaches_client s self inst ->
  no_collision s = true ->
  has_type s self "SyncOperationEnum" fs_op ->
  assoc member fs_op = Some (ShStr member) ->
  exists h',
    operation_member self x member s = (Ok x, set_heap s h') /\
    length (heap s) <= length h' /\
    (forall l, l < length (heap s) -> h' !! l = heap s !! l) /\
    (eq_str x member = false -> h' = heap s).
Proof.
  intros Hc Hn Hop Hmem. unfold operation_member.
  destruct (eq_str x member) eqn:Ex.
  - destruct (new_object_explicit s self inst "SyncOperationEnum" fs_op
                Hc Hn eq_refl Hop) as (h1 & E1 & Hlen1 & Hold1 & Hp1).
    pose proof (placed_field_str _ _ _ _ _ _ Hp1 Hmem) as Hv.
    exists h1. rewrite (bind_ok _ _ _ _ _ E1).
    rewrite (getattr_field (set_heap s h1) _ _ _ Hv).
    rewrite (eq_str_true _ _ Ex).
    repeat split; [lia|assumption|discriminate].
  - exists (heap s). rewrite set_heap_id. now repeat split.
Qed.

(** X12.  The operation of [sync_custom_objects] and [sync_m_objects]
    reaches the request as it was given: one of the three names is replaced
    by the member of [SyncOperationEnum] of that name, which is that very
    string, and any other value is let through, without a check and without
    an instance of the enumeration being made. *)
Theorem sync_operation_passes s self U K fs_op operation :
  ready s self U K ->
  has_type s self "SyncOperationEnum" fs_op ->
  assoc "UPSERT" fs_op = Some (ShStr "UPSERT") ->
  assoc "INSERT" fs_op = Some (ShStr "INSERT") ->
  assoc "UPDATE" fs_op = Some (ShStr "UPDATE") ->
  exists h',
    sync_operation self operation s = (Ok operation, set_heap s h') /\
    length (heap s) <= length h' /\
    (forall l, l < length (heap s) -> h' !! l = heap s !! l) /\
    (eq_str operation "UPSERT" = false -> eq_str operation "INSERT" = false ->
     eq_str operation "UPDATE" = false -> h' = heap s).
Proof.
  intros Hr Hop H1 H2 H3.
  destruct (ready_reaches _ _ _ _ Hr) as (inst & Hc & _ & _).
  pose proof Hr as (Hn & _ & _).
  unfold sync_operation.
  destruct (operation_member_same s self inst fs_op operation "UPSERT"
              Hc Hn Hop H1) as (h1 & E1 & Hlen1 & Hold1 & Hsame1).
  destruct (operation_member_same (set_heap s h1) self inst fs_op operation
              "INSERT" Hc Hn Hop H2) as (h2 & E2 & Hlen2 & Hold2 & Hsame2).
  destruct (operation_member_same (set_heap s h2) self inst fs_op operation
              "UPDATE" Hc Hn Hop H3) as (h3 & E3 & Hlen3 & Hold3 & Hsame3).
  norm in Hlen2 Hold2 Hsame2 Hlen3 Hold3 Hsame3.
  exists h3.
  rewrite (bind_ok _ _ _ _ _ E1), (bind_ok _ _ _ _ _ E2).
  split; [exact E3|]. split; [lia|]. split.
  - intros l Hl. rewrite Hold3, Hold2, Hold1 by lia. reflexivity.
  - intros N1 N2 N3. now rewrite (Hsame3 N3), (Hsame2 N2), (Hsame1 N1).
Qed.

(** ** M-objects *)

(** The objects [sync_m_objects] makes before it looks at [objType]
    (lines 329-343): where they are, and what they hold. *)
Lemma sync_m_objects_setup s self inst
    fs_op sh1 sh2 sh3 fs_list fs_obj cls fs_al fs_type fs_attribs operation :
  reaches_client s self inst ->
  no_collision s = true ->
  has_type s self "SyncOperationEnum" fs_op ->
  assoc "UPSERT" fs_op = Some sh1 ->
  assoc "INSERT" fs_op = Some sh2 ->
  assoc "UPDATE" fs_op = Some sh3 ->
  has_type s self "ArrayOfMObject" fs_list ->
  assoc "mObject" fs_list = Some ShList ->
  has_type s self "MObject" fs_obj ->
  assoc "attribList" fs_obj = Some (ShObj cls fs_al) ->
  assoc "attrib" fs_al = Some ShList ->
  has_type s self "TypeAttrib" fs_type ->
  has_type s self "ArrayOfAttrib" fs_attribs ->
  exists op' h lo lm lobj lal la,
    (forall B (k : value -> value -> value -> M B),
       (operation' <- sync_operation self operation ;;
        mObjectList <- self_getattribute self "ArrayOfMObject" ;;
        mObject <- self_getattribute self "MObject" ;;
        typeattrib <- self_getattribute self "TypeAttrib" ;;
        attribs <- self_getattribute self "ArrayOfAttrib" ;;
        k operation' mObjectList mObject) s
       = k op' (VRef lo) (VRef lobj) (set_heap s h)) /\
    length (heap s) <= lo /\ lo < lm /\ lm < lobj /\ lobj < lal /\ lal < la /\
    la < length h /\
    (forall l, l < length (heap s) -> h !! l = heap s !! l) /\
    obj_field h (VRef lo) "mObject" = Some (VRef lm) /\
    h !! lm = Some (HList []) /\
    h !! lobj = Some (HObject "MObject" (fst (fill_fields (S lobj) fs_obj))) /\
    obj_field h (VRef lobj) "attribList" = Some (VRef lal) /\
    obj_field h (VRef lal) "attrib" = Some (VRef la) /\
    h !! la = Some (HList []).
Proof.
  intros Hc Hn Hop H1 H2 H3 Hlist Hfl Hobj Hfal Hfa Htype Hattribs.
  destruct (sync_operation_ok s self inst fs_op operation sh1 sh2 sh3
              Hc Hn Hop H1 H2 H3) as (op' & h1 & E1 & Hlen1 & Hold1).
  destruct (new_object_explicit (set_heap s h1) self inst "ArrayOfMObject" fs_list
              Hc Hn eq_refl Hlist) as (h2 & E2 & Hlen2 & Hold2 & Hp2).
  destruct (new_object_explicit (set_heap s h2) self inst "MObject" fs_obj
              Hc Hn eq_refl Hobj) as (h3 & E3 & Hlen3 & Hold3 & Hp3).
  destruct (new_object_explicit (set_heap s h3) self inst "TypeAttrib" fs_type
              Hc Hn eq_refl Htype) as (h4 & E4 & Hlen4 & Hold4 & Hp4).
  destruct (new_object_explicit (set_heap s h4) self inst "ArrayOfAttrib" fs_attribs
              Hc Hn eq_refl Hattribs) as (h5 & E5 & Hlen5 & Hold5 & Hp5).
  norm in Hlen2 Hold2 Hp2 Hlen3 Hold3 Hp3 Hlen4 Hold4 Hp4 Hlen5 Hold5 Hp5.
  destruct (placed_field_list _ _ _ _ _ Hp2 Hfl) as (lm & Hlm & Fm & Fmc).
  pose proof (lookup_lt_Some _ _ _ Fmc) as Hlm_lt.
  destruct (placed_field_obj _ _ _ _ _ _ _ Hp3 Hfal) as (lal & Hlal & Fal & Hpal).
  destruct (placed_field_list _ _ _ _ _ Hpal Hfa) as (la & Hla & Fa & Fac).
  pose proof (lookup_lt_Some _ _ _ Fac) as Hla_lt.
  pose proof (placed_object _ _ _ _ Hp3) as Hcell.
  assert (Hfrom3 : forall l, l < length h3 -> h5 !! l = h3 !! l)
    by (intros l Hl; rewrite Hold5, Hold4 by lia; reflexivity).
  assert (Hfrom2 : forall l, l < length h2 -> h5 !! l = h2 !! l)
    by (intros l Hl; rewrite Hfrom3, Hold3 by lia; reflexivity).
  exists op', h5, (length h1), lm, (length h2), lal, la.
  split.
  { intros B k.
    rewrite (bind_ok _ _ _ _ _ E1), (bind_ok _ _ _ _ _ E2),
            (bind_ok _ _ _ _ _ E3), (bind_ok _ _ _ _ _ E4),
            (bind_ok _ _ _ _ _ E5). reflexivity. }
  repeat split; try lia.
  - intros l Hl. rewrite Hfrom2, Hold2, Hold1 by lia. reflexivity.
  - rewrite (obj_field_agree h2); [exact Fm|]. apply Hfrom2; lia.
  - rewrite Hfrom2 by lia. exact Fmc.
  - rewrite Hfrom3 by lia. exact Hcell.
  - rewrite (obj_field_agree h3); [exact Fal|]. apply Hfrom3; lia.
  - rewrite (obj_field_agree h3); [exact Fa|]. apply Hfrom3; lia.
  - rewrite Hfrom3 by lia. exact Fac.
Qed.

(** The loop of lines 357-361 and 366-370: one [Attrib] per pair, appended
    in order to the attribute list of the M-object. *)
Lemma add_attribs_ok s self inst fs_attrib mobj lal la h pairs :
  reaches_client s self inst ->
  no_collision s = true ->
  has_type s self "Attrib" fs_attrib ->
  obj_field h (VRef mobj) "attribList" = Some (VRef lal) ->
  obj_field h (VRef lal) "attrib" = Some (VRef la) ->
  mobj < length h -> lal < length h -> mobj <> la -> lal <> la ->
  h !! la = Some (HList []) ->
  exists h' locs,
    add_attribs self (VRef mobj) (map pair pairs) (set_heap s h)
      = (Ok tt, set_heap s h') /\
    length h <= length h' /\
    (forall l, l < length h -> l <> la -> h' !! l = h !! l) /\
    h' !! la = Some (HList (map VRef locs)) /\
    Forall (fun a => length h <= a /\ a < length h') locs /\
    map (read_attrib h') (map VRef locs) = map Some pairs.
Proof.
  intros Hc Hn Hattrib Fal Fa Hm Hal Hne1 Hne2 Fac.
  destruct (for_each_append s
              (fun e =>
                 i <- self_getattribute self "Attrib" ;;
                 e0 <- getitem e 0 ;;
                 setattr i "name" e0 ;;;
                 e1 <- getitem e 1 ;;
                 setattr i "value" e1 ;;;
                 al <- getattr (VRef mobj) "attribList" ;;
                 l <- getattr al "attrib" ;;
                 call_append l i)
              pair la
              (fun h0 => obj_field h0 (VRef mobj) "attribList" = Some (VRef lal)
                        /\ obj_field h0 (VRef lal) "attrib" = Some (VRef la)
                        /\ length h <= length h0)
              (fun h0 a t => length h <= a /\ a < length h0
                            /\ read_attrib h0 (VRef a) = Some t))
    with (ts := pairs) (h := h) (items := @nil value)
    as (h7 & locs & E7 & Hlen7 & Hold7 & Hla7 & HR7).
  { intros h0 h' (HI1 & HI2 & HI3) Hle Hag. split; [|split; [|lia]].
    - rewrite (obj_field_agree h0); [assumption|]. apply Hag; lia.
    - rewrite (obj_field_agree h0); [assumption|]. apply Hag; lia. }
  { intros h0 h' a t (Ha1 & Ha2 & Ha3) Hag. repeat split; [assumption| |].
    - apply lookup_lt_is_Some. rewrite Hag. now apply lookup_lt_is_Some.
    - now rewrite (read_attrib_agree h0). }
  { intros h0 items t (HI1 & HI2 & HI3) Hitems.
    apply (attrib_round s self inst fs_attrib) with (al := lal);
      try assumption; lia. }
  { repeat split; [assumption|assumption|lia]. }
  { assumption. }
  simpl in Hla7.
  exists h7, locs. split; [exact E7|].
  repeat split; try assumption.
  - clear -HR7. induction HR7 as [|a t locs ts (H1 & H2 & _) _ IH];
      constructor; auto.
  - apply (Forall2_read read_attrib h7 (length h) locs pairs HR7).
Qed.

(** X13.  [sync_m_objects] for an "OpportunityPersonRole" dispatches
    [syncMObjects] with a list of one M-object of that type whose attribute
    list holds one [Attrib] per pair of [oppinfo], with that pair's name and
    value, in input order; [exists] and [idnum] play no part. *)
Theorem sync_m_objects_person_role s self U K
    fs_op sh1 sh2 sh3 fs_list fs_obj cls fs_al fs_type fs_attribs fs_attrib
    operation pairs exists_ idnum :
  ready s self U K ->
  has_type s self "SyncOperationEnum" fs_op ->
  assoc "UPSERT" fs_op = Some sh1 ->
  assoc "INSERT" fs_op = Some sh2 ->
  assoc "UPDATE" fs_op = Some sh3 ->
  has_type s self "ArrayOfMObject" fs_list ->
  assoc "mObject" fs_list = Some ShList ->
  has_type s self "MObject" fs_obj ->
  assoc "attribList" fs_obj = Some (ShObj cls fs_al) ->
  assoc "attrib" fs_al = Some ShList ->
  has_type s self "TypeAttrib" fs_type ->
  has_type s self "ArrayOfAttrib" fs_attribs ->
  has_type s self "Attrib" fs_attrib ->
  has_method s self "syncMObjects" ->
  exists s' c mObjectList operation' objs mObject al lst items,
    sync_m_objects self operation (VStr "OpportunityPersonRole")
      (VTuple (map pair pairs)) exists_ idnum s
      = (respond (length (calls s)), s') /\
    calls s' = calls s ++ [c] /\
    call_op c = "syncMObjects" /\
    call_args c = [mObjectList; operation'] /\
    obj_field (call_heap c) mObjectList "mObject" = Some objs /\
    list_items (call_heap c) objs = Some [mObject] /\
    obj_field (call_heap c) mObject "type" = Some (VStr "OpportunityPersonRole") /\
    obj_field (call_heap c) mObject "attribList" = Some al /\
    obj_field (call_heap c) al "attrib" = Some lst /\
    list_items (call_heap c) lst = Some items /\
    map (read_attrib (call_heap c)) items = map Some pairs.
Proof.
  intros Hr Hop H1 H2 H3 Hlist Hfl Hobj Hfal Hfa Htype Hattribs Hattrib Hm.
  destruct (ready_reaches _ _ _ _ Hr) as (inst & Hc & _ & _).
  pose proof Hr as (Hn & _ & _). pose proof Hc as (Hi & _).
  destruct (sync_m_objects_setup s self inst fs_op sh1 sh2 sh3 fs_list fs_obj
              cls fs_al fs_type fs_attribs operation
              Hc Hn Hop H1 H2 H3 Hlist Hfl Hobj Hfal Hfa Htype Hattribs)
    as (op' & h & lo & lm & lobj & lal & la & Hk & B0 & B1 & B2 & B3 & B4 & B5
        & Hold & Fm & Fmc & Hcell & Fal & Fa & Fac).
  set (fvs := fst (fill_fields (S lobj) fs_obj)) in *.
  set (obj := HObject "MObject"
                (set_field "type" (VStr "OpportunityPersonRole") fvs)).
  set (h6 := <[lobj := obj]> h).
  assert (Hlen6 : length h6 = length h) by apply length_insert.
  assert (Hcell6 : h6 !! lobj = Some obj)
    by (apply list_lookup_insert_eq; lia).
  assert (Fal6 : obj_field h6 (VRef lobj) "attribList" = Some (VRef lal)).
  { rewrite (obj_field_cell _ _ _ _ _ Hcell6).
    rewrite assoc_set_field_ne by discriminate.
    now rewrite <- (obj_field_cell _ _ _ _ _ Hcell). }
  assert (Fa6 : obj_field h6 (VRef lal) "attrib" = Some (VRef la))
    by (unfold h6; now rewrite obj_field_insert_ne by lia).
  assert (Fac6 : h6 !! la = Some (HList []))
    by (unfold h6; now rewrite list_lookup_insert_ne by lia).
  destruct (add_attribs_ok s self inst fs_attrib lobj lal la h6 pairs
              Hc Hn Hattrib Fal6 Fa6 ltac:(lia) ltac:(lia) ltac:(lia) ltac:(lia)
              Fac6)
    as (h7 & locs & E7 & Hlen7 & Hold7 & Hla7 & Hlocs & Hread).
  assert (Hlm7 : h7 !! lm = Some (HList [])).
  { rewrite Hold7 by lia. unfold h6. now rewrite list_lookup_insert_ne by lia. }
  set (h8 := <[lm := HList ([] ++ [VRef lobj])]> h7).
  assert (Hlen8 : length h8 = length h7) by apply length_insert.
  destruct (call_service_ok (set_heap s h8) self U K "syncMObjects"
              [VRef lo; op'] Hr Hm eq_refl)
    as (s' & c & Ec & Hcalls & _ & Hcop & Hargs & _ & Hheap & _).
  norm in Hheap.
  exists s', c, (VRef lo), op', (VRef lm), (VRef lobj),
         (VRef lal), (VRef la), (map VRef locs).
  split.
  { unfold sync_m_objects. rewrite Hk.
    eq_str_eval. cbv match. mnorm.
    erewrite bind_ok by (apply setattr_object; norm; exact Hcell).
    norm. fold obj h6. mnorm.
    unfold py_iter at 1. unfold bind at 1.
    change {| heap := h6; suds_types := suds_types s;
              suds_methods := suds_methods s; instances := instances s;
              calls := calls s; clock := clock s |} with (set_heap s h6).
    rewrite !bind_assoc.
    rewrite (bind_ok _ _ _ _ _ E7). mnorm.
    erewrite bind_ok
      by (apply getattr_field; norm; rewrite (obj_field_agree h6);
          [unfold h6; rewrite obj_field_insert_ne by lia; exact Fm
          |apply Hold7; lia]).
    erewrite bind_ok by (apply call_append_list; norm; exact Hlm7).
    norm. mnorm.
    match goal with |- context [call_self _ _ _ _ ?st] =>
      rewrite (call_self_method st self inst "call_service" _ _ Hi Hn eq_refl)
    end.
    exact Ec. }
  assert (Hcell8 : h8 !! lobj = Some obj).
  { unfold h8. rewrite list_lookup_insert_ne by lia. rewrite Hold7 by lia.
    exact Hcell6. }
  repeat split; try assumption.
  - rewrite (obj_field_agree _ _ _ _ (Hheap lo ltac:(lia))).
    unfold h8. rewrite obj_field_insert_ne by lia.
    rewrite (obj_field_agree h6) by (apply Hold7; lia).
    unfold h6. now rewrite obj_field_insert_ne by lia.
  - unfold list_items. rewrite (Hheap lm ltac:(lia)). unfold h8.
    rewrite list_lookup_insert_eq by lia. reflexivity.
  - rewrite (obj_field_agree _ _ _ _ (Hheap lobj ltac:(lia))).
    rewrite (obj_field_cell _ _ _ _ _ Hcell8). apply assoc_set_field_eq.
  - rewrite (obj_field_agree _ _ _ _ (Hheap lobj ltac:(lia))).
    rewrite (obj_field_agree h6); [exact Fal6|].
    rewrite Hcell8. now rewrite Hcell6.
  - rewrite (obj_field_agree _ _ _ _ (Hheap lal ltac:(lia))).
    unfold h8. rewrite obj_field_insert_ne by lia.
    rewrite (obj_field_agree h6); [exact Fa6|]. apply Hold7; lia.
  - unfold list_items. rewrite (Hheap la ltac:(lia)). unfold h8.
    rewrite list_lookup_insert_ne by lia. now rewrite Hla7.
  - rewrite <- Hread.
    apply map_ext_in. intros v Hv. apply in_map_iff in Hv.
    destruct Hv as (a & <- & Ha). apply list_elem_of_In in Ha.
    rewrite Forall_forall in Hlocs. destruct (Hlocs a Ha) as [Ha1 Ha2].
    apply read_attrib_agree. rewrite (Hheap a ltac:(lia)).
    unfold h8. apply list_lookup_insert_ne. lia.
Qed.

Lemma bind_if_true {A B} v (a b : M A) (k : A -> M B) s :
  truthy s v = true -> bind (if_truthy v a b) k s = bind a k s.
Proof. intros H. unfold bind, if_truthy. now rewrite H. Qed.

Lemma bind_if_not {A B} v (a b : M A) (k : A -> M B) s :
  truthy s v = false -> bind (if_truthy v a b) k s = bind b k s.
Proof. intros H. unfold bind, if_truthy. now rewrite H. Qed.

(** One more attribute written to the cell just written. *)
Ltac set_again :=
  erewrite bind_ok
    by (apply setattr_object; norm; apply list_lookup_insert_eq;
        rewrite ?length_insert; lia);
  norm; mnorm.

(** X14.  [sync_m_objects] for an "Opportunity" that exists already
    dispatches [syncMObjects] with a list of one M-object that carries the
    id given and the two dates written in the source; [oppinfo] is not looked
    at, and the attribute list stays empty. *)
Theorem sync_m_objects_existing s self U K
    fs_op sh1 sh2 sh3 fs_list fs_obj cls fs_al fs_type fs_attribs
    operation oppinfo exists_ idnum :
  (forall st, truthy st exists_ = true) ->
  ready s self U K ->
  has_type s self "SyncOperationEnum" fs_op ->
  assoc "UPSERT" fs_op = Some sh1 ->
  assoc "INSERT" fs_op = Some sh2 ->
  assoc "UPDATE" fs_op = Some sh3 ->
  has_type s self "ArrayOfMObject" fs_list ->
  assoc "mObject" fs_list = Some ShList ->
  has_type s self "MObject" fs_obj ->
  assoc "attribList" fs_obj = Some (ShObj cls fs_al) ->
  assoc "attrib" fs_al = Some ShList ->
  has_type s self "TypeAttrib" fs_type ->
  has_type s self "ArrayOfAttrib" fs_attribs ->
  has_method s self "syncMObjects" ->
  exists s' c mObjectList operation' objs mObject al lst,
    sync_m_objects self operation (VStr "Opportunity") oppinfo exists_ idnum s
      = (respond (length (calls s)), s') /\
    calls s' = calls s ++ [c] /\
    call_op c = "syncMObjects" /\
    call_args c = [mObjectList; operation'] /\
    obj_field (call_heap c) mObjectList "mObject" = Some objs /\
    list_items (call_heap c) objs = Some [mObject] /\
    obj_field (call_heap c) mObject "type" = Some (VStr "Opportunity") /\
    obj_field (call_heap c) mObject "id" = Some idnum /\
    obj_field (call_heap c) mObject "createdAt"
      = Some (VStr "2014-01-27T12:38:44-05:00") /\
    obj_field (call_heap c) mObject "updatedAt"
      = Some (VStr "2014-01-31T12:38:44-05:00") /\
    obj_field (call_heap c) mObject "attribList" = Some al /\
    obj_field (call_heap c) al "attrib" = Some lst /\
    list_items (call_heap c) lst = Some [].
Proof.
  intros Htrue Hr Hop H1 H2 H3 Hlist Hfl Hobj Hfal Hfa Htype Hattribs Hm.
  destruct (ready_reaches _ _ _ _ Hr) as (inst & Hc & _ & _).
  pose proof Hr as (Hn & _ & _). pose proof Hc as (Hi & _).
  destruct (sync_m_objects_setup s self inst fs_op sh1 sh2 sh3 fs_list fs_obj
              cls fs_al fs_type fs_attribs operation
              Hc Hn Hop H1 H2 H3 Hlist Hfl Hobj Hfal Hfa Htype Hattribs)
    as (op' & h & lo & lm & lobj & lal & la & Hk & B0 & B1 & B2 & B3 & B4 & B5
        & Hold & Fm & Fmc & Hcell & Fal & Fa & Fac).
  set (fvs := fst (fill_fields (S lobj) fs_obj)) in *.
  set (obj := HObject "MObject"
                (set_field "updatedAt" (VStr "2014-01-31T12:38:44-05:00")
                   (set_field "createdAt" (VStr "2014-01-27T12:38:44-05:00")
                      (set_field "id" idnum
                         (set_field "type" (VStr "Opportunity") fvs))))).
  set (h6 := <[lobj := obj]> h).
  assert (Hlen6 : length h6 = length h) by apply length_insert.
  assert (Hcell6 : h6 !! lobj = Some obj)
    by (apply list_lookup_insert_eq; lia).
  assert (Hlm6 : h6 !! lm = Some (HList []))
    by (unfold h6; now rewrite list_lookup_insert_ne by lia).
  set (h8 := <[lm := HList ([] ++ [VRef lobj])]> h6).
  assert (Hlen8 : length h8 = length h6) by apply length_insert.
  destruct (call_service_ok (set_heap s h8) self U K "syncMObjects"
              [VRef lo; op'] Hr Hm eq_refl)
    as (s' & c & Ec & Hcalls & _ & Hcop & Hargs & _ & Hheap & _).
  norm in Hheap.
  exists s', c, (VRef lo), op', (VRef lm), (VRef lobj), (VRef lal), (VRef la).
  split.
  { unfold sync_m_objects. rewrite Hk.
    eq_str_eval. cbv match. mnorm.
    erewrite bind_ok by (apply setattr_object; norm; exact Hcell).
    norm. mnorm. rewrite bind_if_true by apply Htrue. mnorm.
    do 3 set_again.
    rewrite !list_insert_insert_eq. fold obj h6.
    erewrite bind_ok
      by (apply getattr_field; norm; unfold h6;
          rewrite obj_field_insert_ne by lia; exact Fm).
    erewrite bind_ok by (apply call_append_list; norm; exact Hlm6).
    norm. mnorm.
    match goal with |- context [call_self _ _ _ _ ?st] =>
      rewrite (call_self_method st self inst "call_service" _ _ Hi Hn eq_refl)
    end.
    exact Ec. }
  assert (Hcell8 : h8 !! lobj = Some obj).
  { unfold h8. rewrite list_lookup_insert_ne by lia. exact Hcell6. }
  assert (Hobj8 : forall f, obj_field (call_heap c) (VRef lobj) f
                            = obj_field h8 (VRef lobj) f)
    by (intros f; apply obj_field_agree, Hheap; lia).
  repeat split; try assumption.
  - rewrite (obj_field_agree _ _ _ _ (Hheap lo ltac:(lia))).
    unfold h8, h6. now rewrite !obj_field_insert_ne by lia.
  - unfold list_items. rewrite (Hheap lm ltac:(lia)). unfold h8.
    rewrite list_lookup_insert_eq by lia. reflexivity.
  - rewrite Hobj8, (obj_field_cell _ _ _ _ _ Hcell8).
    repeat rewrite assoc_set_field_ne by discriminate.
    apply assoc_set_field_eq.
  - rewrite Hobj8, (obj_field_cell _ _ _ _ _ Hcell8).
    repeat rewrite assoc_set_field_ne by discriminate.
    apply assoc_set_field_eq.
  - rewrite Hobj8, (obj_field_cell _ _ _ _ _ Hcell8).
    repeat rewrite assoc_set_field_ne by discriminate.
    apply assoc_set_field_eq.
  - rewrite Hobj8, (obj_field_cell _ _ _ _ _ Hcell8).
    apply assoc_set_field_eq.
  - rewrite Hobj8, (obj_field_cell _ _ _ _ _ Hcell8).
    repeat rewrite assoc_set_field_ne by discriminate.
    now rewrite <- (obj_field_cell _ _ _ _ _ Hcell).
  - rewrite (obj_field_agree _ _ _ _ (Hheap lal ltac:(lia))).
    unfold h8, h6. now rewrite !obj_field_insert_ne by lia.
  - unfold list_items. rewrite (Hheap la ltac:(lia)). unfold h8, h6.
    rewrite !list_lookup_insert_ne by lia. now rewrite Fac.
Qed.

(** X15.  With an object type that is neither "Opportunity" nor
    "OpportunityPersonRole" [sync_m_objects] still dispatches
    [syncMObjects], with an empty list of M-objects. *)
Theorem sync_m_objects_other_type s self U K
    fs_op sh1 sh2 sh3 fs_list fs_obj cls fs_al fs_type fs_attribs
    operation objType oppinfo exists_ idnum :
  eq_str objType "Opportunity" = false ->
  eq_str objType "OpportunityPersonRole" = false ->
  ready s self U K ->
  has_type s self "SyncOperationEnum" fs_op ->
  assoc "UPSERT" fs_op = Some sh1 ->
  assoc "INSERT" fs_op = Some sh2 ->
  assoc "UPDATE" fs_op = Some sh3 ->
  has_type s self "ArrayOfMObject" fs_list ->
  assoc "mObject" fs_list = Some ShList ->
  has_type s self "MObject" fs_obj ->
  assoc "attribList" fs_obj = Some (ShObj cls fs_al) ->
  assoc "attrib" fs_al = Some ShList ->
  has_type s self "TypeAttrib" fs_type ->
  has_type s self "ArrayOfAttrib" fs_attribs ->
  has_method s self "syncMObjects" ->
  exists s' c mObjectList operation' objs,
    sync_m_objects self operation objType oppinfo exists_ idnum s
      = (respond (length (calls s)), s') /\
    calls s' = calls s ++ [c] /\
    call_op c = "syncMObjects" /\
    call_args c = [mObjectList; operation'] /\
    obj_field (call_heap c) mObjectList "mObject" = Some objs /\
    list_items (call_heap c) objs = Some [].
Proof.
  intros N1 N2 Hr Hop H1 H2 H3 Hlist Hfl Hobj Hfal Hfa Htype Hattribs Hm.
  destruct (ready_reaches _ _ _ _ Hr) as (inst & Hc & _ & _).
  pose proof Hr as (Hn & _ & _). pose proof Hc as (Hi & _).
  destruct (sync_m_objects_setup s self inst fs_op sh1 sh2 sh3 fs_list fs_obj
              cls fs_al fs_type fs_attribs operation
              Hc Hn Hop H1 H2 H3 Hlist Hfl Hobj Hfal Hfa Htype Hattribs)
    as (op' & h & lo & lm & lobj & lal & la & Hk & B0 & B1 & B2 & B3 & B4 & B5
        & Hold & Fm & Fmc & Hcell & Fal & Fa & Fac).
  destruct (call_service_ok (set_heap s h) self U K "syncMObjects"
              [VRef lo; op'] Hr Hm eq_refl)
    as (s' & c & Ec & Hcalls & _ & Hcop & Hargs & _ & Hheap & _).
  norm in Hheap.
  exists s', c, (VRef lo), op', (VRef lm).
  split.
  { unfold sync_m_objects. rewrite Hk, N1, N2. mnorm.
    rewrite (call_self_method (set_heap s h) self inst "call_service" _ _
               Hi Hn eq_refl).
    exact Ec. }
  repeat split; try assumption.
  - now rewrite (obj_field_agree _ _ _ _ (Hheap lo ltac:(lia))).
  - unfold list_items. rewrite (Hheap lm ltac:(lia)). now rewrite Fmc.
Qed.

(** X16.  With [oppinfo] left at its default [None], an "Opportunity" that
    does not exist yet and an "OpportunityPersonRole" both fail on the
    caller's side: the loop over [oppinfo] raises [TypeError], no header is
    made and nothing is sent. *)
Theorem sync_m_objects_needs_oppinfo s self U K
    fs_op sh1 sh2 sh3 fs_list fs_obj cls fs_al fs_type fs_attribs
    operation objType exists_ idnum :
  objType = VStr "Opportunity" /\ (forall st, truthy st exists_ = false) \/
  objType = VStr "OpportunityPersonRole" ->
  ready s self U K ->
  has_type s self "SyncOperationEnum" fs_op ->
  assoc "UPSERT" fs_op = Some sh1 ->
  assoc "INSERT" fs_op = Some sh2 ->
  assoc "UPDATE" fs_op = Some sh3 ->
  has_type s self "ArrayOfMObject" fs_list ->
  assoc "mObject" fs_list = Some ShList ->
  has_type s self "MObject" fs_obj ->
  assoc "attribList" fs_obj = Some (ShObj cls fs_al) ->
  assoc "attrib" fs_al = Some ShList ->
  has_type s self "TypeAttrib" fs_type ->
  has_type s self "ArrayOfAttrib" fs_attribs ->
  exists s',
    sync_m_objects self operation objType VNone exists_ idnum s
      = (Raise TypeError, s') /\
    calls s' = calls s /\ clock s' = clock s.
Proof.
  intros Hcase Hr Hop H1 H2 H3 Hlist Hfl Hobj Hfal Hfa Htype Hattribs.
  destruct (ready_reaches _ _ _ _ Hr) as (inst & Hc & _ & _).
  pose proof Hr as (Hn & _ & _). pose proof Hc as (Hi & _).
  destruct (sync_m_objects_setup s self inst fs_op sh1 sh2 sh3 fs_list fs_obj
              cls fs_al fs_type fs_attribs operation
              Hc Hn Hop H1 H2 H3 Hlist Hfl Hobj Hfal Hfa Htype Hattribs)
    as (op' & h & lo & lm & lobj & lal & la & Hk & B0 & B1 & B2 & B3 & B4 & B5
        & Hold & Fm & Fmc & Hcell & Fal & Fa & Fac).
  unfold sync_m_objects. rewrite Hk.
  destruct Hcase as [[-> Hfalse] | ->]; eq_str_eval; cbv match; mnorm;
    (erewrite bind_ok by (apply setattr_object; norm; exact Hcell));
    norm; mnorm.
  - rewrite bind_if_not by apply Hfalse. mnorm.
    do 2 set_again.
    eexists. split; [reflexivity|]. now split.
  - eexists. split; [reflexivity|]. now split.
Qed.

(** ** Several leads at once *)

(** The append loop again, for elements that take more than one cell:
    what is said of an element has to survive every change that leaves the
    cells of its time alone, the list apart. *)
Section AppendLoopFramed.

Context {T : Type}.
Variable s0 : state.
Variable body : value -> M unit.
Variable enc : T -> value.
Variable la : nat.
Variable Inv : list hobj -> Prop.
Variable R : list hobj -> nat -> T -> Prop.

Hypothesis Inv_stable : forall h h',
  Inv h -> length h <= length h' ->
  (forall l, l < length h -> l <> la -> h' !! l = h !! l) -> Inv h'.

Hypothesis R_stable : forall h h' a t,
  R h a t -> length h <= length h' ->
  (forall l, l < length h -> l <> la -> h' !! l = h !! l) -> R h' a t.

Hypothesis body_spec : forall h items t,
  Inv h -> h !! la = Some (HList items) ->
  exists h',
    body (enc t) (set_heap s0 h) = (Ok tt, set_heap s0 h') /\
    length h < length h' /\
    (forall l, l < length h -> l <> la -> h' !! l = h !! l) /\
    h' !! la = Some (HList (items ++ [VRef (length h)])) /\
    R h' (length h) t.

Lemma for_each_append_framed ts : forall h items,
  Inv h -> h !! la = Some (HList items) ->
  exists h' locs,
    for_each (map enc ts) body (set_heap s0 h) = (Ok tt, set_heap s0 h') /\
    length h <= length h' /\
    (forall l, l < length h -> l <> la -> h' !! l = h !! l) /\
    h' !! la = Some (HList (items ++ map VRef locs)) /\
    Forall2 (R h') locs ts.
Proof.
  induction ts as [|t ts IH]; intros h items HI Hla.
  - exists h, []. simpl. rewrite app_nil_r. repeat split; auto.
  - destruct (body_spec h items t HI Hla) as (h1 & E1 & Hlen1 & Hold1 & Hla1 & HR1).
    assert (HI1 : Inv h1) by (apply (Inv_stable h); [assumption|lia|assumption]).
    destruct (IH h1 _ HI1 Hla1) as (h' & locs & E & Hlen & Hold & Hla' & HR).
    exists h', (length h :: locs). simpl.
    rewrite (bind_ok _ _ _ _ _ E1), E.
    repeat split.
    + lia.
    + intros l Hl Hne. rewrite Hold by lia. now apply Hold1.
    + now rewrite Hla', <- app_assoc.
    + constructor; [|assumption].
      apply (R_stable h1); assumption.
Qed.

End AppendLoopFramed.

(** A lead record reads the same in every heap that agrees with the one it
    was built in on the cells of the record. *)
Lemma read_lead_record_local h a n e ts arr lst locs :
  obj_field h (VRef a) "Email" = Some e ->
  obj_field h (VRef a) "leadAttributeList" = Some (VRef arr) ->
  obj_field h (VRef arr) "attribute" = Some (VRef lst) ->
  h !! lst = Some (HList (map VRef locs)) ->
  map (read_attribute h) (map VRef locs) = map Some ts ->
  a < n -> a < arr -> arr < n -> a < lst -> lst < n ->
  Forall (fun c => a < c /\ c < n) locs ->
  forall h', (forall l, a <= l -> l < n -> h' !! l = h !! l) ->
    read_lead_record h' (VRef a) = Some (e, map Some ts).
Proof.
  intros F1 F2 F3 F4 F5 B1 B2 B3 B4 B5 Hlocs h' Hag.
  unfold read_lead_record.
  rewrite !(obj_field_agree h h' a) by (apply Hag; lia).
  rewrite F1, F2.
  rewrite (obj_field_agree h h' arr) by (apply Hag; lia).
  rewrite F3. unfold list_items. rewrite Hag by lia. rewrite F4.
  rewrite <- F5. do 2 f_equal.
  apply map_ext_in. intros v Hv. apply in_map_iff in Hv.
  destruct Hv as (c & <- & Hc). apply list_elem_of_In in Hc.
  rewrite Forall_forall in Hlocs. destruct (Hlocs c Hc).
  apply read_attribute_agree. apply Hag; lia.
Qed.

Lemma append_method_list s l items :
  heap s !! l = Some (HList items) ->
  exists append,
    append_method (VRef l) s = (Ok append, s) /\
    forall x st its,
      heap st !! l = Some (HList its) ->
      append x st = (Ok tt, set_heap st (<[l := HList (its ++ [x])]> (heap st))).
Proof.
  intros H. unfold append_method. rewrite H.
  eexists. split; [reflexivity|].
  intros x st its Hst. cbv beta. now rewrite Hst.
Qed.

Lemma getattribute_bound s self inst n :
  instances s !! self = Some inst -> no_collision s = true ->
  mem_str n class_methods = true ->
  getattribute self n s = (Ok (VBound self n), s).
Proof.
  intros Hi Hn Hm.
  rewrite getattribute_static; [|assumption|].
  - unfold object_getattribute. rewrite Hi.
    apply mem_str_In in Hm. simpl in Hm.
    repeat (destruct Hm as [<- | Hm]; [reflexivity|]). contradiction.
  - unfold static_names. rewrite !mem_str_app, Hm. now rewrite !orb_true_r.
Qed.

(** One round of the loop of [sync_multiple_leads] (line 159). *)
Lemma lead_round s self inst fs_rec fs_arr fs_attr lrl la h items t :
  reaches_client s self inst ->
  no_collision s = true ->
  has_type s self "LeadRecord" fs_rec ->
  has_type s self "ArrayOfAttribute" fs_arr ->
  assoc "attribute" fs_arr = Some ShList ->
  has_type s self "Attribute" fs_attr ->
  obj_field h (VRef lrl) "leadRecord" = Some (VRef la) ->
  lrl < length h -> la < length h ->
  h !! la = Some (HList items) ->
  exists h',
    (l <- getattr (VRef lrl) "leadRecord" ;;
     append <- append_method l ;;
     f <- getattribute self "build_lead_record" ;;
     e0 <- getitem (lead t) 0 ;;
     e1 <- getitem (lead t) 1 ;;
     record <- apply_bound f [e0; e1] (build_lead_record self e0 e1) ;;
     append record) (set_heap s h)
    = (Ok tt, set_heap s h') /\
    length h < length h' /\
    (forall l, l < length h -> l <> la -> h' !! l = h !! l) /\
    h' !! la = Some (HList (items ++ [VRef (length h)])) /\
    (la < length h /\
     exists n, n <= length h' /\
       forall h'', (forall l, length h <= l -> l < n -> h'' !! l = h' !! l) ->
         read_lead_record h'' (VRef (length h)) = lead_read t).
Proof.
  intros Hc Hn Hrec Harr Hfield Hattr Fl Hlrl Hla Hitems.
  pose proof Hc as (Hi & _). destruct t as [e ts].
  destruct (append_method_list (set_heap s h) la items Hitems)
    as (append & Ea & Happ).
  destruct (build_lead_record_framed (set_heap s h) self inst fs_rec fs_arr
              fs_attr e ts Hc Hrec Harr Hfield Hattr)
    as (h1 & arr & lst & locs
        & (E & Hlen & F1 & F2 & Harr_lt & F3 & Hlst_lt & F4 & Hall & F5)
        & Hold & Harr_lo & Hlst_lo & Hlo).
  norm in Hlen F1 F2 Hold Harr_lo Hlst_lo Hlo.
  change (heap (set_heap s h)) with h in E.
  change (set_heap (set_heap s h) h1) with (set_heap s h1) in E.
  set (h' := <[la := HList (items ++ [VRef (length h)])]> h1).
  exists h'.
  split.
  { rewrite (bind_ok _ _ _ _ _ (getattr_field (set_heap s h) _ _ _ Fl)).
    rewrite (bind_ok _ _ _ _ _ Ea).
    rewrite (bind_ok _ _ _ _ _
      (getattribute_bound (set_heap s h) self inst "build_lead_record"
         Hi Hn eq_refl)).
    unfold lead, getitem at 1. unfold bind at 1. cbn [fst snd].
    unfold getitem at 1. unfold bind at 1.
    change (nth_or_IndexError [e; VTuple (map triple ts)] 0) with (Ok e).
    change (nth_or_IndexError [e; VTuple (map triple ts)] 1)
      with (Ok (VTuple (map triple ts))).
    cbv match. cbn [apply_bound].
    rewrite (bind_ok _ _ _ _ _ E).
    rewrite (Happ _ (set_heap s h1) items)
      by (norm; rewrite Hold by lia; exact Hitems).
    reflexivity. }
  unfold h'. rewrite length_insert.
  split; [lia|]. split; [|split; [|split; [lia|]]].
  - intros l Hl Hne. rewrite list_lookup_insert_ne by lia. now apply Hold.
  - apply list_lookup_insert_eq. lia.
  - exists (length h1). split; [lia|].
    intros h'' Hag.
    apply (read_lead_record_local h1 (length h) (length h1) e ts arr lst locs);
      try assumption; try lia.
    + rewrite Forall_forall in Hall, Hlo |- *. intros c Hc'.
      split; [apply Hlo|apply Hall]; exact Hc'.
    + intros l Hl1 Hl2. rewrite Hag by lia.
      apply list_lookup_insert_ne. lia.
Qed.

(** X17.  [sync_multiple_leads] dispatches [syncMultipleLeads] with a list
    that holds one lead record per lead given, in input order, each with the
    email address of its lead and one attribute per triple of the lead, and
    with the de-duplication flag as given. *)
Theorem sync_multiple_leads_records s self U K
    fs_list fs_rec fs_arr fs_attr leads dedup_enabled :
  ready s self U K ->
  has_type s self "ArrayOfLeadRecord" fs_list ->
  assoc "leadRecord" fs_list = Some ShList ->
  has_type s self "LeadRecord" fs_rec ->
  has_type s self "ArrayOfAttribute" fs_arr ->
  assoc "attribute" fs_arr = Some ShList ->
  has_type s self "Attribute" fs_attr ->
  has_method s self "syncMultipleLeads" ->
  exists s' c record_list lst items,
    sync_multiple_leads self (VTuple (map lead leads)) dedup_enabled s
      = (respond (length (calls s)), s') /\
    calls s' = calls s ++ [c] /\
    call_op c = "syncMultipleLeads" /\
    call_args c = [record_list; dedup_enabled] /\
    obj_field (call_heap c) record_list "leadRecord" = Some lst /\
    list_items (call_heap c) lst = Some items /\
    length items = length leads /\
    map (read_lead_record (call_heap c)) items = map lead_read leads.
Proof.
  intros Hr Hlist Hfl Hrec Harr Hfield Hattr Hm.
  destruct (ready_reaches _ _ _ _ Hr) as (inst & Hc & _ & _).
  pose proof Hr as (Hn & _ & _). pose proof Hc as (Hi & _).
  destruct (new_object s self inst "ArrayOfLeadRecord" fs_list Hc eq_refl Hlist)
    as (h1 & E1 & Hlen1 & Hold1 & Hp1).
  destruct (placed_field_list _ _ _ _ _ Hp1 Hfl) as (la & Hla & Fl & Fc).
  pose proof (lookup_lt_Some _ _ _ Fc) as Hla_lt.
  set (l0 := length (heap s)) in *.
  destruct (for_each_append_framed s
              (fun lead =>
                 l <- getattr (VRef l0) "leadRecord" ;;
                 append <- append_method l ;;
                 f <- getattribute self "build_lead_record" ;;
                 e0 <- getitem lead 0 ;;
                 e1 <- getitem lead 1 ;;
                 record <- apply_bound f [e0; e1] (build_lead_record self e0 e1) ;;
                 append record)
              lead la
              (fun h => obj_field h (VRef l0) "leadRecord" = Some (VRef la)
                        /\ length h1 <= length h)
              (fun h a t =>
                 la < a /\
                 exists n, n <= length h /\
                   forall h'', (forall l, a <= l -> l < n -> h'' !! l = h !! l) ->
                     read_lead_record h'' (VRef a) = lead_read t))
    with (ts := leads) (h := h1) (items := @nil value)
    as (h2 & locs & E2 & Hlen2 & Hold2 & Hla2 & HR2).
  { intros h h' [HI1 HI2] Hle Hag. split; [|lia].
    rewrite (obj_field_agree h); [assumption|]. apply Hag; lia. }
  { intros h h' a t (Ha & n & Hn' & Hread) Hle Hag. split; [assumption|].
    exists n. split; [lia|]. intros h'' Hag'. apply Hread.
    intros l Hl1 Hl2. rewrite Hag' by assumption. apply Hag; lia. }
  { intros h items t [HI1 HI2] Hitems.
    destruct (lead_round s self inst fs_rec fs_arr fs_attr l0 la h items t
                Hc Hn Hrec Harr Hfield Hattr HI1 ltac:(lia) ltac:(lia) Hitems)
      as (h' & E & Hlen & Hold & Hla' & Hlt & HR).
    exists h'. repeat split; assumption. }
  { split; [assumption|lia]. }
  { assumption. }
  simpl in Hla2.
  destruct (call_service_ok (set_heap s h2) self U K "syncMultipleLeads"
              [VRef l0; dedup_enabled] Hr Hm eq_refl)
    as (s' & c & Ec & Hcalls & _ & Hcop & Hargs & _ & Hheap & _).
  norm in Hheap.
  exists s', c, (VRef l0), (VRef la), (map VRef locs).
  split.
  { unfold sync_multiple_leads.
    rewrite (bind_ok _ _ _ _ _ E1).
    unfold py_iter at 1. unfold bind at 1.
    rewrite (bind_ok _ _ _ _ _ E2).
    rewrite (call_self_method (set_heap s h2) self inst "call_service" _ _
               Hi Hn eq_refl).
    exact Ec. }
  repeat split; try assumption.
  - rewrite (obj_field_agree _ _ _ _ (Hheap l0 ltac:(lia))).
    rewrite (obj_field_agree h1); [exact Fl|]. apply Hold2; lia.
  - unfold list_items. rewrite (Hheap la ltac:(lia)). now rewrite Hla2.
  - rewrite length_map. exact (Forall2_length _ _ _ HR2).
  - clear -HR2 Hheap. induction HR2 as [|a t locs ts (Ha & n & Hn' & Hread) _ IH];
      simpl; [reflexivity|].
    rewrite IH. f_equal. apply Hread.
    intros l Hl1 Hl2. apply Hheap. lia.
Qed.

(** ** Custom objects *)

Lemma read_named_intro h v a b :
  obj_field h v "attrName" = Some a ->
  obj_field h v "attrValue" = Some b ->
  read_named h v = Some (a, b).
Proof. intros H1 H2. unfold read_named. now rewrite H1, H2. Qed.

Lemma read_named_agree h h' a :
  h' !! a = h !! a -> read_named h' (VRef a) = read_named h (VRef a).
Proof.
  intros H. unfold read_named. now rewrite !(obj_field_agree _ _ _ _ H).
Qed.

Lemma fill_fields_cons b n sh fs :
  fill_fields b ((n, sh) :: fs)
  = ((n, fst (instantiate b sh))
       :: fst (fill_fields (b + length (snd (instantiate b sh))) fs),
     snd (instantiate b sh)
       ++ snd (fill_fields (b + length (snd (instantiate b sh))) fs)).
Proof.
  cbn [fill_fields]. destruct (instantiate b sh) as [v c1]. cbn [fst snd].
  now destruct (fill_fields (b + length c1) fs).
Qed.

Lemma instantiate_obj_fst b cls fs : fst (instantiate b (ShObj cls fs)) = VRef b.
Proof. now rewrite instantiate_obj. Qed.

(** An object whose first two attributes are objects themselves: [v[0]]
    and [v[1]] are these two, laid out one after the other. *)
Lemma first_two_fields h b cls k0 c0 g0 k1 c1 g1 rest :
  String.eqb k0 k1 = false ->
  placed h b
    (snd (instantiate b
            (ShObj cls ((k0, ShObj c0 g0) :: (k1, ShObj c1 g1) :: rest)))) ->
  exists cell p1,
    p1 = S b + length (snd (instantiate (S b) (ShObj c0 g0))) /\
    h !! b = Some cell /\
    (forall st, heap st !! b = Some cell ->
       getitem (VRef b) 0 st = (Ok (VRef (S b)), st)) /\
    (forall st, heap st !! b = Some cell ->
       getitem (VRef b) 1 st = (Ok (VRef p1), st)) /\
    placed h (S b) (snd (instantiate (S b) (ShObj c0 g0))) /\
    placed h p1 (snd (instantiate p1 (ShObj c1 g1))) /\
    obj_field h (VRef b) k0 = Some (VRef (S b)) /\
    obj_field h (VRef b) k1 = Some (VRef p1).
Proof.
  intros Hk Hp.
  pose proof (placed_object _ _ _ _ Hp) as Hcell.
  rewrite instantiate_obj in Hp. apply placed_tail in Hp.
  rewrite !fill_fields_cons in Hp, Hcell.
  rewrite !instantiate_obj_fst in Hcell. cbn [fst snd] in Hp, Hcell.
  remember (S b + length (snd (instantiate (S b) (ShObj c0 g0)))) as p1 eqn:Hp1.
  eexists _, p1. split; [reflexivity|]. split; [exact Hcell|].
  split; [|split; [|split; [|split; [|split]]]].
  - intros st Hst. unfold getitem. rewrite Hst.
    cbn [lookup list_lookup assoc]. now rewrite String.eqb_refl.
  - intros st Hst. unfold getitem. rewrite Hst.
    cbn [lookup list_lookup assoc]. now rewrite Hk, String.eqb_refl.
  - intros k o Hko. apply Hp. now apply lookup_app_l_Some.
  - rewrite Hp1. rewrite <- Hp1 at 2.
    exact (placed_middle h (S b) _ _ _ Hp).
  - unfold obj_field. rewrite Hcell. cbn [cell_fields assoc].
    now rewrite String.eqb_refl.
  - unfold obj_field. rewrite Hcell. cbn [cell_fields assoc].
    now rewrite Hk, String.eqb_refl.
Qed.

Lemma placed_field_list_within h b cls fs f :
  placed h b (snd (instantiate b (ShObj cls fs))) ->
  assoc f fs = Some ShList ->
  exists l,
    b < l /\ l < b + length (snd (instantiate b (ShObj cls fs))) /\
    obj_field h (VRef b) f = Some (VRef l) /\
    h !! l = Some (HList []).
Proof.
  intros Hp Hf. rewrite instantiate_obj in Hp |- *. cbn [snd] in Hp |- *.
  destruct (fill_fields_assoc f ShList fs (S b) Hf) as (pre & post & Hc & Hv).
  exists (S b + length pre). split; [lia|]. split; [|split].
  - rewrite Hc. simpl. rewrite length_app. simpl. lia.
  - unfold obj_field. rewrite (placed_head _ _ _ _ Hp). simpl. exact Hv.
  - apply placed_tail in Hp. rewrite Hc in Hp.
    apply placed_middle in Hp. now apply placed_head in Hp.
Qed.

(** One round of a loop of [sync_custom_objects] (lines 289-292). *)
Lemma custom_attribute_round s self inst fs_attr lobj cell slot part la lo h
    items t :
  reaches_client s self inst ->
  no_collision s = true ->
  has_type s self "Attribute" fs_attr ->
  (forall st, heap st !! lobj = Some cell ->
     getitem (VRef lobj) slot st = (Ok (VRef part), st)) ->
  h !! lobj = Some cell ->
  obj_field h (VRef part) "attribute" = Some (VRef la) ->
  part < length h -> lo <= length h ->
  h !! la = Some (HList items) ->
  exists h',
    (i <- self_getattribute self "Attribute" ;;
     e0 <- getitem (pair t) 0 ;;
     setattr i "attrName" e0 ;;;
     e1 <- getitem (pair t) 1 ;;
     setattr i "attrValue" e1 ;;;
     p <- getitem (VRef lobj) slot ;;
     l <- getattr p "attribute" ;;
     call_append l i) (set_heap s h)
    = (Ok tt, set_heap s h') /\
    length h < length h' /\
    (forall l, l < length h -> l <> la -> h' !! l = h !! l) /\
    h' !! la = Some (HList (items ++ [VRef (length h)])) /\
    (lo <= length h /\ length h < length h' /\
     read_named h' (VRef (length h)) = Some t).
Proof.
  intros Hc Hn Hattr Hget Hobj F Hpart Hlo Hla.
  pose proof (lookup_lt_Some _ _ _ Hla) as Hla_lt.
  pose proof (lookup_lt_Some _ _ _ Hobj) as Hobj_lt.
  destruct (new_object_explicit (set_heap s h) self inst "Attribute" fs_attr
              Hc Hn eq_refl Hattr)
    as (h1 & E1 & Hlen1 & Hold1 & Hp1).
  norm in Hlen1 Hold1 Hp1.
  pose proof (placed_object _ _ _ _ Hp1) as Hcell.
  rewrite (bind_ok _ _ _ _ _ E1).
  destruct t as [a b]. unfold pair, getitem at 1. unfold bind at 1.
  cbn [fst snd nth_or_IndexError lookup list_lookup].
  erewrite bind_ok by (apply setattr_object; norm; exact Hcell). norm.
  unfold getitem at 1. unfold bind at 1.
  cbn [fst snd nth_or_IndexError lookup list_lookup].
  erewrite bind_ok
    by (apply setattr_object; norm; apply list_lookup_insert_eq; lia). norm.
  erewrite bind_ok
    by (apply Hget; norm; heap_lookup; rewrite Hold1 by lia; exact Hobj).
  erewrite bind_ok
    by (apply getattr_field; norm; heap_lookup; rewrite obj_field_agree with (h := h);
        [eassumption|apply Hold1; lia]).
  erewrite call_append_list
    by (norm; heap_lookup; rewrite Hold1 by lia; eassumption).
  norm. eexists. split; [reflexivity|].
  rewrite !length_insert.
  split; [lia|]. split; [|split; [|split; [lia|split; [lia|]]]].
  - intros l Hl Hl'. heap_lookup. now apply Hold1.
  - apply list_lookup_insert_eq. rewrite !length_insert. lia.
  - apply read_named_intro;
      rewrite obj_field_insert_ne by lia;
      (erewrite obj_field_cell
         by (apply list_lookup_insert_eq; rewrite ?length_insert; lia));
      repeat first [ rewrite assoc_set_field_eq
                   | rewrite assoc_set_field_ne by discriminate ];
      reflexivity.
Qed.

Lemma add_attributes_ok s self inst fs_attr lobj cell slot part la h pairs :
  reaches_client s self inst ->
  no_collision s = true ->
  has_type s self "Attribute" fs_attr ->
  (forall st, heap st !! lobj = Some cell ->
     getitem (VRef lobj) slot st = (Ok (VRef part), st)) ->
  h !! lobj = Some cell ->
  obj_field h (VRef part) "attribute" = Some (VRef la) ->
  part < length h -> lobj <> la -> part <> la ->
  h !! la = Some (HList []) ->
  exists h' locs,
    add_attributes self (VRef lobj) slot (map pair pairs) (set_heap s h)
      = (Ok tt, set_heap s h') /\
    length h <= length h' /\
    (forall l, l < length h -> l <> la -> h' !! l = h !! l) /\
    h' !! la = Some (HList (map VRef locs)) /\
    Forall (fun a => length h <= a /\ a < length h') locs /\
    map (read_named h') (map VRef locs) = map Some pairs.
Proof.
  intros Hc Hn Hattr Hget Hobj F Hpart Hne1 Hne2 Fac.
  pose proof (lookup_lt_Some _ _ _ Hobj) as Hobj_lt.
  destruct (for_each_append s
              (fun e =>
                 i <- self_getattribute self "Attribute" ;;
                 e0 <- getitem e 0 ;;
                 setattr i "attrName" e0 ;;;
                 e1 <- getitem e 1 ;;
                 setattr i "attrValue" e1 ;;;
                 p <- getitem (VRef lobj) slot ;;
                 l <- getattr p "attribute" ;;
                 call_append l i)
              pair la
              (fun h0 => h0 !! lobj = Some cell
                        /\ obj_field h0 (VRef part) "attribute" = Some (VRef la)
                        /\ length h <= length h0)
              (fun h0 a t => length h <= a /\ a < length h0
                            /\ read_named h0 (VRef a) = Some t))
    with (ts := pairs) (h := h) (items := @nil value)
    as (h7 & locs & E7 & Hlen7 & Hold7 & Hla7 & HR7).
  { intros h0 h' (HI1 & HI2 & HI3) Hle Hag. split; [|split; [|lia]].
    - rewrite Hag; [assumption|lia|assumption].
    - rewrite (obj_field_agree h0); [assumption|]. apply Hag; lia. }
  { intros h0 h' a t (Ha1 & Ha2 & Ha3) Hag. repeat split; [assumption| |].
    - apply lookup_lt_is_Some. rewrite Hag. now apply lookup_lt_is_Some.
    - now rewrite (read_named_agree h0). }
  { intros h0 items t (HI1 & HI2 & HI3) Hitems.
    apply (custom_attribute_round s self inst fs_attr lobj cell slot part);
      try assumption; lia. }
  { repeat split; [assumption|assumption|lia]. }
  { assumption. }
  simpl in Hla7.
  exists h7, locs. split; [exact E7|].
  repeat split; try assumption.
  - clear -HR7. induction HR7 as [|a t locs ts (H1 & H2 & _) _ IH];
      constructor; auto.
  - apply (Forall2_read read_named h7 (length h) locs pairs HR7).
Qed.

(** X18.  [sync_custom_objects] dispatches [syncCustomObjects] with the
    object name as given and a list of one custom object: the pairs of
    [keys] are, in input order, the attributes of the list under its first
    element, the pairs of [information] those of the list under its
    second. *)
Theorem sync_custom_objects_lists s self U K
    fs_list cls0 g0 cls1 g1 k0 k1 rest fs_attr fs_op sh1 sh2 sh3
    operation objName keys information :
  ready s self U K ->
  has_type s self "ArrayOfCustomObj" fs_list ->
  assoc "customObj" fs_list = Some ShList ->
  has_type s self "CustomObj"
    ((k0, ShObj cls0 g0) :: (k1, ShObj cls1 g1) :: rest) ->
  String.eqb k0 k1 = false ->
  assoc "attribute" g0 = Some ShList ->
  assoc "attribute" g1 = Some ShList ->
  has_type s self "Attribute" fs_attr ->
  has_type s self "SyncOperationEnum" fs_op ->
  assoc "UPSERT" fs_op = Some sh1 ->
  assoc "INSERT" fs_op = Some sh2 ->
  assoc "UPDATE" fs_op = Some sh3 ->
  has_method s self "syncCustomObjects" ->
  exists s' c objList operation' objs customObj
         keyObj klist kitems infoObj ilist iitems,
    sync_custom_objects self operation objName
      (VTuple (map pair keys)) (VTuple (map pair information)) s
      = (respond (length (calls s)), s') /\
    calls s' = calls s ++ [c] /\
    call_op c = "syncCustomObjects" /\
    call_args c = [objName; objList; operation'] /\
    obj_field (call_heap c) objList "customObj" = Some objs /\
    list_items (call_heap c) objs = Some [customObj] /\
    (obj_field (call_heap c) customObj k0 = Some keyObj /\
     obj_field (call_heap c) keyObj "attribute" = Some klist /\
     list_items (call_heap c) klist = Some kitems /\
     map (read_named (call_heap c)) kitems = map Some keys) /\
    (obj_field (call_heap c) customObj k1 = Some infoObj /\
     obj_field (call_heap c) infoObj "attribute" = Some ilist /\
     list_items (call_heap c) ilist = Some iitems /\
     map (read_named (call_heap c)) iitems = map Some information).
Proof.
  intros Hr Hlist Hfl Hobj Hk Hg0 Hg1 Hattr Hop H1 H2 H3 Hm.
  destruct (ready_reaches _ _ _ _ Hr) as (inst & Hc & _ & _).
  pose proof Hr as (Hn & _ & _). pose proof Hc as (Hi & _).
  (* the two objects of lines 285-286 *)
  destruct (new_object_explicit s self inst "ArrayOfCustomObj" fs_list
              Hc Hn eq_refl Hlist) as (h1 & E1 & Hlen1 & Hold1 & Hp1).
  destruct (new_object_explicit (set_heap s h1) self inst "CustomObj" _
              Hc Hn eq_refl Hobj) as (h2 & E2 & Hlen2 & Hold2 & Hp2).
  norm in Hlen2 Hold2 Hp2.
  change (set_heap (set_heap s h1) h2) with (set_heap s h2) in E2.
  set (l0 := length (heap s)) in *.
  set (lobj := length h1) in *.
  destruct (placed_field_list _ _ _ _ _ Hp1 Hfl) as (lcl & Hlcl & Fcl & Fclc).
  pose proof (lookup_lt_Some _ _ _ Fclc) as Hlcl_lt. fold lobj in Hlcl_lt.
  destruct (first_two_fields _ _ _ _ _ _ _ _ _ _ Hk Hp2)
    as (cell & p1 & Hp1eq & Hcell & Hget0 & Hget1 & Hpl0 & Hpl1 & Fk0 & Fk1).
  destruct (placed_field_list_within _ _ _ _ _ Hpl0 Hg0)
    as (la0 & Hla0 & Hla0' & F0 & F0c).
  rewrite <- Hp1eq in Hla0'.
  destruct (placed_field_list _ _ _ _ _ Hpl1 Hg1) as (la1 & Hla1 & F1 & F1c).
  pose proof (lookup_lt_Some _ _ _ F0c) as Hla0_lt.
  pose proof (lookup_lt_Some _ _ _ F1c) as Hla1_lt.
  (* the two loops *)
  destruct (add_attributes_ok s self inst fs_attr lobj cell 0 (S lobj) la0 h2
              keys Hc Hn Hattr Hget0 Hcell F0 ltac:(lia) ltac:(lia) ltac:(lia)
              F0c)
    as (h3 & locs0 & E3 & Hlen3 & Hold3 & Hla3 & Hlocs0 & Hread0).
  assert (Hcell3 : h3 !! lobj = Some cell)
    by (rewrite Hold3 by lia; exact Hcell).
  assert (F13 : obj_field h3 (VRef p1) "attribute" = Some (VRef la1))
    by (rewrite (obj_field_agree h2); [exact F1|apply Hold3; lia]).
  assert (F1c3 : h3 !! la1 = Some (HList []))
    by (rewrite Hold3 by lia; exact F1c).
  destruct (add_attributes_ok s self inst fs_attr lobj cell 1 p1 la1 h3
              information Hc Hn Hattr Hget1 Hcell3 F13 ltac:(lia) ltac:(lia)
              ltac:(lia) F1c3)
    as (h4 & locs1 & E4 & Hlen4 & Hold4 & Hla4 & Hlocs1 & Hread1).
  (* the operation, and the list of one *)
  destruct (sync_operation_ok (set_heap s h4) self inst fs_op operation
              sh1 sh2 sh3 Hc Hn Hop H1 H2 H3)
    as (op' & h5 & E5 & Hlen5 & Hold5).
  norm in Hlen5 Hold5.
  change (set_heap (set_heap s h4) h5) with (set_heap s h5) in E5.
  assert (Hfrom2 : forall l, l < length h2 -> l <> la0 -> l <> la1 ->
            h5 !! l = h2 !! l).
  { intros l Hl N0 N1. rewrite Hold5, Hold4, Hold3 by lia. reflexivity. }
  assert (Fcl5 : obj_field h5 (VRef l0) "customObj" = Some (VRef lcl)).
  { rewrite (obj_field_agree h1); [exact Fcl|].
    rewrite Hfrom2, Hold2 by lia. reflexivity. }
  assert (Fclc5 : h5 !! lcl = Some (HList [])).
  { rewrite Hfrom2, Hold2 by lia. exact Fclc. }
  set (h6 := <[lcl := HList ([] ++ [VRef lobj])]> h5).
  assert (Hlen6 : length h6 = length h5) by apply length_insert.
  destruct (call_service_ok (set_heap s h6) self U K "syncCustomObjects"
              [objName; VRef l0; op'] Hr Hm eq_refl)
    as (s' & c & Ec & Hcalls & _ & Hcop & Hargs & _ & Hheap & _).
  norm in Hheap.
  assert (Hsent : forall l, l < length h5 -> l <> lcl ->
            call_heap c !! l = h5 !! l).
  { intros l Hl N. rewrite Hheap by lia. unfold h6.
    now apply list_lookup_insert_ne. }
  exists s', c, (VRef l0), op', (VRef lcl), (VRef lobj),
         (VRef (S lobj)), (VRef la0), (map VRef locs0),
         (VRef p1), (VRef la1), (map VRef locs1).
  split.
  { unfold sync_custom_objects.
    rewrite (bind_ok _ _ _ _ _ E1), (bind_ok _ _ _ _ _ E2).
    unfold py_iter at 1. unfold bind at 1.
    rewrite (bind_ok _ _ _ _ _ E3).
    unfold py_iter at 1. unfold bind at 1.
    rewrite (bind_ok _ _ _ _ _ E4).
    rewrite (bind_ok _ _ _ _ _ E5).
    erewrite bind_ok by (apply getattr_field; norm; exact Fcl5).
    erewrite bind_ok by (apply call_append_list; norm; exact Fclc5).
    norm.
    match goal with |- context [call_self _ _ _ _ ?st] =>
      rewrite (call_self_method st self inst "call_service" _ _ Hi Hn eq_refl)
    end.
    exact Ec. }
  do 3 (split; [assumption|]).
  split; [|split; [|split]].
  - rewrite (obj_field_agree _ _ _ _ (Hsent l0 ltac:(lia) ltac:(lia))).
    exact Fcl5.
  - unfold list_items. rewrite (Hheap lcl ltac:(lia)). unfold h6.
    rewrite list_lookup_insert_eq by lia. reflexivity.
  - split; [|split; [|split]].
    + rewrite (obj_field_agree _ _ _ _ (Hsent lobj ltac:(lia) ltac:(lia))).
      rewrite (obj_field_agree h2); [exact Fk0|]. apply Hfrom2; lia.
    + rewrite (obj_field_agree _ _ _ _ (Hsent (S lobj) ltac:(lia) ltac:(lia))).
      rewrite (obj_field_agree h2); [exact F0|]. apply Hfrom2; lia.
    + unfold list_items. rewrite (Hsent la0 ltac:(lia) ltac:(lia)).
      rewrite Hold5, Hold4 by lia. now rewrite Hla3.
    + rewrite <- Hread0.
      apply map_ext_in. intros v Hv. apply in_map_iff in Hv.
      destruct Hv as (a & <- & Ha). apply list_elem_of_In in Ha.
      rewrite Forall_forall in Hlocs0. destruct (Hlocs0 a Ha) as [Ha1 Ha2].
      apply read_named_agree.
      rewrite (Hsent a ltac:(lia) ltac:(lia)).
      rewrite Hold5, Hold4 by lia. reflexivity.
  - split; [|split; [|split]].
    + rewrite (obj_field_agree _ _ _ _ (Hsent lobj ltac:(lia) ltac:(lia))).
      rewrite (obj_field_agree h2); [exact Fk1|]. apply Hfrom2; lia.
    + rewrite (obj_field_agree _ _ _ _ (Hsent p1 ltac:(lia) ltac:(lia))).
      rewrite (obj_field_agree h2); [exact F1|]. apply Hfrom2; lia.
    + unfold list_items. rewrite (Hsent la1 ltac:(lia) ltac:(lia)).
      rewrite Hold5 by lia. now rewrite Hla4.
    + rewrite <- Hread1.
      apply map_ext_in. intros v Hv. apply in_map_iff in Hv.
      destruct Hv as (a & <- & Ha). apply list_elem_of_In in Ha.
      rewrite Forall_forall in Hlocs1. destruct (Hlocs1 a Ha) as [Ha1 Ha2].
      apply read_named_agree.
      rewrite (Hsent a ltac:(lia) ltac:(lia)).
      rewrite Hold5 by lia. reflexivity.
Qed.

(** X19.  With [keys] left at its default [None], [sync_custom_objects]
    fails on the caller's side: the loop over [keys] raises [TypeError]
    once the two objects have been made; no header is made and nothing is
    sent. *)
Theorem sync_custom_objects_needs_keys s self U K fs_list fs_obj
    operation objName information :
  ready s self U K ->
  has_type s self "ArrayOfCustomObj" fs_list ->
  has_type s self "CustomObj" fs_obj ->
  exists s',
    sync_custom_objects self operation objName VNone information s
      = (Raise TypeError, s') /\
    calls s' = calls s /\ clock s' = clock s /\
    length (heap s) < length (heap s').
Proof.
  intros Hr Hlist Hobj.
  destruct (ready_reaches _ _ _ _ Hr) as (inst & Hc & _ & _).
  pose proof Hr as (Hn & _ & _).
  destruct (new_object_explicit s self inst "ArrayOfCustomObj" fs_list
              Hc Hn eq_refl Hlist) as (h1 & E1 & Hlen1 & Hold1 & Hp1).
  destruct (new_object_explicit (set_heap s h1) self inst "CustomObj" fs_obj
              Hc Hn eq_refl Hobj) as (h2 & E2 & Hlen2 & Hold2 & Hp2).
  norm in Hlen2.
  unfold sync_custom_objects.
  rewrite (bind_ok _ _ _ _ _ E1), (bind_ok _ _ _ _ _ E2).
  eexists. split; [reflexivity|]. norm. repeat split. lia.
Qed.

(** ** Operations called directly *)

(** X20.  An operation reached as an attribute of the facade and called
    directly goes out without [set_header]: the clock is not read, and the
    request carries the header the client holds from the last
    [call_service], or none when there was no such call. *)
Theorem direct_call_keeps_header s self inst name args :
  reaches_client s self inst ->
  has_method s self name ->
  reserved name = false ->
  exists f s1 s' c,
    getattribute self name s = (Ok f, s1) /\
    invoke f args s1 = (respond (length (calls s)), s') /\
    calls s' = calls s ++ [c] /\
    call_op c = name /\ call_args c = args /\
    call_headers c = soapheaders (suds_client inst) /\
    clock s' = clock s /\
    instances s' = instances s.
Proof.
  intros Hc (Hnt & Hm & inst0 & Hi0 & Hsd) Hres.
  pose proof Hc as (Hi & _). rewrite Hi in Hi0. injection Hi0 as <-.
  eexists _, _, _, _. split.
  { exact (getattribute_method s self inst name Hc Hres Hnt Hm Hsd). }
  split.
  { erewrite invoke_method by (norm; now apply list_lookup_middle).
    norm. reflexivity. }
  norm. rewrite Hi. now repeat split.
Qed.

(** ** Requesting a campaign *)

Lemma read_lead_key_local h a n kt x y :
  obj_field h (VRef a) "keyType" = Some (VRef kt) ->
  obj_field h (VRef kt) "value" = Some x ->
  obj_field h (VRef a) "keyValue" = Some y ->
  a < n -> a < kt -> kt < n ->
  forall h', (forall l, a <= l -> l < n -> h' !! l = h !! l) ->
    read_lead_key h' (VRef a) = Some (x, y).
Proof.
  intros F1 F2 F3 B1 B2 B3 h' Hag. unfold read_lead_key.
  rewrite !(obj_field_agree h h' a) by (apply Hag; lia).
  rewrite F1, F3.
  rewrite (obj_field_agree h h' kt) by (apply Hag; lia).
  now rewrite F2.
Qed.

(** One round of the loop of [request_campaign] (lines 187-189). *)
Lemma lead_key_round s self inst fs_key ckt gkt llk la h items t :
  reaches_client s self inst ->
  has_type s self "LeadKey" fs_key ->
  assoc "keyType" fs_key = Some (ShObj ckt gkt) ->
  obj_field h (VRef llk) "leadKey" = Some (VRef la) ->
  llk < length h -> la < length h ->
  h !! la = Some (HList items) ->
  exists h',
    (lead_key <- getattribute self "LeadKey" ;;
     ab <- unpack2 (pair t) ;;
     kt <- getattr lead_key "keyType" ;;
     setattr kt "value" (fst ab) ;;;
     setattr lead_key "keyValue" (snd ab) ;;;
     lk <- getattr (VRef llk) "leadKey" ;;
     call_append lk lead_key) (set_heap s h)
    = (Ok tt, set_heap s h') /\
    length h < length h' /\
    (forall l, l < length h -> l <> la -> h' !! l = h !! l) /\
    h' !! la = Some (HList (items ++ [VRef (length h)])) /\
    (la < length h /\
     exists n, n <= length h' /\
       forall h'', (forall l, length h <= l -> l < n -> h'' !! l = h' !! l) ->
         read_lead_key h'' (VRef (length h)) = Some t).
Proof.
  intros Hc Hkey Hkt Fl Hllk Hla Hitems.
  destruct (new_object (set_heap s h) self inst "LeadKey" fs_key Hc eq_refl Hkey)
    as (h1 & E1 & Hlen1 & Hold1 & Hp1).
  norm in Hlen1 Hold1 Hp1.
  pose proof (placed_object _ _ _ _ Hp1) as Hcell.
  destruct (placed_field_obj _ _ _ _ _ _ _ Hp1 Hkt) as (lkt & Hlkt & Fkt & Hpkt).
  pose proof (placed_object _ _ _ _ Hpkt) as Hktcell.
  pose proof (placed_obj_lt _ _ _ _ Hpkt) as Hlkt_lt.
  rewrite (bind_ok _ _ _ _ _ E1).
  destruct t as [a b]. unfold unpack2, pair, py_iter. rewrite bind_assoc.
  unfold bind at 1. cbn [fst snd]. rewrite bind_ret. cbn [fst snd].
  erewrite bind_ok by (apply getattr_field; norm; exact Fkt).
  erewrite bind_ok by (apply setattr_object; norm; exact Hktcell). norm.
  erewrite bind_ok
    by (apply setattr_object; norm; rewrite list_lookup_insert_ne by lia;
        exact Hcell).
  norm.
  erewrite bind_ok
    by (apply getattr_field; norm; heap_lookup; rewrite obj_field_agree with (h := h);
        [eassumption|apply Hold1; lia]).
  erewrite call_append_list
    by (norm; heap_lookup; rewrite Hold1 by lia; eassumption).
  norm. eexists. split; [reflexivity|].
  rewrite !length_insert.
  split; [lia|]. split; [|split; [|split; [lia|]]].
  - intros l Hl Hl'. heap_lookup. now apply Hold1.
  - apply list_lookup_insert_eq. rewrite !length_insert. lia.
  - exists (length h1). split; [lia|]. intros h'' Hag.
    apply (read_lead_key_local _ (length h) (length h1) lkt a b)
      with (h' := h'') (7 := Hag); try lia.
    + rewrite obj_field_insert_ne by lia.
      erewrite obj_field_cell
        by (apply list_lookup_insert_eq; rewrite ?length_insert; lia).
      rewrite assoc_set_field_ne by discriminate.
      now rewrite <- (obj_field_cell _ _ _ _ _ Hcell).
    + rewrite !obj_field_insert_ne by lia.
      erewrite obj_field_cell by (apply list_lookup_insert_eq; lia).
      apply assoc_set_field_eq.
    + rewrite obj_field_insert_ne by lia.
      erewrite obj_field_cell
        by (apply list_lookup_insert_eq; rewrite ?length_insert; lia).
      apply assoc_set_field_eq.
Qed.

(** X21.  With at least two program tokens [request_campaign] dispatches
    [requestCampaign]: the source is the one given or, when none is given,
    the member [MKTOWS] of [ReqCampSourceType]; the lead keys are those of
    [lead_list], in input order; the token list holds one attribute, named
    by the first element of [program_token_list] and valued by the second,
    and whatever follows them is left out. *)
Theorem request_campaign_request s self U K
    fs_src m fs_keys fs_arr fs_attr fs_key ckt gkt
    source campaign_id leads program_name campaign_name t0 t1 more :
  ready s self U K ->
  has_type s self "ReqCampSourceType" fs_src ->
  assoc "MKTOWS" fs_src = Some (ShStr m) ->
  has_type s self "ArrayOfLeadKey" fs_keys ->
  assoc "leadKey" fs_keys = Some ShList ->
  has_type s self "ArrayOfAttribute" fs_arr ->
  assoc "attribute" fs_arr = Some ShList ->
  has_type s self "Attribute" fs_attr ->
  has_type s self "LeadKey" fs_key ->
  assoc "keyType" fs_key = Some (ShObj ckt gkt) ->
  has_method s self "requestCampaign" ->
  exists s' c keys kl kitems ptl tl pta,
    request_campaign self source campaign_id (VTuple (map pair leads))
      program_name campaign_name (VTuple (t0 :: t1 :: more)) s
      = (respond (length (calls s)), s') /\
    calls s' = calls s ++ [c] /\
    call_op c = "requestCampaign" /\
    call_args c
      = [if truthy s source then source else VStr m; campaign_id; keys;
         program_name; campaign_name; ptl] /\
    obj_field (call_heap c) keys "leadKey" = Some kl /\
    list_items (call_heap c) kl = Some kitems /\
    map (read_lead_key (call_heap c)) kitems = map Some leads /\
    obj_field (call_heap c) ptl "attribute" = Some tl /\
    list_items (call_heap c) tl = Some [pta] /\
    read_named (call_heap c) pta = Some (t0, t1).
Proof.
  intros Hr Hsrc Hmk Hkeys Hfk Harr Hfa Hattr Hkey Hkt Hm.
  destruct (ready_reaches _ _ _ _ Hr) as (inst & Hc & _ & _).
  pose proof Hr as (Hn & _ & _). pose proof Hc as (Hi & _).
  (* the source, line 177 *)
  assert (Hsource : exists h0,
            if_truthy source (ret source)
              (t <- getattribute self "ReqCampSourceType" ;; getattr t "MKTOWS") s
            = (Ok (if truthy s source then source else VStr m), set_heap s h0) /\
            length (heap s) <= length h0 /\
            (forall l, l < length (heap s) -> h0 !! l = heap s !! l)).
  { unfold if_truthy. destruct (truthy s source).
    - exists (heap s). rewrite set_heap_id. now repeat split.
    - destruct (new_object s self inst "ReqCampSourceType" fs_src Hc eq_refl Hsrc)
        as (h0 & E0 & Hlen0 & Hold0 & Hp0).
      pose proof (placed_field_str _ _ _ _ _ _ Hp0 Hmk) as Hv.
      exists h0. rewrite (bind_ok _ _ _ _ _ E0).
      rewrite (getattr_field (set_heap s h0) _ _ _ Hv).
      repeat split; [lia|assumption]. }
  destruct Hsource as (h0 & E0 & Hlen0 & Hold0).
  set (source' := if truthy s source then source else VStr m) in *.
  (* the objects of lines 178-180 *)
  destruct (new_object (set_heap s h0) self inst "ArrayOfLeadKey" fs_keys
              Hc eq_refl Hkeys) as (h1 & E1 & Hlen1 & Hold1 & Hp1).
  destruct (new_object_explicit (set_heap s h1) self inst "ArrayOfAttribute"
              fs_arr Hc Hn eq_refl Harr) as (h2 & E2 & Hlen2 & Hold2 & Hp2).
  destruct (new_object_explicit (set_heap s h2) self inst "Attribute" fs_attr
              Hc Hn eq_refl Hattr) as (h3 & E3 & Hlen3 & Hold3 & Hp3).
  norm in Hlen1 Hold1 Hp1 Hlen2 Hold2 Hp2 Hlen3 Hold3 Hp3.
  destruct (placed_field_list _ _ _ _ _ Hp1 Hfk) as (la & Hla & Fk & Fkc).
  pose proof (lookup_lt_Some _ _ _ Fkc) as Hla_lt.
  destruct (placed_field_list _ _ _ _ _ Hp2 Hfa) as (lpa & Hlpa & Fa & Fac).
  pose proof (lookup_lt_Some _ _ _ Fac) as Hlpa_lt.
  pose proof (placed_object _ _ _ _ Hp3) as Hcell3.
  set (llk := length h0) in *.
  set (lptl := length h1) in *.
  set (lpta := length h2) in *.
  set (pta_cell := HObject "Attribute"
                     (set_field "attrValue" t1
                        (set_field "attrName" t0
                           (fst (fill_fields (S lpta) fs_attr))))).
  set (h4 := <[lpta := pta_cell]> h3).
  set (h5 := <[lpa := HList ([] ++ [VRef lpta])]> h4).
  assert (Hlen4 : length h4 = length h3) by apply length_insert.
  assert (Hlen5 : length h5 = length h4) by apply length_insert.
  assert (Hfrom2 : forall l, l < length h2 -> l <> lpa -> h5 !! l = h2 !! l).
  { intros l Hl N. unfold h5, h4.
    rewrite !list_lookup_insert_ne by lia. now apply Hold3. }
  assert (Fa4 : obj_field h4 (VRef lptl) "attribute" = Some (VRef lpa)).
  { unfold h4. rewrite obj_field_insert_ne by lia.
    rewrite (obj_field_agree h2); [exact Fa|]. apply Hold3; lia. }
  assert (Fac4 : h4 !! lpa = Some (HList [])).
  { unfold h4. rewrite list_lookup_insert_ne by lia.
    rewrite Hold3 by lia. exact Fac. }
  assert (Fk5 : obj_field h5 (VRef llk) "leadKey" = Some (VRef la)).
  { rewrite (obj_field_agree h1); [exact Fk|].
    rewrite Hfrom2, Hold2 by lia. reflexivity. }
  assert (Fkc5 : h5 !! la = Some (HList [])).
  { rewrite Hfrom2, Hold2 by lia. exact Fkc. }
  (* the loop over the leads *)
  destruct (for_each_append_framed s
              (fun lead =>
                 lead_key <- getattribute self "LeadKey" ;;
                 ab <- unpack2 lead ;;
                 kt <- getattr lead_key "keyType" ;;
                 setattr kt "value" (fst ab) ;;;
                 setattr lead_key "keyValue" (snd ab) ;;;
                 lk <- getattr (VRef llk) "leadKey" ;;
                 call_append lk lead_key)
              pair la
              (fun h => obj_field h (VRef llk) "leadKey" = Some (VRef la)
                        /\ length h5 <= length h)
              (fun h a t =>
                 la < a /\
                 exists n, n <= length h /\
                   forall h'', (forall l, a <= l -> l < n -> h'' !! l = h !! l) ->
                     read_lead_key h'' (VRef a) = Some t))
    with (ts := leads) (h := h5) (items := @nil value)
    as (h6 & locs & E6 & Hlen6 & Hold6 & Hla6 & HR6).
  { intros h h' [HI1 HI2] Hle Hag. split; [|lia].
    rewrite (obj_field_agree h); [assumption|]. apply Hag; lia. }
  { intros h h' a t (Ha & n & Hn' & Hread) Hle Hag. split; [assumption|].
    exists n. split; [lia|]. intros h'' Hag'. apply Hread.
    intros l Hl1 Hl2. rewrite Hag' by assumption. apply Hag; lia. }
  { intros h items t [HI1 HI2] Hitems.
    destruct (lead_key_round s self inst fs_key ckt gkt llk la h items t
                Hc Hkey Hkt HI1 ltac:(lia) ltac:(lia) Hitems)
      as (h' & E & Hlen & Hold & Hla' & Hlt & HR).
    exists h'. repeat split; assumption. }
  { split; [assumption|lia]. }
  { assumption. }
  simpl in Hla6.
  destruct (call_service_ok (set_heap s h6) self U K "requestCampaign"
              [source'; campaign_id; VRef llk; program_name; campaign_name;
               VRef lptl] Hr Hm eq_refl)
    as (s' & c & Ec & Hcalls & _ & Hcop & Hargs & _ & Hheap & _).
  norm in Hheap.
  assert (Hsent : forall l, l < length h5 -> l <> la ->
            call_heap c !! l = h5 !! l).
  { intros l Hl N. rewrite Hheap by lia. now apply Hold6. }
  exists s', c, (VRef llk), (VRef la), (map VRef locs),
         (VRef lptl), (VRef lpa), (VRef lpta).
  split.
  { unfold request_campaign.
    rewrite (bind_ok _ _ _ _ _ E0), (bind_ok _ _ _ _ _ E1),
            (bind_ok _ _ _ _ _ E2), (bind_ok _ _ _ _ _ E3).
    unfold getitem at 1. unfold bind at 1.
    cbn [fst snd nth_or_IndexError lookup list_lookup].
    erewrite bind_ok by (apply setattr_object; norm; exact Hcell3). norm.
    unfold getitem at 1. unfold bind at 1.
    cbn [fst snd nth_or_IndexError lookup list_lookup].
    erewrite bind_ok
      by (apply setattr_object; norm; apply list_lookup_insert_eq; lia).
    norm. rewrite list_insert_insert_eq. fold pta_cell h4.
    erewrite bind_ok by (apply getattr_field; norm; exact Fa4).
    erewrite bind_ok by (apply call_append_list; norm; exact Fac4).
    norm. fold h5.
    unfold py_iter at 1. unfold bind at 1.
    change {| heap := h5; suds_types := suds_types s;
              suds_methods := suds_methods s; instances := instances s;
              calls := calls s; clock := clock s |} with (set_heap s h5).
    rewrite (bind_ok _ _ _ _ _ E6).
    rewrite (call_self_method (set_heap s h6) self inst "call_service" _ _
               Hi Hn eq_refl).
    exact Ec. }
  do 3 (split; [assumption|]).
  split; [|split; [|split; [|split; [|split]]]].
  - rewrite (obj_field_agree _ _ _ _ (Hsent llk ltac:(lia) ltac:(lia))).
    exact Fk5.
  - unfold list_items. rewrite (Hheap la ltac:(lia)). now rewrite Hla6.
  - clear -HR6 Hheap. induction HR6 as [|a t locs ts (Ha & n & Hn' & Hread) _ IH];
      simpl; [reflexivity|].
    rewrite IH. f_equal. apply Hread.
    intros l Hl1 Hl2. apply Hheap. lia.
  - rewrite (obj_field_agree _ _ _ _ (Hsent lptl ltac:(lia) ltac:(lia))).
    unfold h5. rewrite obj_field_insert_ne by lia. exact Fa4.
  - unfold list_items. rewrite (Hsent lpa ltac:(lia) ltac:(lia)). unfold h5.
    rewrite list_lookup_insert_eq by lia. reflexivity.
  - rewrite (read_named_agree h5) by (apply Hsent; lia).
    apply read_named_intro; unfold h5, h4;
      rewrite obj_field_insert_ne by lia;
      (erewrite obj_field_cell by (apply list_lookup_insert_eq; lia));
      unfold pta_cell;
      repeat first [ rewrite assoc_set_field_eq
                   | rewrite assoc_set_field_ne by discriminate ];
      reflexivity.
Qed.

(** ** Merging leads *)

(** The second half of the [try] body of [merge_leads] (lines 223-225) when
    the key list is a list: it gets one [ArrayOfAttribute], whose list gets
    the losing attribute. *)
Lemma losing_list_filled s self inst fs_arr fs_kl h lose lk :
  reaches_client s self inst ->
  no_collision s = true ->
  has_type s self "ArrayOfAttribute" fs_arr ->
  assoc "attribute" fs_arr = Some ShList ->
  placed h lk (snd (instantiate lk (ShObj "ArrayOfKeyList" fs_kl))) ->
  assoc "keyList" fs_kl = Some ShList ->
  exists h' lkl lal,
    try_pass (
      attr <- self_getattribute self "ArrayOfAttribute" ;;
      kl <- getattr (VRef lk) "keyList" ;;
      call_append kl attr ;;;
      kl' <- getattr (VRef lk) "keyList" ;;
      first <- getitem kl' 0 ;;
      al <- getattr first "attribute" ;;
      call_append al lose) (set_heap s h)
    = (Ok (Some tt), set_heap s h') /\
    length h < length h' /\
    lk < lkl /\ lkl < length h /\ length h < lal /\ lal < length h' /\
    (forall l, l < length h -> l <> lkl -> h' !! l = h !! l) /\
    obj_field h' (VRef lk) "keyList" = Some (VRef lkl) /\
    h' !! lkl = Some (HList [VRef (length h)]) /\
    obj_field h' (VRef (length h)) "attribute" = Some (VRef lal) /\
    h' !! lal = Some (HList [lose]).
Proof.
  intros Hc Hn Harr Hfield Hp Hkl.
  pose proof (placed_obj_lt _ _ _ _ Hp) as Hlk.
  destruct (placed_field_list _ _ _ _ _ Hp Hkl) as (lkl & Hlkl & Fk0 & Fkc0).
  pose proof (lookup_lt_Some _ _ _ Fkc0) as Hlkl_lt.
  destruct (new_object_explicit (set_heap s h) self inst "ArrayOfAttribute" fs_arr
              Hc Hn eq_refl Harr) as (h1 & E1 & Hlen1 & Hold1 & Hp1).
  norm in Hlen1 Hold1 Hp1.
  destruct (placed_field_list _ _ _ _ _ Hp1 Hfield) as (la & Hla & Fa & Fac).
  pose proof (lookup_lt_Some _ _ _ Fac) as Hla_lt.
  assert (Fk : obj_field h1 (VRef lk) "keyList" = Some (VRef lkl)).
  { rewrite (obj_field_agree h); [assumption|]. apply Hold1; lia. }
  assert (Fkc : h1 !! lkl = Some (HList [])) by (rewrite Hold1 by lia; assumption).
  exists (<[la := HList ([] ++ [lose])]>
            (<[lkl := HList ([] ++ [VRef (length h)])]> h1)), lkl, la.
  split.
  { apply try_pass_ok.
    rewrite (bind_ok _ _ _ _ _ E1).
    rewrite (bind_ok _ _ _ _ _ (getattr_field (set_heap s h1) _ _ _ Fk)).
    erewrite bind_ok by (apply call_append_list; norm; exact Fkc).
    norm.
    erewrite bind_ok by (apply getattr_field; norm; heap_lookup).
    unfold getitem at 1. unfold bind at 1. norm.
    rewrite list_lookup_insert_eq by lia.
    cbn [app nth_or_IndexError lookup list_lookup].
    erewrite bind_ok by (apply getattr_field; norm; heap_lookup).
    erewrite call_append_list by (norm; heap_lookup).
    reflexivity. }
  rewrite !length_insert.
  repeat split; try lia.
  - intros l Hl N. heap_lookup. now apply Hold1.
  - now rewrite !obj_field_insert_ne by lia.
  - rewrite list_lookup_insert_ne by lia.
    apply list_lookup_insert_eq. lia.
  - now rewrite !obj_field_insert_ne by lia.
  - apply list_lookup_insert_eq. rewrite length_insert. lia.
Qed.

(** X22.  When the service description has an [ArrayOfKeyList] whose
    [keyList] is a list, [merge_leads] dispatches [mergeLeads] with two
    structures: the winning list holds one attribute, IDNUM with the winning
    id; the losing key list holds one attribute list, which holds one
    attribute, IDNUM with the losing id.  The two attributes are different
    objects. *)
Theorem merge_leads_both_lists s self U K fs_attr fs_arr fs_kl winning losing :
  ready s self U K ->
  has_type s self "Attribute" fs_attr ->
  has_type s self "ArrayOfAttribute" fs_arr ->
  assoc "attribute" fs_arr = Some ShList ->
  has_type s self "ArrayOfKeyList" fs_kl ->
  assoc "keyList" fs_kl = Some ShList ->
  has_method s self "mergeLeads" ->
  exists s' c winning_list wl win losing_list kl entry ll lose,
    merge_leads self winning losing s = (respond (length (calls s)), s') /\
    calls s' = calls s ++ [c] /\
    call_op c = "mergeLeads" /\
    call_args c = [winning_list; losing_list] /\
    (obj_field (call_heap c) winning_list "attribute" = Some wl /\
     list_items (call_heap c) wl = Some [win] /\
     read_named (call_heap c) win = Some (VStr "IDNUM", winning)) /\
    (obj_field (call_heap c) losing_list "keyList" = Some kl /\
     list_items (call_heap c) kl = Some [entry] /\
     obj_field (call_heap c) entry "attribute" = Some ll /\
     list_items (call_heap c) ll = Some [lose] /\
     read_named (call_heap c) lose = Some (VStr "IDNUM", losing)) /\
    win <> lose.
Proof.
  intros Hr Hattr Harr Hfield Hkl Hlist Hm.
  destruct (ready_reaches _ _ _ _ Hr) as (inst & Hc & _ & _).
  pose proof Hr as (Hn & _ & _). pose proof Hc as (Hi & _).
  (* the winning list, lines 213-217 *)
  destruct (new_object_explicit s self inst "Attribute" fs_attr Hc Hn eq_refl Hattr)
    as (h1 & E1 & Hlen1 & Hold1 & Hp1).
  pose proof (placed_object _ _ _ _ Hp1) as Hcell1.
  set (l0 := length (heap s)) in *.
  set (win := HObject "Attribute"
                (set_field "attrValue" winning
                   (set_field "attrName" (VStr "IDNUM")
                      (fst (fill_fields (S l0) fs_attr))))).
  set (h2 := <[l0 := win]> h1).
  assert (Hlen2 : length h2 = length h1) by apply length_insert.
  destruct (new_object_explicit (set_heap s h2) self inst "ArrayOfAttribute" fs_arr
              Hc Hn eq_refl Harr) as (h3 & E3 & Hlen3 & Hold3 & Hp3).
  norm in Hlen3 Hold3 Hp3.
  destruct (placed_field_list _ _ _ _ _ Hp3 Hfield) as (la & Hla & Fa & Fac).
  pose proof (lookup_lt_Some _ _ _ Fac) as Hla_lt.
  set (h4 := <[la := HList ([] ++ [VRef l0])]> h3).
  assert (Hlen4 : length h4 = length h3) by apply length_insert.
  (* the losing attribute and the key list object, lines 219-222 *)
  destruct (new_object_explicit (set_heap s h4) self inst "Attribute" fs_attr
              Hc Hn eq_refl Hattr) as (h5 & E5 & Hlen5 & Hold5 & Hp5).
  norm in Hlen5 Hold5 Hp5.
  pose proof (placed_object _ _ _ _ Hp5) as Hcell5.
  set (lose := HObject "Attribute"
                 (set_field "attrValue" losing
                    (set_field "attrName" (VStr "IDNUM")
                       (fst (fill_fields (S (length h4)) fs_attr))))).
  set (h6 := <[length h4 := lose]> h5).
  assert (Hlen6 : length h6 = length h5) by apply length_insert.
  destruct (new_object_explicit (set_heap s h6) self inst "ArrayOfKeyList" fs_kl
              Hc Hn eq_refl Hkl) as (h7 & E7 & Hlen7 & Hold7 & Hp7).
  norm in Hlen7 Hold7 Hp7.
  (* lines 223-225 *)
  destruct (losing_list_filled s self inst fs_arr fs_kl h7 (VRef (length h4))
              (length h6) Hc Hn Harr Hfield Hp7 Hlist)
    as (h8 & lkl & lal & E8 & Hlen8 & B1 & B2 & B3 & B4 & Hold8 & Fk8 & Fkc8
        & Fal8 & Falc8).
  destruct (call_service_ok (set_heap s h8) self U K "mergeLeads"
              [VRef (length h2); VRef (length h6)] Hr Hm eq_refl)
    as (s' & c & Ec & Hcalls & _ & Hcop & Hargs & _ & Hheap & _).
  norm in Hheap.
  exists s', c, (VRef (length h2)), (VRef la), (VRef l0),
         (VRef (length h6)), (VRef lkl), (VRef (length h7)), (VRef lal),
         (VRef (length h4)).
  split.
  { unfold merge_leads.
    rewrite (bind_ok _ _ _ _ _ E1).
    erewrite bind_ok by (apply setattr_object; norm; exact Hcell1). norm.
    erewrite bind_ok
      by (apply setattr_object; norm; apply list_lookup_insert_eq; lia).
    norm. rewrite list_insert_insert_eq. fold win h2.
    change {| heap := h2; suds_types := suds_types s;
              suds_methods := suds_methods s; instances := instances s;
              calls := calls s; clock := clock s |} with (set_heap s h2).
    rewrite (bind_ok _ _ _ _ _ E3).
    rewrite (bind_ok _ _ _ _ _ (getattr_field (set_heap s h3) _ _ _ Fa)).
    erewrite bind_ok by (apply call_append_list; norm; exact Fac).
    norm. fold h4.
    erewrite (bind_ok (try_pass _)).
    2: { apply try_pass_ok.
         change {| heap := h4; suds_types := suds_types s;
                   suds_methods := suds_methods s; instances := instances s;
                   calls := calls s; clock := clock s |} with (set_heap s h4).
         rewrite (bind_ok _ _ _ _ _ E5).
         erewrite bind_ok
           by (apply setattr_object; norm; exact Hcell5). norm.
         erewrite bind_ok
           by (apply setattr_object; norm; apply list_lookup_insert_eq; lia).
         norm. rewrite list_insert_insert_eq. fold lose h6.
         change {| heap := h6; suds_types := suds_types s;
                   suds_methods := suds_methods s; instances := instances s;
                   calls := calls s; clock := clock s |} with (set_heap s h6).
         rewrite (bind_ok _ _ _ _ _ E7). reflexivity. }
    cbv beta iota.
    change (set_heap (set_heap s h6) h7) with (set_heap s h7).
    rewrite (bind_ok _ _ _ _ _ E8).
    rewrite (call_self_method (set_heap s h8) self inst "call_service" _ _ Hi Hn eq_refl).
    exact Ec. }
  assert (Hkeep6 : forall l, l < length h6 -> h8 !! l = h6 !! l).
  { intros l Hl. rewrite Hold8, Hold7 by lia. reflexivity. }
  assert (Hkeep : forall l, l < length h4 -> h8 !! l = h4 !! l).
  { intros l Hl. rewrite Hkeep6 by lia. unfold h6.
    rewrite list_lookup_insert_ne by lia. apply Hold5. lia. }
  assert (Hwin : h8 !! l0 = Some win).
  { rewrite Hkeep by lia. unfold h4. rewrite list_lookup_insert_ne by lia.
    rewrite Hold3 by lia. apply list_lookup_insert_eq. lia. }
  assert (Hlose : h8 !! length h4 = Some lose).
  { rewrite Hkeep6 by lia. apply list_lookup_insert_eq. lia. }
  do 3 (split; [assumption|]).
  split; [|split].
  - split; [|split].
    + rewrite (obj_field_agree _ _ _ _ (Hheap (length h2) ltac:(lia))).
      rewrite (obj_field_agree h4) by (apply Hkeep; lia).
      unfold h4. now rewrite obj_field_insert_ne by lia.
    + unfold list_items. rewrite (Hheap la ltac:(lia)), Hkeep by lia.
      unfold h4. now rewrite list_lookup_insert_eq by lia.
    + rewrite (read_named_agree h8) by (apply Hheap; lia).
      apply read_named_intro; rewrite (obj_field_cell _ _ _ _ _ Hwin).
      * rewrite assoc_set_field_ne by discriminate. apply assoc_set_field_eq.
      * apply assoc_set_field_eq.
  - split; [|split; [|split; [|split]]].
    + now rewrite (obj_field_agree _ _ _ _ (Hheap (length h6) ltac:(lia))).
    + unfold list_items. now rewrite (Hheap lkl ltac:(lia)), Fkc8.
    + now rewrite (obj_field_agree _ _ _ _ (Hheap (length h7) ltac:(lia))).
    + unfold list_items. now rewrite (Hheap lal ltac:(lia)), Falc8.
    + rewrite (read_named_agree h8) by (apply Hheap; lia).
      apply read_named_intro; rewrite (obj_field_cell _ _ _ _ _ Hlose).
      * rewrite assoc_set_field_ne by discriminate. apply assoc_set_field_eq.
      * apply assoc_set_field_eq.
  - intros H. injection H as H. lia.
Qed.

(** X23.  When the service description has no [ArrayOfKeyList], the lookup
    of line 222 fails inside the [try], the error is dropped, and line 228
    finds [losing_lead_key_list] unbound: [merge_leads] raises
    [UnboundLocalError], no header is made and nothing is sent. *)
Theorem merge_leads_unbound s self U K fs_attr fs_arr winning losing :
  ready s self U K ->
  has_type s self "Attribute" fs_attr ->
  has_type s self "ArrayOfAttribute" fs_arr ->
  assoc "attribute" fs_arr = Some ShList ->
  mem_str "ArrayOfKeyList" (suds_types s) = false ->
  mem_str "ArrayOfKeyList" (suds_methods s) = false ->
  exists s',
    merge_leads self winning losing s
      = (Raise (UnboundLocalError "losing_lead_key_list"), s') /\
    calls s' = calls s /\ clock s' = clock s.
Proof.
  intros Hr Hattr Harr Hfield Ht Hm.
  destruct (ready_reaches _ _ _ _ Hr) as (inst & Hc & _ & _).
  pose proof Hr as (Hn & _ & _). pose proof Hc as (Hi & _).
  destruct (new_object_explicit s self inst "Attribute" fs_attr Hc Hn eq_refl Hattr)
    as (h1 & E1 & Hlen1 & Hold1 & Hp1).
  pose proof (placed_object _ _ _ _ Hp1) as Hcell1.
  set (l0 := length (heap s)) in *.
  set (win := HObject "Attribute"
                (set_field "attrValue" winning
                   (set_field "attrName" (VStr "IDNUM")
                      (fst (fill_fields (S l0) fs_attr))))).
  set (h2 := <[l0 := win]> h1).
  assert (Hlen2 : length h2 = length h1) by apply length_insert.
  destruct (new_object_explicit (set_heap s h2) self inst "ArrayOfAttribute" fs_arr
              Hc Hn eq_refl Harr) as (h3 & E3 & Hlen3 & Hold3 & Hp3).
  norm in Hlen3 Hold3 Hp3.
  destruct (placed_field_list _ _ _ _ _ Hp3 Hfield) as (la & Hla & Fa & Fac).
  pose proof (lookup_lt_Some _ _ _ Fac) as Hla_lt.
  set (h4 := <[la := HList ([] ++ [VRef l0])]> h3).
  assert (Hlen4 : length h4 = length h3) by apply length_insert.
  destruct (new_object_explicit (set_heap s h4) self inst "Attribute" fs_attr
              Hc Hn eq_refl Hattr) as (h5 & E5 & Hlen5 & Hold5 & Hp5).
  norm in Hlen5 Hold5 Hp5.
  pose proof (placed_object _ _ _ _ Hp5) as Hcell5.
  set (lose := HObject "Attribute"
                 (set_field "attrValue" losing
                    (set_field "attrName" (VStr "IDNUM")
                       (fst (fill_fields (S (length h4)) fs_attr))))).
  set (h6 := <[length h4 := lose]> h5).
  assert (E7 : self_getattribute self "ArrayOfKeyList" (set_heap s h6)
               = (Raise (AttributeError "ArrayOfKeyList"), set_heap s h6)).
  { rewrite (self_getattribute_eq (set_heap s h6) self inst _ Hi Hn).
    rewrite getattribute_fallback by (right; split; assumption).
    now apply static_missing with inst. }
  exists (set_heap s h6). split; [|now split].
  unfold merge_leads.
  rewrite (bind_ok _ _ _ _ _ E1).
  erewrite bind_ok by (apply setattr_object; norm; exact Hcell1). norm.
  erewrite bind_ok
    by (apply setattr_object; norm; apply list_lookup_insert_eq; lia).
  norm. rewrite list_insert_insert_eq. fold win h2.
  change {| heap := h2; suds_types := suds_types s;
            suds_methods := suds_methods s; instances := instances s;
            calls := calls s; clock := clock s |} with (set_heap s h2).
  rewrite (bind_ok _ _ _ _ _ E3).
  rewrite (bind_ok _ _ _ _ _ (getattr_field (set_heap s h3) _ _ _ Fa)).
  erewrite bind_ok by (apply call_append_list; norm; exact Fac).
  norm. fold h4.
  erewrite (bind_ok (try_pass _)).
  2: { apply try_pass_raise with (e := AttributeError "ArrayOfKeyList").
       change {| heap := h4; suds_types := suds_types s;
                 suds_methods := suds_methods s; instances := instances s;
                 calls := calls s; clock := clock s |} with (set_heap s h4).
       rewrite (bind_ok _ _ _ _ _ E5).
       erewrite bind_ok
         by (apply setattr_object; norm; exact Hcell5). norm.
       erewrite bind_ok
         by (apply setattr_object; norm; apply list_lookup_insert_eq; lia).
       norm. rewrite list_insert_insert_eq. fold lose h6.
       change {| heap := h6; suds_types := suds_types s;
                 suds_methods := suds_methods s; instances := instances s;
                 calls := calls s; clock := clock s |} with (set_heap s h6).
       apply bind_raise. exact E7. }
  cbv beta iota.
  rewrite (bind_ok _ _ _ _ _
    (getattribute_bound (set_heap s h6) self inst "call_service" Hi Hn eq_refl)).
  reflexivity.
Qed.

(** ** Malformed attributes *)

Lemma for_each_app {A} (xs ys : list A) (body : A -> M unit) s :
  for_each (xs ++ ys) body s = (for_each xs body ;;; for_each ys body) s.
Proof.
  revert s. induction xs as [|x xs IH]; intros s; simpl.
  - now rewrite bind_ret.
  - rewrite bind_assoc. apply bind_ext. intros [] s'. apply IH.
Qed.

(** The loop of [build_lead_record] over well-formed triples ends, and
    changes nothing but the heap. *)
Lemma attribute_loop s self inst fs_attr list_obj la h triples :
  reaches_client s self inst ->
  has_type s self "Attribute" fs_attr ->
  obj_field h (VRef list_obj) "attribute" = Some (VRef la) ->
  list_obj < length h -> list_obj <> la ->
  h !! la = Some (HList []) ->
  exists h',
    for_each (map triple triples)
      (fun attr =>
         attribute <- getattribute self "Attribute" ;;
         abc <- unpack3 attr ;;
         setattr attribute "attrName" (fst (fst abc)) ;;;
         setattr attribute "attrType" (snd (fst abc)) ;;;
         setattr attribute "attrValue" (snd abc) ;;;
         l <- getattr (VRef list_obj) "attribute" ;;
         call_append l attribute) (set_heap s h)
    = (Ok tt, set_heap s h') /\
    length h <= length h'.
Proof.
  intros Hc Hattr F Hlt Hne Hla.
  destruct (for_each_append s
              (fun attr =>
                 attribute <- getattribute self "Attribute" ;;
                 abc <- unpack3 attr ;;
                 setattr attribute "attrName" (fst (fst abc)) ;;;
                 setattr attribute "attrType" (snd (fst abc)) ;;;
                 setattr attribute "attrValue" (snd abc) ;;;
                 l <- getattr (VRef list_obj) "attribute" ;;
                 call_append l attribute)
              triple la
              (fun h0 => obj_field h0 (VRef list_obj) "attribute" = Some (VRef la)
                        /\ length h <= length h0)
              (fun h0 a t => length h <= a /\ a < length h0
                            /\ read_attribute h0 (VRef a) = Some t))
    with (ts := triples) (h := h) (items := @nil value)
    as (h4 & locs & E4 & Hlen4 & _).
  { intros h0 h' [HI1 HI2] Hle Hag. split; [|lia].
    rewrite (obj_field_agree h0); [assumption|]. apply Hag; lia. }
  { intros h0 h' a t (H1 & H2 & H3) Hag. repeat split; [assumption| |].
    - apply lookup_lt_is_Some. rewrite Hag. now apply lookup_lt_is_Some.
    - now rewrite (read_attribute_agree h0). }
  { intros h0 items t [HI1 HI2] Hitems.
    apply (attribute_round s self inst fs_attr); try assumption; lia. }
  { split; [assumption|lia]. }
  { assumption. }
  now exists h4.
Qed.

(** X24.  An attribute of a lead that is not a triple stops [sync_lead]:
    the unpacking of line 91 raises [ValueError] once the attributes before
    it have been built, and the error reaches the caller; no header is made
    and nothing is sent. *)
Theorem sync_lead_malformed_attribute s self U K fs_rec fs_arr fs_attr
    email good bad rest return_lead :
  length bad <> 3 ->
  ready s self U K ->
  has_type s self "LeadRecord" fs_rec ->
  has_type s self "ArrayOfAttribute" fs_arr ->
  assoc "attribute" fs_arr = Some ShList ->
  has_type s self "Attribute" fs_attr ->
  exists s',
    sync_lead self email (VTuple (map triple good ++ VTuple bad :: rest))
      return_lead s
      = (Raise ValueError, s') /\
    calls s' = calls s /\ clock s' = clock s.
Proof.
  intros Hbad Hr Hrec Harr Hfield Hattr.
  destruct (ready_reaches _ _ _ _ Hr) as (inst & Hc & _ & _).
  pose proof Hr as (Hn & _ & _). pose proof Hc as (Hi & _).
  destruct (new_object s self inst "LeadRecord" fs_rec Hc eq_refl Hrec)
    as (h1 & E1 & Hlen1 & Hold1 & Hp1).
  pose proof (placed_object _ _ _ _ Hp1) as Hcell.
  set (l0 := length (heap s)) in *.
  set (rec1 := HObject "LeadRecord"
                 (set_field "Email" email (fst (fill_fields (S l0) fs_rec)))).
  set (h2 := <[l0 := rec1]> h1).
  assert (Hlen2 : length h2 = length h1) by apply length_insert.
  destruct (new_object (set_heap s h2) self inst "ArrayOfAttribute" fs_arr
              Hc eq_refl Harr)
    as (h3 & E3 & Hlen3 & Hold3 & Hp3).
  norm in Hlen3 Hold3 Hp3.
  destruct (placed_field_list _ _ _ _ _ Hp3 Hfield) as (la & Hla & Fa & Fc).
  destruct (attribute_loop s self inst fs_attr (length h2) la h3 good
              Hc Hattr Fa ltac:(lia) ltac:(lia) Fc)
    as (h4 & E4 & Hlen4).
  destruct (new_object (set_heap s h4) self inst "Attribute" fs_attr
              Hc eq_refl Hattr)
    as (h5 & E5 & Hlen5 & Hold5 & Hp5).
  exists (set_heap s h5). split; [|now split].
  unfold sync_lead. apply bind_raise.
  rewrite (call_self_method s self inst "build_lead_record" _ _ Hi Hn eq_refl).
  unfold build_lead_record.
  rewrite (bind_ok _ _ _ _ _ E1).
  erewrite bind_ok by (apply setattr_object; norm; exact Hcell).
  norm. fold rec1 h2.
  change {| heap := h2; suds_types := suds_types s;
            suds_methods := suds_methods s; instances := instances s;
            calls := calls s; clock := clock s |} with (set_heap s h2).
  rewrite (bind_ok _ _ _ _ _ E3).
  unfold py_iter at 1. unfold bind at 1.
  change (set_heap (set_heap s h2) h3) with (set_heap s h3).
  apply bind_raise. rewrite for_each_app.
  rewrite (bind_ok _ _ _ _ _ E4).
  cbn [for_each]. apply bind_raise.
  rewrite (bind_ok _ _ _ _ _ E5).
  apply bind_raise. unfold unpack3, py_iter. unfold bind at 1.
  destruct bad as [|a [|b [|c [|d bad']]]]; try reflexivity.
  now contradiction Hbad.
Qed.

End Facade.

(* ===================================================================== *)
(** * The properties on concrete facades                                  *)
(* ===================================================================== *)

Example sha1_abc :
  hexdigest (sha1 (bytes_of_string "abc"))
  = "a9993e364706816aba3e25717850c26c9cd0d89d".
Proof. vm_compute. reflexivity. Qed.

Example sha1_empty :
  hexdigest (sha1 []) = "da39a3ee5e6b4b0d3255bfef95601890afd80709".
Proof. vm_compute. reflexivity. Qed.

Example sha1_two_blocks :
  hexdigest (sha1 (bytes_of_string
    "abcdbcdecdefdefgefghfghighijhijkijkljklmklmnlmnomnopnopq"))
  = "84983e441c3bd26ebaae4aa1f95129e5e54670f1".
Proof. vm_compute. reflexivity. Qed.

Example sign_rfc2202_2 :
  sign "what do ya want for nothing?" "Jefe"
  = "effcdf6ae5eb2fa2d27416d5f184df9c259a7c79".
Proof. vm_compute. reflexivity. Qed.

(** RFC 2202, case 6: a key longer than one block is hashed first. *)
Example sign_rfc2202_6 :
  sign "Test Using Larger Than Block-Size Key - Hash Key First"
       (string_of_list_ascii (repeat (ascii_of_nat 170) 80))
  = "aa4ae5e15272d00e95705637ce8a3b55ed402112".
Proof. vm_compute. reflexivity. Qed.

Example sign_fox :
  sign "The quick brown fox jumps over the lazy dog" "key"
  = "de7c9b85b8b78aa6bc8a7a36f70a90701c9db4d9".
Proof. vm_compute. reflexivity. Qed.

(** The sample states are what [__init__] leaves behind. *)
Example one_client_built :
  init sample_respond (VStr "https://na-x.marketo.com/soap/mktows/2_3")
    (VStr "bob") (VStr "secret") marketo_wsdl boot = (Ok 0, one_client).
Proof. reflexivity. Qed.

Example shadow_client_built :
  init sample_respond (VStr "https://na-x.marketo.com/soap/mktows/2_3")
    (VStr "bob") (VStr "secret") shadow_wsdl boot = (Ok 0, shadow_client).
Proof. reflexivity. Qed.

Example no_attribute_client_built :
  init sample_respond (VStr "https://na-x.marketo.com/soap/mktows/2_3")
    (VStr "bob") (VStr "secret") no_attribute_wsdl boot
  = (Ok 0, client_of no_attribute_wsdl).
Proof. reflexivity. Qed.

Example no_key_list_client_built :
  init sample_respond (VStr "https://na-x.marketo.com/soap/mktows/2_3")
    (VStr "bob") (VStr "secret") no_key_list_wsdl boot
  = (Ok 0, client_of no_key_list_wsdl).
Proof. reflexivity. Qed.

(** Facts about a concrete facade, by computation. *)
Ltac known :=
  unfold ready, has_type, has_method, reaches_client, layout;
  repeat first [ reflexivity | split | eexists ].

(** ** Signing *)

Lemma request_signature_witness :
  exists s' inst',
    set_header sample_clock 0 one_client = (Ok VNone, s') /\
    instances s' !! 0 = Some inst' /\
    obj_field (heap s') (soapheaders (suds_client inst')) "requestSignature"
      = Some (VStr (spec_signature (sample_clock 0) "bob" "secret")).
Proof.
  destruct (request_signature sample_clock one_client 0 "bob" "secret")
    as (s' & inst' & E & Hi & H1 & _); [known|].
  exists s', inst'. repeat split; assumption.
Defined.

(** ** Attribute lookup *)


(** The other outcomes of a lookup among the SOAP names, on concrete
    facades: a type that only a later facade's description declares, and a
    description with an operation called [suds_client]. *)
Example two_clients_built :
  init sample_respond (VStr "https://na-y.marketo.com/soap/mktows/2_3")
    (VStr "alice") (VStr "other") marketo_wsdl_full one_client
  = (Ok 1, two_clients).
Proof. vm_compute. reflexivity. Qed.

Example type_of_another_facade :
  mem_str "CustomObj" (suds_types two_clients) = true /\
  getattribute 0 "CustomObj" two_clients
    = (Raise (TypeNotFound "CustomObj"), two_clients) /\
  exists cells,
    getattribute 1 "CustomObj" two_clients
    = (Ok (VRef 0), set_heap two_clients cells).
Proof.
  split; [vm_compute; reflexivity|]. split; [vm_compute; reflexivity|].
  eexists. vm_compute. reflexivity.
Qed.

Example client_shadowed_built :
  init sample_respond (VStr "https://na-x.marketo.com/soap/mktows/2_3")
    (VStr "bob") (VStr "secret") client_operation_wsdl boot
  = (Ok 0, client_of client_operation_wsdl).
Proof. reflexivity. Qed.

Example lookup_never_ends :
  client_shadowed (client_of client_operation_wsdl) = true /\
  getattribute 0 "Attribute" (client_of client_operation_wsdl)
    = (Raise RuntimeError, client_of client_operation_wsdl) /\
  getattribute 0 "getLead" (client_of client_operation_wsdl)
    = (Raise RuntimeError, client_of client_operation_wsdl) /\
  getattribute 0 "user_id" (client_of client_operation_wsdl)
    = (Ok (VStr "bob"), client_of client_operation_wsdl).
Proof. repeat split; vm_compute; reflexivity. Qed.


Lemma type_access_fresh_witness :
  exists cells1,
    getattribute 0 "Attribute" one_client
      = (Ok (VRef 0), set_heap one_client cells1) /\
    pristine 0 cells1 = true /\
    exists cells2,
      getattribute 0 "Attribute" (set_heap one_client cells1)
        = (Ok (VRef (length cells1)), set_heap one_client (cells1 ++ cells2)) /\
      length cells1 <> 0 /\
      pristine (length cells1) cells2 = true.
Proof.
  destruct (type_access_fresh one_client 0 bob "Attribute"
              (layout marketo_wsdl "Attribute") eq_refl eq_refl eq_refl eq_refl)
    as [_ Hreached].
  destruct (Hreached eq_refl) as (cells1 & E1 & _ & Hp1 & Hnext).
  exists cells1. split; [exact E1|]. split; [exact Hp1|].
  destruct (Hnext cells1 (le_n _)) as (cells2 & E2 & Hne & _ & Hp2 & _).
  exists cells2. repeat split; assumption.
Defined.

(** C5, as stated, fails for the structured type called [suds_types]: two
    accesses give the same list, and what is appended through the first is
    seen through the second. *)
Lemma reserved_name_is_shared :
  mem_str "suds_types" (suds_types shadow_client) = true /\
  getattribute 0 "suds_types" shadow_client
    = (Ok (VClassAttr "suds_types"), shadow_client) /\
  exists s2,
    call_append sample_respond (VClassAttr "suds_types") (VStr "touched")
      shadow_client = (Ok tt, s2) /\
    getattribute 0 "suds_types" s2 = (Ok (VClassAttr "suds_types"), s2) /\
    class_list s2 "suds_types"
      = [VStr "suds_types"; VStr "Attribute"; VStr "touched"].
Proof.
  split; [reflexivity|]. split; [reflexivity|].
  eexists. split; [reflexivity|]. split; reflexivity.
Qed.

(** ** Construction *)

(** C6: a second [Client(...)] appends to the two lists of the class, the
    very lists the first facade reads: they are longer afterwards. *)
Theorem second_client_changes_shared_lists :
  exists s2,
    init sample_respond (VStr "https://na-y.marketo.com/soap/mktows/2_3")
      (VStr "alice") (VStr "other") marketo_wsdl one_client = (Ok 1, s2) /\
    suds_types s2 = suds_types one_client ++ suds_types one_client /\
    suds_methods s2 = suds_methods one_client ++ suds_methods one_client /\
    suds_types s2 <> suds_types one_client /\
    getattribute 0 "suds_types" one_client
      = (Ok (VClassAttr "suds_types"), one_client) /\
    getattribute 0 "suds_types" s2 = (Ok (VClassAttr "suds_types"), s2) /\
    length (class_list s2 "suds_types")
      = 2 * length (class_list one_client "suds_types").
Proof.
  destruct (init_appends sample_respond one_client
              (VStr "https://na-y.marketo.com/soap/mktows/2_3")
              (VStr "alice") (VStr "other") marketo_wsdl eq_refl eq_refl)
    as (inst & E & _).
  eexists. split; [exact E|]. repeat split.
  intros H. apply (f_equal (@length string)) in H. discriminate H.
Qed.

(** ** The builders *)

Lemma get_lead_email_witness :
  exists s' c lead_key,
    get_lead sample_clock sample_respond 0 (VStr "a@b.com") (VStr "Email")
      one_client = (sample_respond 0, s') /\
    calls s' = [c] /\
    call_op c = "getLead" /\
    call_args c = [lead_key] /\
    obj_field (call_heap c) lead_key "keyType" = Some (VStr "EMAIL") /\
    obj_field (call_heap c) lead_key "keyValue" = Some (VStr "a@b.com").
Proof.
  apply (get_lead_email sample_clock sample_respond one_client 0 "bob" "secret"
           (layout marketo_wsdl "LeadKey") (layout marketo_wsdl "LeadKeyRef")
           "EMAIL" (VStr "a@b.com")); known.
Defined.

Lemma get_lead_activity_table_witness :
  (exists s' c key filter inc tokens,
     get_lead_activity sample_clock sample_respond 0 (VStr "cookie")
       (VStr "Score") one_client = (sample_respond 0, s') /\
     calls s' = [c] /\
     call_op c = "getLeadActivity" /\
     call_args c = [key; filter] /\
     obj_field (call_heap c) filter "includeTypes" = Some inc /\
     obj_field (call_heap c) inc "activityType" = Some tokens /\
     list_items (call_heap c) tokens = Some [VStr "ChangeScore"]) /\
  (exists s',
     get_lead_activity sample_clock sample_respond 0 (VStr "cookie")
       (VStr "Personal Information") one_client = (Ok (VBool true), s') /\
     calls s' = []).
Proof.
  destruct (get_lead_activity_table sample_clock sample_respond one_client 0
              "bob" "secret" (layout marketo_wsdl "LeadKey")
              (layout marketo_wsdl "ActivityTypeFilter") (VStr "cookie"))
    as [HA HB]; [known|known|known|].
  split.
  - apply (HA "ArrayOfActivityType" [("activityType", ShList)]); known.
  - apply (HB (VStr "Personal Information")); reflexivity.
Defined.

Lemma sync_lead_record_witness :
  exists s' c record arr lst items,
    sync_lead sample_clock sample_respond 0 (VStr "a@b.com")
      (VTuple [VTuple [VStr "FirstName"; VStr "string"; VStr "Bob"]])
      (VBool false) one_client = (sample_respond 0, s') /\
    calls s' = [c] /\
    call_op c = "syncLead" /\
    call_args c = [record; VBool false] /\
    obj_field (call_heap c) record "Email" = Some (VStr "a@b.com") /\
    obj_field (call_heap c) record "leadAttributeList" = Some arr /\
    obj_field (call_heap c) arr "attribute" = Some lst /\
    list_items (call_heap c) lst = Some items /\
    map (read_attribute (call_heap c)) items
      = [Some (VStr "FirstName", VStr "string", VStr "Bob")].
Proof.
  apply (sync_lead_record sample_clock sample_respond one_client 0 "bob" "secret"
           (layout marketo_wsdl "LeadRecord")
           (layout marketo_wsdl "ArrayOfAttribute")
           (layout marketo_wsdl "Attribute") (VStr "a@b.com")
           [(VStr "FirstName", VStr "string", VStr "Bob")] (VBool false)); known.
Defined.

Lemma sync_m_objects_opportunity_witness :
  exists s' c mObjectList operation' objs mObject al lst items,
    sync_m_objects sample_clock sample_respond 0 (VStr "UPSERT")
      (VStr "Opportunity")
      (VTuple [VTuple [VStr "Name"; VStr "deal"]; VTuple [VStr "Id"; VInt 7]])
      (VBool false) VNone one_client = (sample_respond 0, s') /\
    calls s' = [c] /\
    call_op c = "syncMObjects" /\
    call_args c = [mObjectList; operation'] /\
    obj_field (call_heap c) mObjectList "mObject" = Some objs /\
    list_items (call_heap c) objs = Some [mObject] /\
    obj_field (call_heap c) mObject "type" = Some (VStr "Opportunity") /\
    obj_field (call_heap c) mObject "attribList" = Some al /\
    obj_field (call_heap c) al "attrib" = Some lst /\
    list_items (call_heap c) lst = Some items /\
    map (read_attrib (call_heap c)) items
      = [Some (VStr "Name", VStr "deal"); Some (VStr "Id", VInt 7)].
Proof.
  apply (sync_m_objects_opportunity sample_clock sample_respond one_client 0
           "bob" "secret" (layout marketo_wsdl "SyncOperationEnum")
           (ShStr "UPSERT") (ShStr "INSERT") (ShStr "UPDATE")
           (layout marketo_wsdl "ArrayOfMObject") (layout marketo_wsdl "MObject")
           "ArrayOfAttrib" [("attrib", ShList)]
           (layout marketo_wsdl "TypeAttrib") (layout marketo_wsdl "ArrayOfAttrib")
           (layout marketo_wsdl "Attrib") (VStr "UPSERT")
           [(VStr "Name", VStr "deal"); (VStr "Id", VInt 7)] VNone); known.
Defined.

(** ** Merging leads *)



(** When the [try] body fails before line 222 has bound
    [losing_lead_key_list], line 228 finds the name unbound. *)
Example merge_leads_unbound_name :
  exists s',
    merge_leads sample_clock sample_respond 0 (VInt 1) (VInt 2)
      (client_of no_key_list_wsdl)
    = (Raise (UnboundLocalError "losing_lead_key_list"), s') /\
    calls s' = [].
Proof. eexists. split; reflexivity. Qed.

(** ** Requesting a campaign *)

Lemma request_campaign_needs_tokens_witness :
  exists e s',
    request_campaign sample_clock sample_respond 0 VNone (VInt 1001)
      (VTuple [VTuple [VStr "EMAIL"; VStr "a@b.com"]]) VNone VNone VNone
      one_client = (Raise e, s') /\
    is_local_error e = true /\
    calls s' = calls one_client.
Proof.
  apply (request_campaign_needs_tokens sample_clock sample_respond one_client 0
           bob); [reflexivity|reflexivity|left; reflexivity].
Defined.

Example request_campaign_default_tokens :
  fst (request_campaign sample_clock sample_respond 0 VNone (VInt 1001)
         (VTuple [VTuple [VStr "EMAIL"; VStr "a@b.com"]]) VNone VNone VNone
         one_client) = Raise TypeError.
Proof. reflexivity. Qed.

Example request_campaign_one_token :
  fst (request_campaign sample_clock sample_respond 0 VNone (VInt 1001)
         (VTuple []) VNone VNone (VTuple [VStr "token"]) one_client)
  = Raise IndexError.
Proof. reflexivity. Qed.

(** ** Further builders *)

Lemma get_lead_known_key_type_witness :
  exists s' c lead_key,
    get_lead sample_clock sample_respond 0 (VStr "id:287cb2") (VStr "Cookie")
      one_client = (sample_respond 0, s') /\
    calls s' = calls one_client ++ [c] /\
    call_op c = "getLead" /\
    call_args c = [lead_key] /\
    obj_field (call_heap c) lead_key "keyType" = Some (VStr "COOKIE") /\
    obj_field (call_heap c) lead_key "keyValue" = Some (VStr "id:287cb2").
Proof.
  apply (get_lead_known_key_type sample_clock sample_respond one_client 0
           "bob" "secret"
           (layout marketo_wsdl "LeadKey") (layout marketo_wsdl "LeadKeyRef")
           "Cookie" "COOKIE" "COOKIE" (VStr "id:287cb2")
           (or_intror (or_introl eq_refl))); known.
Defined.

Lemma get_lead_unknown_key_type_witness :
  exists s' c,
    get_lead sample_clock sample_respond 0 (VStr "a@b.com") (VStr "EMAIL")
      one_client = (sample_respond 0, s') /\
    calls s' = calls one_client ++ [c] /\
    call_op c = "getLead" /\
    call_args c = [VRef (length (heap one_client))] /\
    call_heap c !! length (heap one_client)
      = Some (HObject "LeadKey"
                (set_field "keyValue" (VStr "a@b.com")
                   (fst (fill_fields (S (length (heap one_client)))
                           (layout marketo_wsdl "LeadKey"))))).
Proof.
  apply (get_lead_unknown_key_type sample_clock sample_respond one_client 0
           "bob" "secret" (layout marketo_wsdl "LeadKey")
           (VStr "EMAIL") (VStr "a@b.com") eq_refl eq_refl eq_refl); known.
Defined.

Lemma get_lead_activity_categories_witness :
  exists s' c key filter inc tokens,
    get_lead_activity sample_clock sample_respond 0 (VStr "id:287cb2")
      (VStr "Email Activity") one_client = (sample_respond 0, s') /\
    calls s' = calls one_client ++ [c] /\
    call_op c = "getLeadActivity" /\
    call_args c = [key; filter] /\
    obj_field (call_heap c) key "keyType" = Some (VStr "EMAIL") /\
    obj_field (call_heap c) key "keyValue" = Some (VStr "id:287cb2") /\
    obj_field (call_heap c) filter "includeTypes" = Some inc /\
    obj_field (call_heap c) inc "activityType" = Some tokens /\
    list_items (call_heap c) tokens
      = Some (map VStr ["SendEmail"; "EmailBounced"; "UnsubscribeEmail";
                        "OpenEmail"; "ClickEmail"; "OpenSalesEmail";
                        "ClickSalesEmail"]).
Proof.
  apply (get_lead_activity_categories sample_clock sample_respond one_client 0
           "bob" "secret" (layout marketo_wsdl "LeadKey")
           (layout marketo_wsdl "ActivityTypeFilter")
           "ArrayOfActivityType" [("activityType", ShList)]
           (VStr "id:287cb2") "Email Activity" "EMAIL" _
           (or_intror (or_introl eq_refl))); known.
Defined.

(** ** Sending *)

Lemma call_service_request_witness :
  exists s' c,
    call_service sample_clock sample_respond 0 "getLead" [VStr "key"] one_client
      = (sample_respond 0, s') /\
    calls s' = [c] /\
    call_args c = [VStr "key"] /\
    read_header (call_heap c) (call_headers c)
      = Some (header_at sample_clock 0 "bob" "secret") /\
    clock s' = 1.
Proof.
  destruct (call_service_request sample_clock sample_respond one_client 0
              "bob" "secret" "getLead" [VStr "key"])
    as (s' & c & E & Hc & _ & _ & Ha & _ & Hh & _ & Hk & _); [known ..|].
  exists s', c. repeat split; assumption.
Defined.

Lemma call_service_fresh_headers_witness :
  exists s1 s2 c1 c2,
    call_service sample_clock sample_respond 0 "getLead" [VStr "a"] one_client
      = (sample_respond 0, s1) /\
    call_service sample_clock sample_respond 0 "syncLead" [VStr "b"] s1
      = (sample_respond 1, s2) /\
    calls s2 = [c1; c2] /\
    call_headers c1 <> call_headers c2.
Proof.
  destruct (call_service_fresh_headers sample_clock sample_respond one_client 0
              "bob" "secret" "getLead" [VStr "a"] "syncLead" [VStr "b"])
    as (s1 & s2 & c1 & c2 & E1 & E2 & Hc & _ & _ & _ & _ & Hne & _);
    [known ..|].
  exists s1, s2, c1, c2. repeat split; assumption.
Defined.

Lemma call_service_unknown_name_witness :
  exists s',
    call_service sample_clock sample_respond 0 "getLeads" [VStr "key"] one_client
      = (Raise (AttributeError "getLeads"), s') /\
    calls s' = [] /\ clock s' = 1.
Proof.
  destruct (call_service_unknown_name sample_clock sample_respond one_client 0
              "bob" "secret" "getLeads" [VStr "key"])
    as (s' & E & Hc & Hk & _); [known ..|].
  exists s'. repeat split; assumption.
Defined.

Lemma call_service_type_name_witness :
  exists s',
    call_service sample_clock sample_respond 0 "LeadKey" [] one_client
      = (Raise NotCallable, s') /\
    calls s' = [] /\ clock s' = 1.
Proof.
  destruct (call_service_type_name sample_clock sample_respond one_client 0
              "bob" "secret" "LeadKey" (layout marketo_wsdl "LeadKey") [])
    as (s' & E & _ & Hc & Hk); [known ..|].
  exists s'. repeat split; assumption.
Defined.

Lemma describe_m_objects_request_witness :
  exists s' c,
    describe_m_objects sample_clock sample_respond 0 (VStr "Opportunity")
      one_client = (sample_respond 0, s') /\
    calls s' = [c] /\
    call_op c = "describeMObject" /\
    call_args c = [VStr "Opportunity"].
Proof.
  destruct (describe_m_objects_request sample_clock sample_respond one_client 0
              "bob" "secret" (VStr "Opportunity"))
    as (s' & c & E & Hc & Ho & Ha & _); [known ..|].
  exists s', c. repeat split; assumption.
Defined.

Lemma direct_call_keeps_header_witness :
  exists f s1 s' c,
    getattribute 0 "getLead" one_client = (Ok f, s1) /\
    invoke sample_respond f [VStr "key"] s1 = (sample_respond 0, s') /\
    calls s' = [c] /\
    call_headers c = VNone /\
    clock s' = 0.
Proof.
  destruct (direct_call_keeps_header sample_respond one_client 0 bob "getLead"
              [VStr "key"])
    as (f & s1 & s' & c & E1 & E2 & Hc & _ & _ & Hh & Hk & _); [known ..|].
  exists f, s1, s', c. repeat split; assumption.
Defined.

(** ** Construction, again *)

Lemma init_makes_ready_witness :
  exists s',
    init sample_respond (VStr "https://na-x.marketo.com/soap/mktows/2_3")
      (VStr "bob") (VStr "secret") marketo_wsdl boot = (Ok 0, s') /\
    ready s' 0 "bob" "secret" /\
    has_type s' 0 "LeadKey" (layout marketo_wsdl "LeadKey").
Proof.
  destruct (init_makes_ready sample_respond boot
              (VStr "https://na-x.marketo.com/soap/mktows/2_3")
              "bob" "secret" marketo_wsdl
              (layout marketo_wsdl "AuthenticationHeaderInfo") eq_refl eq_refl)
    as (s' & E & _ & _ & _ & Hr & Ht & _).
  exists s'. split; [exact E|]. split; [exact Hr|]. apply Ht. reflexivity.
Defined.

Lemma init_changes_other_facade_witness :
  exists s',
    init sample_respond (VStr "https://na-y.marketo.com/soap/mktows/2_3")
      (VStr "alice") (VStr "other") marketo_wsdl_full one_client = (Ok 1, s') /\
    getattribute 0 "CustomObj" one_client
      = (Raise (AttributeError "CustomObj"), one_client) /\
    getattribute 0 "CustomObj" s' = (Raise (TypeNotFound "CustomObj"), s').
Proof.
  apply (init_changes_other_facade sample_respond one_client
           (VStr "https://na-y.marketo.com/soap/mktows/2_3")
           (VStr "alice") (VStr "other") marketo_wsdl_full 0 bob "CustomObj"
           (layout marketo_wsdl_full "CustomObj")); reflexivity.
Defined.

(** ** The sync requests *)

Lemma sync_operation_passes_witness :
  exists h',
    sync_operation sample_respond 0 (VStr "INSERT") one_client
      = (Ok (VStr "INSERT"), set_heap one_client h').
Proof.
  destruct (sync_operation_passes sample_respond one_client 0 "bob" "secret"
              (layout marketo_wsdl "SyncOperationEnum") (VStr "INSERT"))
    as (h' & E & _); [known ..|].
  exists h'. exact E.
Defined.

Lemma sync_m_objects_person_role_witness :
  exists s' c mObjectList operation',
    sync_m_objects sample_clock sample_respond 0 (VStr "UPSERT")
      (VStr "OpportunityPersonRole")
      (VTuple [VTuple [VStr "OpportunityId"; VInt 7];
               VTuple [VStr "PersonId"; VInt 12]])
      (VBool false) VNone one_client = (sample_respond 0, s') /\
    calls s' = [c] /\
    call_args c = [mObjectList; operation'].
Proof.
  destruct (sync_m_objects_person_role sample_clock sample_respond one_client 0
              "bob" "secret" (layout marketo_wsdl "SyncOperationEnum")
              (ShStr "UPSERT") (ShStr "INSERT") (ShStr "UPDATE")
              (layout marketo_wsdl "ArrayOfMObject") (layout marketo_wsdl "MObject")
              "ArrayOfAttrib" [("attrib", ShList)]
              (layout marketo_wsdl "TypeAttrib") (layout marketo_wsdl "ArrayOfAttrib")
              (layout marketo_wsdl "Attrib") (VStr "UPSERT")
              [(VStr "OpportunityId", VInt 7); (VStr "PersonId", VInt 12)]
              (VBool false) VNone)
    as (s' & c & l & o & _ & _ & _ & _ & _ & E & Hc & _ & Ha & _);
    [known ..|].
  exists s', c, l, o. repeat split; assumption.
Defined.

Lemma sync_m_objects_existing_witness :
  exists s' c mObjectList operation' objs mObject,
    sync_m_objects sample_clock sample_respond 0 (VStr "UPDATE")
      (VStr "Opportunity") VNone (VBool true) (VInt 7) one_client
      = (sample_respond 0, s') /\
    calls s' = [c] /\
    call_args c = [mObjectList; operation'] /\
    obj_field (call_heap c) mObjectList "mObject" = Some objs /\
    list_items (call_heap c) objs = Some [mObject] /\
    obj_field (call_heap c) mObject "id" = Some (VInt 7).
Proof.
  destruct (sync_m_objects_existing sample_clock sample_respond one_client 0
              "bob" "secret" (layout marketo_wsdl "SyncOperationEnum")
              (ShStr "UPSERT") (ShStr "INSERT") (ShStr "UPDATE")
              (layout marketo_wsdl "ArrayOfMObject") (layout marketo_wsdl "MObject")
              "ArrayOfAttrib" [("attrib", ShList)]
              (layout marketo_wsdl "TypeAttrib") (layout marketo_wsdl "ArrayOfAttrib")
              (VStr "UPDATE") VNone (VBool true) (VInt 7) (fun _ => eq_refl))
    as (s' & c & l & o & objs & m & _ & _ & E & Hc & _ & Ha & H1 & H2 & _ & H3 & _);
    [known ..|].
  exists s', c, l, o, objs, m. repeat split; assumption.
Defined.

Lemma sync_m_objects_other_type_witness :
  exists s' c mObjectList operation' objs,
    sync_m_objects sample_clock sample_respond 0 (VStr "UPSERT")
      (VStr "Lead") VNone (VBool false) VNone one_client
      = (sample_respond 0, s') /\
    calls s' = [c] /\
    call_args c = [mObjectList; operation'] /\
    obj_field (call_heap c) mObjectList "mObject" = Some objs /\
    list_items (call_heap c) objs = Some [].
Proof.
  destruct (sync_m_objects_other_type sample_clock sample_respond one_client 0
              "bob" "secret" (layout marketo_wsdl "SyncOperationEnum")
              (ShStr "UPSERT") (ShStr "INSERT") (ShStr "UPDATE")
              (layout marketo_wsdl "ArrayOfMObject") (layout marketo_wsdl "MObject")
              "ArrayOfAttrib" [("attrib", ShList)]
              (layout marketo_wsdl "TypeAttrib") (layout marketo_wsdl "ArrayOfAttrib")
              (VStr "UPSERT") (VStr "Lead") VNone (VBool false) VNone
              eq_refl eq_refl)
    as (s' & c & l & o & objs & E & Hc & _ & Ha & H1 & H2); [known ..|].
  exists s', c, l, o, objs. repeat split; assumption.
Defined.

Lemma sync_m_objects_needs_oppinfo_witness :
  exists s',
    sync_m_objects sample_clock sample_respond 0 (VStr "UPSERT")
      (VStr "Opportunity") VNone (VBool false) VNone one_client
      = (Raise TypeError, s') /\
    calls s' = [].
Proof.
  destruct (sync_m_objects_needs_oppinfo sample_clock sample_respond one_client 0
              "bob" "secret" (layout marketo_wsdl "SyncOperationEnum")
              (ShStr "UPSERT") (ShStr "INSERT") (ShStr "UPDATE")
              (layout marketo_wsdl "ArrayOfMObject") (layout marketo_wsdl "MObject")
              "ArrayOfAttrib" [("attrib", ShList)]
              (layout marketo_wsdl "TypeAttrib") (layout marketo_wsdl "ArrayOfAttrib")
              (VStr "UPSERT") (VStr "Opportunity") (VBool false) VNone
              (or_introl (conj eq_refl (fun _ => eq_refl))))
    as (s' & E & Hc & _); [known ..|].
  exists s'. split; assumption.
Defined.

Lemma sync_multiple_leads_records_witness :
  exists s' c record_list lst items,
    sync_multiple_leads sample_clock sample_respond 0
      (VTuple [VTuple [VStr "a@b.com";
                       VTuple [VTuple [VStr "FirstName"; VStr "string"; VStr "Ann"]]];
               VTuple [VStr "c@d.com"; VTuple []]])
      (VBool true) full_client = (sample_respond 0, s') /\
    calls s' = [c] /\
    call_args c = [record_list; VBool true] /\
    obj_field (call_heap c) record_list "leadRecord" = Some lst /\
    list_items (call_heap c) lst = Some items /\
    map (read_lead_record (call_heap c)) items
      = [Some (VStr "a@b.com",
               [Some (VStr "FirstName", VStr "string", VStr "Ann")]);
         Some (VStr "c@d.com", [])].
Proof.
  destruct (sync_multiple_leads_records sample_clock sample_respond full_client 0
              "bob" "secret"
              (layout marketo_wsdl_full "ArrayOfLeadRecord")
              (layout marketo_wsdl_full "LeadRecord")
              (layout marketo_wsdl_full "ArrayOfAttribute")
              (layout marketo_wsdl_full "Attribute")
              [(VStr "a@b.com", [(VStr "FirstName", VStr "string", VStr "Ann")]);
               (VStr "c@d.com", [])]
              (VBool true))
    as (s' & c & l & lst & items & E & Hc & _ & Ha & H1 & H2 & _ & H3);
    [known ..|].
  exists s', c, l, lst, items. repeat split; assumption.
Defined.

Lemma sync_custom_objects_lists_witness :
  exists s' c objList operation',
    sync_custom_objects sample_clock sample_respond 0 (VStr "UPSERT")
      (VStr "shoppingcart")
      (VTuple [VTuple [VStr "cartid"; VStr "1"]])
      (VTuple [VTuple [VStr "orderid"; VStr "1"];
               VTuple [VStr "description"; VStr "redbike"]])
      full_client = (sample_respond 0, s') /\
    calls s' = [c] /\
    call_args c = [VStr "shoppingcart"; objList; operation'].
Proof.
  destruct (sync_custom_objects_lists sample_clock sample_respond full_client 0
              "bob" "secret"
              (layout marketo_wsdl_full "ArrayOfCustomObj")
              "ArrayOfAttribute" [("attribute", ShList)]
              "ArrayOfAttribute" [("attribute", ShList)]
              "customObjKeyList" "customObjAttributeList" []
              (layout marketo_wsdl_full "Attribute")
              (layout marketo_wsdl_full "SyncOperationEnum")
              (ShStr "UPSERT") (ShStr "INSERT") (ShStr "UPDATE")
              (VStr "UPSERT") (VStr "shoppingcart")
              [(VStr "cartid", VStr "1")]
              [(VStr "orderid", VStr "1"); (VStr "description", VStr "redbike")])
    as (s' & c & l & o & _ & _ & _ & _ & _ & _ & _ & _ & E & Hc & _ & Ha & _);
    [known ..|].
  exists s', c, l, o. repeat split; assumption.
Defined.

Lemma sync_custom_objects_needs_keys_witness :
  exists s',
    sync_custom_objects sample_clock sample_respond 0 (VStr "UPSERT")
      (VStr "shoppingcart") VNone VNone full_client = (Raise TypeError, s') /\
    calls s' = [].
Proof.
  destruct (sync_custom_objects_needs_keys sample_clock sample_respond
              full_client 0 "bob" "secret"
              (layout marketo_wsdl_full "ArrayOfCustomObj")
              (layout marketo_wsdl_full "CustomObj")
              (VStr "UPSERT") (VStr "shoppingcart") VNone)
    as (s' & E & Hc & _); [known ..|].
  exists s'. split; assumption.
Defined.

Lemma sync_lead_malformed_attribute_witness :
  exists s',
    sync_lead sample_clock sample_respond 0 (VStr "a@b.com")
      (VTuple [VTuple [VStr "FirstName"; VStr "string"; VStr "Ann"];
               VTuple [VStr "LastName"; VStr "Lee"]])
      (VBool false) one_client = (Raise ValueError, s') /\
    calls s' = [].
Proof.
  destruct (sync_lead_malformed_attribute sample_clock sample_respond one_client
              0 "bob" "secret"
              (layout marketo_wsdl "LeadRecord")
              (layout marketo_wsdl "ArrayOfAttribute")
              (layout marketo_wsdl "Attribute")
              (VStr "a@b.com")
              [(VStr "FirstName", VStr "string", VStr "Ann")]
              [VStr "LastName"; VStr "Lee"] [] (VBool false)
              ltac:(discriminate))
    as (s' & E & Hc & _); [known ..|].
  exists s'. split; assumption.
Defined.

(** ** Campaigns and merges *)

Lemma request_campaign_request_witness :
  exists s' c keys kl kitems ptl tl pta,
    request_campaign sample_clock sample_respond 0 VNone (VInt 1001)
      (VTuple [VTuple [VStr "EMAIL"; VStr "a@b.com"];
               VTuple [VStr "EMAIL"; VStr "c@b.com"]])
      VNone VNone (VTuple [VStr "{{my.token}}"; VStr "v"; VStr "left out"])
      one_client = (sample_respond 0, s') /\
    calls s' = [c] /\
    call_args c = [VStr "MKTOWS"; VInt 1001; keys; VNone; VNone; ptl] /\
    obj_field (call_heap c) keys "leadKey" = Some kl /\
    list_items (call_heap c) kl = Some kitems /\
    map (read_lead_key (call_heap c)) kitems
      = [Some (VStr "EMAIL", VStr "a@b.com"); Some (VStr "EMAIL", VStr "c@b.com")] /\
    obj_field (call_heap c) ptl "attribute" = Some tl /\
    list_items (call_heap c) tl = Some [pta] /\
    read_named (call_heap c) pta = Some (VStr "{{my.token}}", VStr "v").
Proof.
  destruct (request_campaign_request sample_clock sample_respond one_client 0
              "bob" "secret"
              (layout marketo_wsdl "ReqCampSourceType") "MKTOWS"
              (layout marketo_wsdl "ArrayOfLeadKey")
              (layout marketo_wsdl "ArrayOfAttribute")
              (layout marketo_wsdl "Attribute")
              (layout marketo_wsdl "LeadKey")
              "LeadKeyRef" (map (fun m => (m, ShStr m)) lead_key_ref)
              VNone (VInt 1001)
              [(VStr "EMAIL", VStr "a@b.com"); (VStr "EMAIL", VStr "c@b.com")]
              VNone VNone (VStr "{{my.token}}") (VStr "v") [VStr "left out"])
    as (s' & c & keys & kl & kitems & ptl & tl & pta
        & E & Hc & _ & Ha & H1 & H2 & H3 & H4 & H5 & H6); [known ..|].
  exists s', c, keys, kl, kitems, ptl, tl, pta. repeat split; assumption.
Defined.

Lemma merge_leads_both_lists_witness :
  exists s' c winning_list losing_list kl entry ll lose,
    merge_leads sample_clock sample_respond 0 (VInt 7) (VInt 9) one_client
      = (sample_respond 0, s') /\
    calls s' = [c] /\
    call_args c = [winning_list; losing_list] /\
    obj_field (call_heap c) losing_list "keyList" = Some kl /\
    list_items (call_heap c) kl = Some [entry] /\
    obj_field (call_heap c) entry "attribute" = Some ll /\
    list_items (call_heap c) ll = Some [lose] /\
    read_named (call_heap c) lose = Some (VStr "IDNUM", VInt 9).
Proof.
  destruct (merge_leads_both_lists sample_clock sample_respond one_client 0
              "bob" "secret"
              (layout marketo_wsdl "Attribute")
              (layout marketo_wsdl "ArrayOfAttribute")
              (layout marketo_wsdl "ArrayOfKeyList") (VInt 7) (VInt 9))
    as (s' & c & wl & _ & _ & ll & kl & entry & al & lose
        & E & Hc & _ & Ha & _ & (H1 & H2 & H3 & H4 & H5) & _); [known ..|].
  exists s', c, wl, ll, kl, entry, al, lose. repeat split; assumption.
Defined.

Lemma merge_leads_unbound_witness :
  exists s',
    merge_leads sample_clock sample_respond 0 (VInt 7) (VInt 9)
      (client_of no_key_list_wsdl)
      = (Raise (UnboundLocalError "losing_lead_key_list"), s') /\
    calls s' = [].
Proof.
  destruct (merge_leads_unbound sample_clock sample_respond
              (client_of no_key_list_wsdl) 0 "bob" "secret"
              (layout no_key_list_wsdl "Attribute")
              (layout no_key_list_wsdl "ArrayOfAttribute") (VInt 7) (VInt 9))
    as (s' & E & Hc & _); [known ..|].
  exists s'. split; assumption.
Defined.
